(** * Image-Reconciliation: the reconciliation core of [app.py]

    The four functions of [app.py] that carry the data logic are embedded
    here: [parse_metadata], [detect_primary_key], [match_data] and
    [clean_column_headers].  They are thin layers over Python's [str] and
    over pandas, so the development first describes the library
    operations they call, at the level of their documented behaviour, and
    then transcribes the functions line by line.  The functions around
    them follow: [fetch_s3_file] and [list_s3_files] over an S3 service
    that is taken as given, the session logic of [main], [reset_session]
    and of the start button of [upload_page], and [results_page], which
    ties the parts together.

    Conventions.
    - A Python [str] is the list of its Unicode code points; the
      character database that [str.title] reads is a parameter.
    - A raised exception is the [Raise] branch of [result].
    - A pandas [DataFrame] is a list of column labels with a list of rows;
      a null cell ([NaN]/[None]) of a data column is [None].
    - Objects that the code mutates in place live in a [heap].
    - The order of the rows of an outer join, the check of the key
      types, the promotion of a column that gets a null and the choice,
      by version, of the key column that an empty left frame loses are
      parameters of the merge.
    - The readers of pandas are described on delimited classes of inputs
      ([covered]); the JSON decoder of pandas and the parser of
      ElementTree are parameters.
    - A double is a [spec_float] of the Standard Library.
    - [st.session_state] is a finite map from names to strings; what a
      page shows is a list of events. *)

From Stdlib Require Import ZArith NArith Ascii String List Lia.
From Stdlib Require Import Floats.SpecFloat.
From stdpp Require Import base option list gmap.

Set Warnings "-register-all".

(** ** Python strings *)

Module PyStr.

(** A character is its code point; a string is the list of them. *)
Abbreviation char := N (only parsing).
Abbreviation str := (list N) (only parsing).

(** A literal of the source, given by its ASCII spelling. *)
Definition lit (s : string) : str :=
  map N_of_ascii (list_ascii_of_string s).

Definition is_ascii (c : char) : Prop := (c < 128)%N.
Definition ascii_str (s : str) : Prop := Forall is_ascii s.

(** *** Basic Latin *)

Definition is_upper_latin (c : char) : bool := ((65 <=? c) && (c <=? 90))%N.
Definition is_lower_latin (c : char) : bool := ((97 <=? c) && (c <=? 122))%N.
Definition is_latin_letter (c : char) : bool :=
  is_upper_latin c || is_lower_latin c.

Definition upper_latin (c : char) : char :=
  if is_lower_latin c then (c - 32)%N else c.
Definition lower_latin (c : char) : char :=
  if is_upper_latin c then (c + 32)%N else c.

(** *** The Unicode character database

    CPython's case functions read the character database of the Unicode
    version it was built with.  The database is taken as given:
    [_PyUnicode_ToLowerFull], [_PyUnicode_ToTitleFull],
    [_PyUnicode_IsCased] and [_PyUnicode_IsCaseIgnorable]. *)
Record ucd := mk_ucd {
  to_lower_full : char -> list char;
  to_title_full : char -> list char;
  is_cased : char -> bool;
  is_case_ignorable : char -> bool
}.

(** What the database says of the Basic Latin block. *)
Definition basic_latin (db : ucd) : Prop :=
  forall c, is_ascii c ->
    to_lower_full db c = [lower_latin c]
    /\ to_title_full db c = [upper_latin c]
    /\ is_cased db c = is_latin_letter c.

(** *** [str.title] *)

Section Title.
Variable db : ucd.

Fixpoint first_not_ignorable (s : str) : option char :=
  match s with
  | [] => None
  | c :: rest =>
      if is_case_ignorable db c then first_not_ignorable rest else Some c
  end.

(** [handle_capital_sigma]: U+03A3 is a final sigma when a cased
    character precedes it and none follows it, case-ignorable
    characters aside. *)
Definition final_sigma (before_reversed after : str) : bool :=
  match first_not_ignorable before_reversed with
  | Some c =>
      is_cased db c
      && match first_not_ignorable after with
         | Some c' => negb (is_cased db c')
         | None => true
         end
  | None => false
  end.

(** [lower_ucs4] *)
Definition lower_ucs4 (before_reversed : str) (c : char) (after : str)
  : list char :=
  if (c =? 0x3A3)%N
  then [if final_sigma before_reversed after then 0x3C2 else 0x3C3]%N
  else to_lower_full db c.

(** CPython's [do_title]: a character that follows a cased character is
    lower-cased, any other character is title-cased. *)
Fixpoint do_title (before_reversed : str) (previous_is_cased : bool) (s : str)
  : str :=
  match s with
  | [] => []
  | c :: rest =>
      (if previous_is_cased then lower_ucs4 before_reversed c rest
       else to_title_full db c)
        ++ do_title (c :: before_reversed) (is_cased db c) rest
  end.

Definition title (s : str) : str := do_title [] false s.

End Title.

(** *** [str.replace] with a one-character pattern *)
Definition replace (old : char) (new : str) (s : str) : str :=
  flat_map (fun c => if (c =? old)%N then new else [c]) s.

Definition underscore : char := 95%N.
Definition space : char := 32%N.

(** *** Entries of the database

    The entries for the Basic Latin block, for U+0130 (capital I with dot
    above, which lowers to "i" followed by U+0307) and for U+0307
    (combining dot above, which is case-ignorable and not cased).  The
    table is used at sample names over these code points only; it gives
    no case to any other code point. *)
Definition latin_and_dotted_i : ucd :=
  mk_ucd
    (fun c => if (c =? 0x130)%N then [0x69; 0x307]%N else [lower_latin c])
    (fun c => [upper_latin c])
    (fun c => is_latin_letter c || (c =? 0x130)%N)
    (fun c => (c =? 0x307) || (c =? 0x27) || (c =? 0x2E) || (c =? 0x3A)
              || (c =? 0x5E) || (c =? 0x60))%N.

End PyStr.

(** ** Exceptions *)

Inductive exn :=
| IndexError
| KeyError (label : PyStr.str)
| AttributeError
| ValueError (msg : PyStr.str)
| MergeError
| EmptyDataError
| UnicodeDecodeError.

Inductive result (A : Type) :=
| Ok (a : A)
| Raise (e : exn).
Arguments Ok {A} a.
Arguments Raise {A} e.

Definition bind {A B} (r : result A) (k : A -> result B) : result B :=
  match r with
  | Ok a => k a
  | Raise e => Raise e
  end.

Notation "'try!' x := r 'in' k" := (bind r (fun x => k))
  (at level 10, x name, r at level 100, k at level 200,
   format "'try!'  x  :=  r  'in' '//' k").

(** ** Data frames *)

Abbreviation label := (list N) (only parsing).

Record DataFrame (C : Type) := mkFrame {
  columns : list label;
  rows : list (list C)
}.
Arguments mkFrame {C} columns rows.
Arguments columns {C} d.
Arguments rows {C} d.

(** [pd.DataFrame()] *)
Definition empty_frame {C} : DataFrame C := mkFrame [] [].

(** Every row has one cell per declared column. *)
Definition well_formed {C} (df : DataFrame C) : Prop :=
  Forall (fun r => length r = length (columns df)) (rows df).

(** [df.columns = new_labels] *)
Definition set_columns {C} (new_labels : list label) (df : DataFrame C)
  : DataFrame C :=
  mkFrame new_labels (rows df).

(** ** Clean Headers *)

Definition clean_header (db : PyStr.ucd) (col : label) : label :=
  PyStr.title db (PyStr.replace PyStr.underscore [PyStr.space] col).

(** Object references and the objects they denote. *)
Abbreviation ref := nat (only parsing).
Abbreviation heap C := (gmap nat (DataFrame C)) (only parsing).

Section Heap.
Context {C : Type}.
Variable db : PyStr.ucd.

(** [df.columns = [...]] assigns in the object [df] refers to;
    [return df] hands back the same reference. *)
Definition clean_column_headers (df : ref) (h : heap C)
  : option (ref * heap C) :=
  match h !! df with
  | Some frame =>
      Some (df, <[df := set_columns (map (clean_header db) (columns frame)) frame]> h)
  | None => None
  end.

End Heap.

(** ** Selecting a column: [df[column]]

    With a label that names exactly one column the selection is that
    column (a [Series]); with a label carried by several columns pandas
    returns the sub-frame of all of them; an unknown label raises
    [KeyError]. *)

Inductive selection (C : Type) :=
| ASeries (values : list C)
| AFrame (sub : DataFrame C).
Arguments ASeries {C} values.
Arguments AFrame {C} sub.

(** Positions at which [x] occurs in [l], from position [i] on. *)
Fixpoint positions_from {A} `{EqDecision A} (i : nat) (x : A) (l : list A)
  : list nat :=
  match l with
  | [] => []
  | y :: rest =>
      if decide (y = x) then i :: positions_from (S i) x rest
      else positions_from (S i) x rest
  end.
Definition positions {A} `{EqDecision A} (x : A) (l : list A) : list nat :=
  positions_from 0 x l.

Section Selection.
Context {C : Type}.
Variable missing : C.

Definition cell_at (j : nat) (r : list C) : C := default missing (r !! j).

Definition column_values (df : DataFrame C) (j : nat) : list C :=
  map (cell_at j) (rows df).

Definition getitem (df : DataFrame C) (name : label) : result (selection C) :=
  match positions name (columns df) with
  | [] => Raise (KeyError name)
  | [j] => Ok (ASeries (column_values df j))
  | js =>
      Ok (AFrame (mkFrame (map (fun _ => name) js)
                          (map (fun r => map (fun j => cell_at j r) js) (rows df))))
  end.

(** [df[mask]]: the rows whose mask entry is true, in order. *)
Fixpoint boolean_mask (mask : list bool) (rs : list (list C)) : list (list C) :=
  match mask, rs with
  | b :: mask', r :: rs' =>
      if b then r :: boolean_mask mask' rs' else boolean_mask mask' rs'
  | _, _ => []
  end.

Definition select_rows (df : DataFrame C) (mask : list bool) : DataFrame C :=
  mkFrame (columns df) (boolean_mask mask (rows df)).

End Selection.

(** ** Primary Key Detection *)

Section KeyInference.
Context {V : Type} `{EqDecision V}.

(** A cell of a data column is a scalar, or null: [option V]. *)

(** [Series.is_unique]: no value occurs twice (null counts as a value). *)
Definition is_unique (s : list (option V)) : bool := bool_decide (NoDup s).

(** [Series.notnull().all()] *)
Definition notnull_all (s : list (option V)) : bool :=
  forallb (fun c => bool_decide (c <> None)) s.

(** The condition of the [if]; the attribute [is_unique] does not exist
    on a sub-frame. *)
Definition key_candidate (sel : selection (option V)) : result bool :=
  match sel with
  | ASeries s => Ok (is_unique s && notnull_all s)
  | AFrame _ => Raise AttributeError
  end.

(** The [for] loop: [Some column] when the loop returns from inside,
    [None] when it runs to its end. *)
Fixpoint scan_columns (df : DataFrame (option V)) (cols : list label)
  : result (option label) :=
  match cols with
  | [] => Ok None
  | column :: rest =>
      try! sel := getitem None df column in
      try! good := key_candidate sel in
      if good then Ok (Some column) else scan_columns df rest
  end.

Definition detect_primary_key (df : DataFrame (option V)) : result label :=
  try! found := scan_columns df (columns df) in
  match found with
  | Some column => Ok column
  | None =>
      match columns df with
      | first :: _ => Ok first
      | [] => Raise IndexError
      end
  end.

End KeyInference.

(** The two conditions that the specification puts on a key column. *)

Definition all_non_null {V} (vals : list (option V)) : Prop :=
  forall i c, vals !! i = Some c -> c <> None.

Definition pairwise_distinct {V} (vals : list (option V)) : Prop :=
  forall i j x y, i <> j -> vals !! i = Some x -> vals !! j = Some y -> x <> y.

(** The column at position [j] has only non-null, pairwise distinct
    values. *)
Definition key_like {V} (df : DataFrame (option V)) (j : nat) : Prop :=
  all_non_null (column_values None df j)
  /\ pairwise_distinct (column_values None df j).

(** ** Matcher *)

(** The categories of the indicator column that [indicator=True] adds. *)
Inductive indicator := left_only | right_only | both.

Global Instance indicator_eq_dec : EqDecision indicator.
Proof. solve_decision. Defined.

(** A cell of a merged frame: a data cell or an indicator category. *)
Inductive mcell (V : Type) :=
| Data (c : option V)
| Category (i : indicator).
Arguments Data {V} c.
Arguments Category {V} i.

(** A row of the join: the position of the left row and of the right row
    it is taken from, [None] where pandas' indexer holds [-1]. *)
Abbreviation join_row := (option nat * option nat)%type (only parsing).

Definition indicator_of (jr : join_row) : indicator :=
  match jr with
  | (Some _, Some _) => both
  | (Some _, None) => left_only
  | (None, _) => right_only
  end.

(** [Index.duplicated()]: marks every occurrence but the first. *)
Fixpoint duplicated (seen l : list label) : list bool :=
  match l with
  | [] => []
  | x :: rest => bool_decide (x ∈ seen) :: duplicated (x :: seen) rest
  end.

Definition suffix_x : label := PyStr.lit "_x".
Definition suffix_y : label := PyStr.lit "_y".
Definition merge_label : label := PyStr.lit "_merge".
Definition left_indicator_label : label := PyStr.lit "_left_indicator".
Definition right_indicator_label : label := PyStr.lit "_right_indicator".

(** The renamer of [_items_overlap_with_suffix]. *)
Definition renamer (to_rename : list label) (suffix : label) (x : label) : label :=
  if decide (x ∈ to_rename) then x ++ suffix else x.

(** Labels that became duplicates through the suffix only. *)
Definition suffix_dups (orig renamed : list label) : list label :=
  omap (fun '(x, (d_new, d_old)) => if d_new && negb d_old then Some x else None)
       (zip renamed (zip (duplicated [] renamed) (duplicated [] orig))).

Definition items_overlap_with_suffix (lcols rcols : list label)
  : result (list label * list label) :=
  let to_rename := filter (fun x => x ∈ rcols) lcols in
  match to_rename with
  | [] => Ok (lcols, rcols)
  | _ =>
      let llabels := map (renamer to_rename suffix_x) lcols in
      let rlabels := map (renamer to_rename suffix_y) rcols in
      match suffix_dups lcols llabels ++ suffix_dups rcols rlabels with
      | [] => Ok (llabels, rlabels)
      | _ => Raise MergeError
      end
  end.

Section Matcher.
Context {V : Type} `{EqDecision V}.

(** [V] is the type of the scalars of the frames.  Four facts of pandas
    are taken as given.  The order in which it lays out the rows of an
    outer join depends on its version and on the key values.  Before it
    joins, it checks that the types of the two key columns can be
    compared, and refuses, for example, strings against integers
    ([_maybe_coerce_merge_keys]).  A column into which the join puts a
    null is stored in a type that has a null ([take_nd] with
    [maybe_promote]): [promote col v] is what the value [v] of a column
    with the cells [col] becomes, the nearest double for an integer of
    an [int64] column, the same value in a column of objects.  With one
    key name for both sides and a left frame without rows, pandas up to
    2.1 drops the left key column and pandas from 2.2 on the right one;
    the source pins no version. *)
Variable arrange : list join_row -> list join_row.
Variable keys_comparable : list (option V) -> list (option V) -> bool.
Variable promote : list (option V) -> V -> V.
Variable empty_left_drops_left_key : bool.

(** [_get_label_or_level_values] *)
Definition key_values (df : DataFrame (option V)) (key : label)
  : result (list (option V)) :=
  match positions key (columns df) with
  | [] => Raise (KeyError key)
  | [j] => Ok (column_values None df j)
  | _ => Raise (ValueError (PyStr.lit "The column label is not unique."))
  end.

(** Null keys compare equal to each other in a merge. *)
Definition left_group (rkeys : list (option V)) (i : nat) (k : option V)
  : list join_row :=
  match positions k rkeys with
  | [] => [(Some i, None)]
  | js => map (fun j => (Some i, Some j)) js
  end.

Definition right_group (lkeys : list (option V)) (j : nat) (k : option V)
  : list join_row :=
  match positions k lkeys with
  | [] => [(None, Some j)]
  | _ => []
  end.

Definition join_groups (lkeys rkeys : list (option V)) : list join_row :=
  concat (imap (left_group rkeys) lkeys)
  ++ concat (imap (right_group lkeys) rkeys).

Definition full_outer_join (lkeys rkeys : list (option V)) : list join_row :=
  arrange (join_groups lkeys rkeys).

(** [take] with fill: the row at a position, nulls for [-1]. *)
Definition take_row (df : DataFrame (option V)) (oi : option nat)
  : list (option V) :=
  match oi ≫= (fun i => rows df !! i) with
  | Some r => r
  | None => replicate (length (columns df)) None
  end.

(** [_drop_labels_or_levels] for one label. *)
Definition drop_positions {A} (js : list nat) (l : list A) : list A :=
  omap (fun '(i, x) => if decide (i ∈ js) then None else Some x)
       (zip (seq 0 (length l)) l).

Definition drop_label (df : DataFrame (option V)) (name : label)
  : DataFrame (option V) :=
  let js := positions name (columns df) in
  mkFrame (drop_positions js (columns df)) (map (drop_positions js) (rows df)).

(** [_indicator_pre_merge] *)
Definition indicator_pre_merge (lcols rcols : list label) : result unit :=
  if decide (left_indicator_label ∈ lcols ++ rcols)
  then Raise (ValueError (PyStr.lit "Cannot use `indicator=True` option when data contains a column named _left_indicator"))
  else if decide (right_indicator_label ∈ lcols ++ rcols)
  then Raise (ValueError (PyStr.lit "Cannot use `indicator=True` option when data contains a column named _right_indicator"))
  else if decide (merge_label ∈ lcols ++ rcols)
  then Raise (ValueError (PyStr.lit "Cannot use name of an existing column for indicator column"))
  else Ok tt.

(** [_maybe_add_join_keys]: with one key name for both sides the key
    column of a right-only row is filled from the right key. *)
Definition fill_key (fill : bool) (left_on : label) (lcols : list label)
    (rkeys : list (option V)) (jr : join_row) (lcells : list (option V))
  : list (option V) :=
  match fill, jr with
  | true, (None, Some j) =>
      match positions left_on lcols with
      | [p] => <[p := default None (rkeys !! j)]> lcells
      | _ => lcells
      end
  | _, _ => lcells
  end.

(** The cells of a row of a side into whose columns the join puts a
    null: each cell is stored in the promoted type of its column.  The
    cell at the position [keep] stays as it is: it is the key that
    [_maybe_add_join_keys] takes from the key columns themselves. *)
Definition promote_cells (df : DataFrame (option V)) (keep : option nat)
    (r : list (option V)) : list (option V) :=
  imap (fun c x => if decide (keep = Some c) then x
                   else promote (column_values None df c) <$> x) r.

Definition stored_cells (gets_null : bool) (df : DataFrame (option V))
    (keep : option nat) (r : list (option V)) : list (option V) :=
  if gets_null then promote_cells df keep r else r.

(** Whether some row of the join has no left row, no right row: the
    indexer of that side holds a [-1]. *)
Definition lacks_left (join : list join_row) : bool :=
  existsb (fun jr : join_row => bool_decide (jr.1 = None)) join.
Definition lacks_right (join : list join_row) : bool :=
  existsb (fun jr : join_row => bool_decide (jr.2 = None)) join.

(** The position of the key column that the merge fills in itself. *)
Definition filled_key (fill : bool) (left_on : label) (lcols : list label)
  : option nat :=
  if fill then match positions left_on lcols with [p] => Some p | _ => None end
  else None.

Definition merged_row (left' right' : DataFrame (option V)) (fill : bool)
    (left_on : label) (rkeys : list (option V)) (join : list join_row)
    (jr : join_row) : list (mcell V) :=
  map Data (fill_key fill left_on (columns left') rkeys jr
              (stored_cells (lacks_left join) left'
                 (filled_key fill left_on (columns left'))
                 (take_row left' jr.1)))
  ++ map Data (stored_cells (lacks_right join) right' None
                 (take_row right' jr.2))
  ++ [Category (indicator_of jr)].

(** With one key name for both sides only one key column is kept
    ([_get_merge_keys]): the right one is dropped; pandas up to 2.1 drops
    the left one instead when the left frame has no row. *)
Definition drops_left (left : DataFrame (option V)) (left_on right_on : label)
  : bool :=
  empty_left_drops_left_key
  && bool_decide (left_on = right_on) && bool_decide (rows left = []).

Definition drops_right (left : DataFrame (option V)) (left_on right_on : label)
  : bool :=
  bool_decide (left_on = right_on) && negb (drops_left left left_on right_on).

Definition kept_left (left : DataFrame (option V)) (left_on right_on : label)
  : DataFrame (option V) :=
  if drops_left left left_on right_on then drop_label left left_on else left.

Definition kept_right (left right : DataFrame (option V))
    (left_on right_on : label) : DataFrame (option V) :=
  if drops_right left left_on right_on then drop_label right right_on else right.

(** [pd.merge(left, right, left_on=.., right_on=.., how='outer',
    indicator=True)] *)
Definition merge (left right : DataFrame (option V)) (left_on right_on : label)
  : result (DataFrame (mcell V)) :=
  try! rkeys := key_values right right_on in
  try! lkeys := key_values left left_on in
  let left' := kept_left left left_on right_on in
  let right' := kept_right left right left_on right_on in
  if negb (keys_comparable lkeys rkeys)
  then Raise (ValueError (PyStr.lit "You are trying to merge on columns of incompatible types"))
  else
  try! checked := indicator_pre_merge (columns left') (columns right') in
  try! labels := items_overlap_with_suffix (columns left') (columns right') in
  let join := full_outer_join lkeys rkeys in
  Ok (mkFrame (labels.1 ++ labels.2 ++ [merge_label])
              (map (merged_row left' right' (drops_right left left_on right_on)
                               left_on rkeys join)
                   join)).

(** [series == 'both'] and [series != 'both'] *)
Definition is_both (c : mcell V) : bool :=
  match c with
  | Category i => bool_decide (i = both)
  | Data _ => false
  end.

Definition series_of (sel : selection (mcell V)) : result (list (mcell V)) :=
  match sel with
  | ASeries s => Ok s
  | AFrame _ => Raise (ValueError (PyStr.lit "Boolean array expected"))
  end.

Definition match_data (meta_df cust_df : DataFrame (option V))
    (meta_key cust_key : label)
  : result (DataFrame (mcell V) * DataFrame (mcell V)) :=
  try! merged := merge meta_df cust_df meta_key cust_key in
  try! sel := getitem (Data None) merged merge_label in
  try! ind := series_of sel in
  let matched := select_rows merged (map is_both ind) in
  try! sel' := getitem (Data None) merged merge_label in
  try! ind' := series_of sel' in
  let unmatched := select_rows merged (map (fun c => negb (is_both c)) ind') in
  Ok (matched, unmatched).

(** The row that the merge builds for a row of the join, from the
    arguments of the merge. *)
Definition keys_of (df : DataFrame (option V)) (key : label)
  : list (option V) :=
  match key_values df key with Ok ks => ks | Raise _ => [] end.

Definition joined_row (left right : DataFrame (option V))
    (left_on right_on : label) (jr : join_row) : list (mcell V) :=
  merged_row (kept_left left left_on right_on)
    (kept_right left right left_on right_on)
    (drops_right left left_on right_on) left_on
    (keys_of right right_on)
    (full_outer_join (keys_of left left_on) (keys_of right right_on))
    jr.

(** What the merge requires of its arguments in order to return:
    rectangular frames with distinct labels, keys that are labels and
    whose columns can be compared, no label that the indicator needs,
    and no shared label whose suffixed form is already a label. *)
Record mergeable (left right : DataFrame (option V))
    (left_on right_on : label) : Prop := {
  left_rectangular : well_formed left;
  right_rectangular : well_formed right;
  left_distinct : NoDup (columns left);
  right_distinct : NoDup (columns right);
  left_key_present : left_on ∈ columns left;
  right_key_present : right_on ∈ columns right;
  keys_of_one_kind :
    forall lkeys rkeys,
      key_values left left_on = Ok lkeys -> key_values right right_on = Ok rkeys ->
      keys_comparable lkeys rkeys = true;
  not_reserved :
    forall l, l ∈ [merge_label; left_indicator_label; right_indicator_label] ->
              (l ∉ columns left) /\ (l ∉ columns right);
  no_suffix_clash :
    forall a, a ∈ columns left -> a ∈ columns right ->
              (a ++ suffix_x ∉ columns left) /\ (a ++ suffix_y ∉ columns right)
}.

(** *** The rows of the merged table, by the rows of the arguments

    What a row of the merged table holds, said with the rows of the two
    arguments and the positions [p] and [q] of their key columns. *)

(** Some right key is no left key: the left side of the join gets a
    null; and the same for the right side. *)
Definition left_gets_null (lkeys rkeys : list (option V)) : bool :=
  existsb (fun k => bool_decide (k ∉ lkeys)) rkeys.
Definition right_gets_null (lkeys rkeys : list (option V)) : bool :=
  existsb (fun k => bool_decide (k ∉ rkeys)) lkeys.

Section Rows.
Variables (left right : DataFrame (option V)) (left_on right_on : label).
Variables (p q : nat).

(** The cells of the left row [r] in the merged table: stored in the
    promoted types when a right row has no partner, except for the key
    under a name that both sides use. *)
Definition shown_left (r : list (option V)) : list (option V) :=
  stored_cells
    (left_gets_null (column_values None left p) (column_values None right q))
    left (if decide (left_on = right_on) then Some p else None) r.

(** The cells of the right row [r]: without its key where the right key
    column is dropped, stored in the promoted types when a left row has
    no partner. *)
Definition shown_right (r : list (option V)) : list (option V) :=
  stored_cells
    (right_gets_null (column_values None left p) (column_values None right q))
    (kept_right left right left_on right_on) None
    (if drops_right left left_on right_on then drop_positions [q] r else r).

(** The left cells of the right row [j] without partner: nulls, and the
    key of the row where one key column stands for both sides. *)
Definition filled_left (j : nat) : list (option V) :=
  let nulls :=
    replicate (length (columns (kept_left left left_on right_on))) None in
  if drops_right left left_on right_on
  then <[p := default None (column_values None right q !! j)]> nulls
  else nulls.

Definition row_for (jr : join_row) (row : list (mcell V)) : Prop :=
  match jr with
  | (Some i, Some j) =>
      exists r r', rows left !! i = Some r /\ rows right !! j = Some r' /\
        row = map Data (shown_left r) ++ map Data (shown_right r')
              ++ [Category both]
  | (Some i, None) =>
      exists r, rows left !! i = Some r /\
        row = map Data (shown_left r)
              ++ replicate
                   (length (columns (kept_right left right left_on right_on)))
                   (Data None)
              ++ [Category left_only]
  | (None, Some j) =>
      exists r', rows right !! j = Some r' /\
        row = map Data (filled_left j) ++ map Data (shown_right r')
              ++ [Category right_only]
  | (None, None) => False
  end.

End Rows.

(** [DataFrame.drop(columns=[name])], as the results page calls it:
    a new frame without the column; an unknown label raises. *)
Definition drop_columns (df : DataFrame (mcell V)) (name : label)
  : result (DataFrame (mcell V)) :=
  match positions name (columns df) with
  | [] => Raise (KeyError name)
  | js => Ok (mkFrame (drop_positions js (columns df))
                      (map (drop_positions js) (rows df)))
  end.

End Matcher.

(** How often the left row [i], the right row [j], occurs among rows of
    a join. *)
Definition left_occurrences (i : nat) (l : list join_row) : nat :=
  length (filter (fun jr : join_row => jr.1 = Some i) l).
Definition right_occurrences (j : nat) (l : list join_row) : nat :=
  length (filter (fun jr : join_row => jr.2 = Some j) l).
Definition pair_occurrences (i j : nat) (l : list join_row) : nat :=
  length (filter (fun jr : join_row => jr = (Some i, Some j)) l).

(** ** File Parsing *)

(** pandas' readers accept far more than is described here.  A reader
    is described on a delimited class of inputs; on any other input the
    description says [NotCovered] and nothing is stated. *)
Inductive covered (A : Type) :=
| Covered (a : A)
| NotCovered.
Arguments Covered {A} a.
Arguments NotCovered {A}.

(** The scalars of a frame: integers, booleans, strings and doubles. *)
Global Instance spec_float_eq_dec : EqDecision spec_float.
Proof. solve_decision. Defined.

Inductive scalar :=
| SInt (z : Z)
| SBool (b : bool)
| SStr (s : PyStr.str)
| SFloat (x : spec_float).

Global Instance scalar_eq_dec : EqDecision scalar.
Proof. solve_decision. Defined.

(** The double nearest to an integer (ties to even): what an [int64]
    becomes in a [float64] column. *)
Definition nearest_double (z : Z) : spec_float :=
  binary_normalize 53 1024 z 0 false.

(** What the function shows through Streamlit. *)
Inductive message :=
| st_warning (text : PyStr.str)
| st_error_failed_to_parse (filename : PyStr.str) (e : exn).

(** *** [bytes.decode('utf-8')] *)

Definition is_continuation (b : N) : bool := ((0x80 <=? b) && (b <=? 0xBF))%N.

Definition cons_ok (c : PyStr.char) (r : result PyStr.str) : result PyStr.str :=
  try! s := r in Ok (c :: s).

Fixpoint decode_utf8 (bs : list N) : result PyStr.str :=
  match bs with
  | [] => Ok []
  | b0 :: rest =>
      if (b0 <? 0x80)%N then cons_ok b0 (decode_utf8 rest)
      else if ((0xC2 <=? b0) && (b0 <=? 0xDF))%N then
        match rest with
        | b1 :: rest1 =>
            if is_continuation b1
            then cons_ok ((b0 - 0xC0) * 64 + (b1 - 0x80))%N (decode_utf8 rest1)
            else Raise UnicodeDecodeError
        | _ => Raise UnicodeDecodeError
        end
      else if ((0xE0 <=? b0) && (b0 <=? 0xEF))%N then
        match rest with
        | b1 :: b2 :: rest2 =>
            if is_continuation b1 && is_continuation b2
               && negb ((b0 =? 0xE0) && (b1 <? 0xA0))%N
               && negb ((b0 =? 0xED) && (0x9F <? b1))%N
            then cons_ok ((b0 - 0xE0) * 4096 + (b1 - 0x80) * 64 + (b2 - 0x80))%N
                         (decode_utf8 rest2)
            else Raise UnicodeDecodeError
        | _ => Raise UnicodeDecodeError
        end
      else if ((0xF0 <=? b0) && (b0 <=? 0xF4))%N then
        match rest with
        | b1 :: b2 :: b3 :: rest3 =>
            if is_continuation b1 && is_continuation b2 && is_continuation b3
               && negb ((b0 =? 0xF0) && (b1 <? 0x90))%N
               && negb ((b0 =? 0xF4) && (0x8F <? b1))%N
            then cons_ok ((b0 - 0xF0) * 262144 + (b1 - 0x80) * 4096
                          + (b2 - 0x80) * 64 + (b3 - 0x80))%N
                         (decode_utf8 rest3)
            else Raise UnicodeDecodeError
        | _ => Raise UnicodeDecodeError
        end
      else Raise UnicodeDecodeError
  end.

(** *** [pd.read_csv] with its default arguments

    Covered: text made of lines ended by a line feed, fields separated by
    commas and written with printable ASCII characters other than the
    double quote; a header of distinct non-empty names; every record
    with as many fields as the header; every field an integer literal
    of at most 18 digits, or empty, or one of the null markers, or a
    word that no reader of numbers, booleans or null markers
    recognises; no column that mixes integers and nulls only (pandas
    reads it as floating-point numbers, as it does fields with a
    fraction or an exponent); a table small enough to be read in one
    piece (pandas infers the types of a larger file piece by piece). *)

Definition line_feed : PyStr.char := 10%N.
Definition comma : PyStr.char := 44%N.

(** [str.split(sep)] for a one-character separator. *)
Fixpoint split_on (sep : PyStr.char) (s : PyStr.str) : list PyStr.str :=
  match s with
  | [] => [[]]
  | c :: rest =>
      if (c =? sep)%N then [] :: split_on sep rest
      else match split_on sep rest with
           | piece :: pieces => (c :: piece) :: pieces
           | [] => [[c]]
           end
  end.

Definition csv_char (c : PyStr.char) : bool :=
  ((c =? line_feed) || ((32 <=? c) && (c <=? 126) && negb (c =? 34)))%N.

Definition is_digit (c : PyStr.char) : bool := ((48 <=? c) && (c <=? 57))%N.

Definition digits_value (ds : PyStr.str) : Z :=
  fold_left (fun acc d => (acc * 10 + Z.of_N (d - 48))%Z) ds 0%Z.

Definition digits_ok (ds : PyStr.str) : bool :=
  negb (bool_decide (ds = [])) && (length ds <=? 18)%nat && forallb is_digit ds.

Definition int_literal (t : PyStr.str) : option Z :=
  match t with
  | 45%N :: ds => if digits_ok ds then Some (- digits_value ds)%Z else None
  | ds => if digits_ok ds then Some (digits_value ds) else None
  end.

(** The fields that every version of pandas reads as null, besides the
    empty field; the comparison is exact. *)
Definition null_markers : list PyStr.str :=
  map PyStr.lit
    ["NA"; "N/A"; "NULL"; "NaN"; "n/a"; "nan"; "null"; "#N/A"; "#NA";
     "<NA>"; "-NaN"; "-nan"; "1.#IND"; "-1.#IND"; "1.#QNAN"; "-1.#QNAN";
     "#N/A N/A"]%string.

(** Words that some reader recognises in some spelling or version: the
    null markers, the booleans, the spellings of infinity and
    not-a-number. *)
Definition reserved_words : list PyStr.str :=
  map PyStr.lit
    ["nan"; "-nan"; "+nan"; "na"; "n/a"; "#n/a"; "#na"; "null"; "none";
     "<na>"; "true"; "false"; "inf"; "-inf"; "+inf"; "infinity";
     "-infinity"; "+infinity"; "1.#ind"; "-1.#ind"; "1.#qnan"; "-1.#qnan";
     "#n/a n/a"]%string.

Fixpoint strip_left (t : PyStr.str) : PyStr.str :=
  match t with
  | c :: rest => if (c =? PyStr.space)%N then strip_left rest else t
  | [] => []
  end.

(** The field without the spaces around it. *)
Definition strip_spaces (t : PyStr.str) : PyStr.str :=
  rev (strip_left (rev (strip_left t))).

Definition is_exponent_letter (c : PyStr.char) : bool :=
  ((c =? 101) || (c =? 69))%N.

Definition is_word (t : PyStr.str) : bool :=
  existsb (fun c => PyStr.is_latin_letter c && negb (is_exponent_letter c)) t
  && negb (bool_decide
             (map PyStr.lower_latin (strip_spaces t) ∈ reserved_words)).

Inductive token_class :=
| TEmpty
| TNull
| TInt (z : Z)
| TWord
| TOther.

Definition classify (t : PyStr.str) : token_class :=
  match t with
  | [] => TEmpty
  | _ =>
      if bool_decide (t ∈ null_markers) then TNull else
      match int_literal t with
      | Some z => TInt z
      | None => if is_word t then TWord else TOther
      end
  end.

Inductive dtype := int64 | float64 | object.

Definition is_TInt (k : token_class) : bool :=
  match k with TInt _ => true | _ => false end.
Definition is_missing (k : token_class) : bool :=
  match k with TEmpty | TNull => true | _ => false end.
Definition is_TWord (k : token_class) : bool :=
  match k with TWord => true | _ => false end.
Definition is_TOther (k : token_class) : bool :=
  match k with TOther => true | _ => false end.

(** The type pandas infers for a column from its fields: integers when
    every field is an integer; strings when some field is a word;
    an all-null float column when every field is empty or a null
    marker. *)
Definition infer_dtype (tokens : list PyStr.str) : covered dtype :=
  let ks := map classify tokens in
  if existsb is_TOther ks then NotCovered
  else if existsb is_TWord ks then Covered object
  else if forallb is_TInt ks then Covered int64
  else if forallb is_missing ks then Covered float64
  else NotCovered.

Definition convert (d : dtype) (t : PyStr.str) : option scalar :=
  match d with
  | int64 => SInt <$> int_literal t
  | float64 => None
  | object => if is_missing (classify t) then None else Some (SStr t)
  end.

Fixpoint sequence_covered {A} (l : list (covered A)) : covered (list A) :=
  match l with
  | [] => Covered []
  | NotCovered :: _ => NotCovered
  | Covered a :: rest =>
      match sequence_covered rest with
      | Covered r => Covered (a :: r)
      | NotCovered => NotCovered
      end
  end.

(** A table of this many cells at most is read in one piece. *)
Definition one_piece (header : list PyStr.str) (records : list (list PyStr.str))
  : bool :=
  (N.of_nat (S (length records)) * N.of_nat (length header) <=? 262144)%N.

(** A line without a character other than the space is skipped. *)
Definition blank_line (l : PyStr.str) : bool :=
  forallb (fun c => (c =? PyStr.space)%N) l.

(** The non-blank lines of the text, each split into its fields. *)
Definition csv_records (text : PyStr.str) : list (list PyStr.str) :=
  map (split_on comma)
      (filter (fun l => blank_line l = false) (split_on line_feed text)).

Definition read_csv (text : PyStr.str)
  : covered (result (DataFrame (option scalar))) :=
  if negb (forallb csv_char text) then NotCovered else
  match csv_records text with
  | [] => Covered (Raise EmptyDataError)
  | header :: records =>
      if bool_decide (NoDup header)
         && forallb (fun n => negb (bool_decide (n = []))) header
         && forallb (fun r => (length r =? length header)%nat) records
         && one_piece header records
      then
        match sequence_covered
                (map (fun j => infer_dtype (map (cell_at [] j) records))
                     (seq 0 (length header))) with
        | Covered dtypes =>
            Covered (Ok (mkFrame header (map (zip_with convert dtypes) records)))
        | NotCovered => NotCovered
        end
      else NotCovered
  end.

(** *** Python dictionaries, as insertion-ordered association lists *)

(** [d[k] = v]: a new key goes to the end, a known key keeps its place. *)
Fixpoint dict_set {A} (k : PyStr.str) (v : A) (d : list (PyStr.str * A))
  : list (PyStr.str * A) :=
  match d with
  | [] => [(k, v)]
  | (k', v') :: rest =>
      if decide (k' = k) then (k, v) :: rest else (k', v') :: dict_set k v rest
  end.

Fixpoint dict_get {A} (k : PyStr.str) (d : list (PyStr.str * A)) : option A :=
  match d with
  | [] => None
  | (k', v) :: rest => if decide (k' = k) then Some v else dict_get k rest
  end.

(** *** [pd.DataFrame(rows)] for a list of dictionaries

    The columns are the keys in the order in which they are first seen;
    a key that a row lacks gives a null cell. *)
Fixpoint add_new (keys seen : list label) : list label :=
  match keys with
  | [] => seen
  | k :: rest =>
      if decide (k ∈ seen) then add_new rest seen else add_new rest (seen ++ [k])
  end.

Definition union_of_keys {A} (records : list (list (label * option A)))
  : list label :=
  fold_left (fun seen r => add_new (map fst r) seen) records [].

Definition frame_of_records {A} (records : list (list (label * option A)))
  : DataFrame (option A) :=
  let cols := union_of_keys records in
  mkFrame cols
    (map (fun r => map (fun k => default None (dict_get k r)) cols) records).

(** *** Decoded JSON *)

Inductive json :=
| JNull
| JBool (b : bool)
| JInt (z : Z)
| JFloat (x : spec_float)
| JStr (s : PyStr.str)
| JArr (items : list json)
| JObj (members : list (PyStr.str * json)).

(** A small decoder, for the sample texts: ASCII text without string
    escapes and without fractions or exponents; [None] on anything
    else. *)

Definition is_ws (c : PyStr.char) : bool :=
  ((c =? 32) || (c =? 9) || (c =? 10) || (c =? 13))%N.

Fixpoint skip_ws (s : PyStr.str) : PyStr.str :=
  match s with
  | c :: rest => if is_ws c then skip_ws rest else s
  | [] => []
  end.

Fixpoint strip_prefix (p s : PyStr.str) : option PyStr.str :=
  match p, s with
  | [], _ => Some s
  | a :: p', b :: s' => if (a =? b)%N then strip_prefix p' s' else None
  | _ :: _, [] => None
  end.

Fixpoint string_body (s : PyStr.str) : option (PyStr.str * PyStr.str) :=
  match s with
  | [] => None
  | c :: rest =>
      if (c =? 34)%N then Some ([], rest)
      else if ((c =? 92) || (c <? 32) || (126 <? c))%N then None
      else match string_body rest with
           | Some (body, r) => Some (c :: body, r)
           | None => None
           end
  end.

Fixpoint span_digits (s : PyStr.str) : PyStr.str * PyStr.str :=
  match s with
  | c :: rest =>
      if is_digit c then let '(ds, r) := span_digits rest in (c :: ds, r)
      else ([], s)
  | [] => ([], [])
  end.

Definition number_continues (s : PyStr.str) : bool :=
  match s with
  | c :: _ => ((c =? 46) || (c =? 101) || (c =? 69))%N
  | [] => false
  end.

Definition parse_number (s : PyStr.str) : option (json * PyStr.str) :=
  let '(negative, s1) :=
    match s with
    | 45%N :: r => (true, r)
    | _ => (false, s)
    end in
  let '(ds, rest) := span_digits s1 in
  let leading_zero := match ds with 48%N :: _ :: _ => true | _ => false end in
  let minus_zero := negative && bool_decide (ds = [48%N]) in
  if digits_ok ds && negb leading_zero && negb minus_zero
     && negb (number_continues rest)
  then Some (JInt (if negative then - digits_value ds else digits_value ds)%Z, rest)
  else None.

Fixpoint parse_value (fuel : nat) (s : PyStr.str) {struct fuel}
  : option (json * PyStr.str) :=
  match fuel with
  | O => None
  | S fuel' =>
      let s := skip_ws s in
      match s with
      | 34%N :: rest =>
          match string_body rest with
          | Some (body, r) => Some (JStr body, r)
          | None => None
          end
      | 91%N :: rest =>
          match skip_ws rest with
          | 93%N :: r => Some (JArr [], r)
          | _ =>
              match parse_items fuel' rest with
              | Some (items, r) => Some (JArr items, r)
              | None => None
              end
          end
      | 123%N :: rest =>
          match skip_ws rest with
          | 125%N :: r => Some (JObj [], r)
          | _ =>
              match parse_members fuel' rest with
              | Some (members, r) => Some (JObj members, r)
              | None => None
              end
          end
      | _ =>
          match strip_prefix (PyStr.lit "null") s with
          | Some r => Some (JNull, r)
          | None =>
          match strip_prefix (PyStr.lit "true") s with
          | Some r => Some (JBool true, r)
          | None =>
          match strip_prefix (PyStr.lit "false") s with
          | Some r => Some (JBool false, r)
          | None => parse_number s
          end end end
      end
  end
with parse_items (fuel : nat) (s : PyStr.str) {struct fuel}
  : option (list json * PyStr.str) :=
  match fuel with
  | O => None
  | S fuel' =>
      match parse_value fuel' s with
      | Some (v, r) =>
          match skip_ws r with
          | 44%N :: r' =>
              match parse_items fuel' r' with
              | Some (vs, r'') => Some (v :: vs, r'')
              | None => None
              end
          | 93%N :: r' => Some ([v], r')
          | _ => None
          end
      | None => None
      end
  end
with parse_members (fuel : nat) (s : PyStr.str) {struct fuel}
  : option (list (PyStr.str * json) * PyStr.str) :=
  match fuel with
  | O => None
  | S fuel' =>
      match skip_ws s with
      | 34%N :: rest =>
          match string_body rest with
          | Some (key, r) =>
              match skip_ws r with
              | 58%N :: r1 =>
                  match parse_value fuel' r1 with
                  | Some (v, r2) =>
                      match skip_ws r2 with
                      | 44%N :: r3 =>
                          match parse_members fuel' r3 with
                          | Some (ms, r4) => Some ((key, v) :: ms, r4)
                          | None => None
                          end
                      | 125%N :: r3 => Some ([(key, v)], r3)
                      | _ => None
                      end
                  | None => None
                  end
              | _ => None
              end
          | None => None
          end
      | _ => None
      end
  end.

Definition json_loads (text : PyStr.str) : option json :=
  match parse_value (2 * length text + 2) text with
  | Some (v, r) => match skip_ws r with [] => Some v | _ => None end
  | None => None
  end.

(** *** [pd.DataFrame(data)] for decoded JSON *)

Definition json_scalar (j : json) : option (option scalar) :=
  match j with
  | JNull => Some None
  | JBool b => Some (Some (SBool b))
  | JInt z => Some (Some (SInt z))
  | JFloat x => Some (Some (SFloat x))
  | JStr s => Some (Some (SStr s))
  | JArr _ | JObj _ => None
  end.

Fixpoint sequence_option {A} (l : list (option A)) : option (list A) :=
  match l with
  | [] => Some []
  | None :: _ => None
  | Some a :: rest =>
      match sequence_option rest with
      | Some r => Some (a :: r)
      | None => None
      end
  end.

(** A flat object becomes a dictionary of scalars. *)
Definition flat_record (j : json) : option (list (label * option scalar)) :=
  match j with
  | JObj members =>
      fold_left
        (fun acc '(k, v) =>
           match acc, json_scalar v with
           | Some d, Some c => Some (dict_set k c d)
           | _, _ => None
           end)
        members (Some [])
  | _ => None
  end.

(** An array of scalars becomes a column. *)
Definition flat_column (j : json) : option (list (option scalar)) :=
  match j with
  | JArr items => sequence_option (map json_scalar items)
  | _ => None
  end.

Definition is_json_scalar (j : json) : bool :=
  match json_scalar j with Some _ => true | None => false end.

Definition frame_of_columns (cols : list (label * list (option scalar)))
  : DataFrame (option scalar) :=
  let n := match cols with (_, c) :: _ => length c | [] => 0 end in
  mkFrame (map fst cols)
          (map (fun i => map (fun '(_, c) => default None (c !! i)) cols) (seq 0 n)).

Definition DataFrame_of_json (data : json)
  : covered (result (DataFrame (option scalar))) :=
  match data with
  | JNull => Covered (Ok empty_frame)
  | JBool _ | JInt _ | JFloat _ | JStr _ =>
      Covered (Raise (ValueError (PyStr.lit "DataFrame constructor not properly called!")))
  | JArr items =>
      match sequence_option (map flat_record items) with
      | Some records => Covered (Ok (frame_of_records records))
      | None => NotCovered
      end
  | JObj [] => Covered (Ok empty_frame)
  | JObj members =>
      if forallb (fun '(_, v) => is_json_scalar v) members then
        Covered (Raise (ValueError (PyStr.lit "If using all scalar values, you must pass an index")))
      else if negb (bool_decide (NoDup (map fst members))) then NotCovered
      else
        match sequence_option
                (map (fun '(k, v) => pair k <$> flat_column v) members) with
        | Some cols =>
            match cols with
            | (_, c) :: _ =>
                if forallb (fun '(_, c') => (length c' =? length c)%nat) cols
                then Covered (Ok (frame_of_columns cols))
                else Covered (Raise (ValueError (PyStr.lit "All arrays must be of the same length")))
            | [] => Covered (Ok empty_frame)
            end
        | None => NotCovered
        end
  end.

(** *** [pd.read_json] with its default arguments

    The reader decodes the text, builds the frame and then converts
    labels and columns (numbers written as strings, dates, doubles
    without fraction).  Covered: frames that these conversions leave as
    they are. *)

(** A string that no conversion to a number reads: it has a letter that
    occurs in no spelling of a number, of infinity or of not-a-number. *)
Definition is_number_letter (c : PyStr.char) : bool :=
  bool_decide (PyStr.lower_latin c ∈ PyStr.lit "aefinty").

Definition never_a_number (t : PyStr.str) : bool :=
  existsb (fun c => PyStr.is_latin_letter c && negb (is_number_letter c)) t.

Definition ends_with (suffix s : PyStr.str) : bool :=
  match strip_prefix (rev suffix) (rev s) with
  | Some _ => true
  | None => false
  end.

Definition starts_with (prefix s : PyStr.str) : bool :=
  match strip_prefix prefix s with
  | Some _ => true
  | None => false
  end.

(** The column names that the reader tries to read as dates. *)
Definition date_like (name : label) : bool :=
  let l := map PyStr.lower_latin name in
  ends_with (PyStr.lit "_at") l || ends_with (PyStr.lit "_time") l
  || bool_decide (l = PyStr.lit "modified") || bool_decide (l = PyStr.lit "date")
  || bool_decide (l = PyStr.lit "datetime") || starts_with (PyStr.lit "timestamp") l.

Definition is_SInt (c : option scalar) : bool :=
  match c with Some (SInt _) => true | _ => false end.
Definition is_int64 (c : option scalar) : bool :=
  match c with
  | Some (SInt z) => ((- 2 ^ 63 <=? z) && (z <? 2 ^ 63))%Z
  | _ => false
  end.
Definition is_SBool (c : option scalar) : bool :=
  match c with Some (SBool _) => true | _ => false end.
Definition is_text_or_null (c : option scalar) : bool :=
  match c with
  | Some (SStr s) => never_a_number s
  | None => true
  | _ => false
  end.

Definition stable_column (cells : list (option scalar)) : bool :=
  forallb is_int64 cells || forallb is_SBool cells || forallb is_text_or_null cells.

Definition conversions_inert (df : DataFrame (option scalar)) : bool :=
  forallb (fun name => never_a_number name && negb (date_like name)) (columns df)
  && forallb (fun j => stable_column (column_values None df j))
             (seq 0 (length (columns df))).

(** [ujson_loads], the decoder of pandas, is taken as given: the
    decoded value, or the exception that it raises. *)
Definition read_json (ujson_loads : PyStr.str -> result json) (text : PyStr.str)
  : covered (result (DataFrame (option scalar))) :=
  match ujson_loads text with
  | Raise e => Covered (Raise e)
  | Ok data =>
      match DataFrame_of_json data with
      | Covered (Ok df) =>
          if conversions_inert df then Covered (Ok df) else NotCovered
      | other => other
      end
  end.

(** *** Element trees *)

Inductive element :=
| Element (tag : PyStr.str) (text : option PyStr.str) (children : list element).

Definition tag (e : element) : PyStr.str := let 'Element t _ _ := e in t.
Definition text (e : element) : option PyStr.str := let 'Element _ x _ := e in x.
Definition children (e : element) : list element := let 'Element _ _ c := e in c.

Section Parser.

(** [ET.parse(BytesIO(file_content)).getroot()]: ElementTree's parser is
    taken as given, and so is the JSON decoder of pandas. *)
Variable et_parse : list N -> covered (result element).
Variable ujson_loads : PyStr.str -> result json.

Definition bind_covered {A B} (c : covered (result A))
    (k : A -> covered (result B)) : covered (result B) :=
  match c with
  | Covered (Ok a) => k a
  | Covered (Raise e) => Covered (Raise e)
  | NotCovered => NotCovered
  end.

(** The body of the [try]. *)
Definition parse_body (file_content : list N) (filetype : PyStr.str)
  : covered (result (DataFrame (option scalar) * list message)) :=
  if decide (filetype = PyStr.lit "CSV") then
    bind_covered (Covered (decode_utf8 file_content)) (fun decoded =>
    bind_covered (read_csv decoded) (fun df =>
    Covered (Ok (df, []))))
  else if decide (filetype = PyStr.lit "JSON") then
    bind_covered (Covered (decode_utf8 file_content)) (fun decoded =>
    bind_covered (read_json ujson_loads decoded) (fun df =>
    Covered (Ok (df, []))))
  else if decide (filetype = PyStr.lit "XML") then
    bind_covered (et_parse file_content) (fun root =>
    let rows :=
      map (fun child =>
             fold_left (fun row sub => dict_set (tag sub) (SStr <$> text sub) row)
                       (children child) [])
          (children root) in
    Covered (Ok (frame_of_records rows, [])))
  else
    Covered (Ok (empty_frame, [st_warning (PyStr.lit "Unsupported file format.")])).

(** [except Exception as e]: report and return an empty frame. *)
Definition parse_metadata (file_content : list N) (filetype filename : PyStr.str)
  : covered (DataFrame (option scalar) * list message) :=
  match parse_body file_content filetype with
  | Covered (Ok r) => Covered r
  | Covered (Raise e) =>
      Covered (empty_frame, [st_error_failed_to_parse filename e])
  | NotCovered => NotCovered
  end.

End Parser.

(** ** Character-wise view of the normalizer on ASCII names *)

(** The name with its underscores replaced. *)
Definition spaced (col : label) : label :=
  map (fun c => if (c =? PyStr.underscore)%N then PyStr.space else c) col.

(** With the Basic Latin entries of the database, [do_title] maps ASCII
    text character by character. *)
Fixpoint title_chars (previous_is_letter : bool) (s : PyStr.str) : PyStr.str :=
  match s with
  | [] => []
  | c :: rest =>
      (if previous_is_letter then PyStr.lower_latin c else PyStr.upper_latin c)
        :: title_chars (PyStr.is_latin_letter c) rest
  end.

(** ** The normalizer as the specification words it

    Replace every underscore with a space, upper-case the first letter of
    each whitespace-delimited word, leave the other characters as they
    are. *)

Definition is_whitespace (c : PyStr.char) : bool :=
  ((c =? 32) || ((9 <=? c) && (c <=? 13)))%N.

Fixpoint capitalize_words (at_word_start : bool) (s : PyStr.str) : PyStr.str :=
  match s with
  | [] => []
  | c :: rest =>
      (if at_word_start then PyStr.upper_latin c else c)
        :: capitalize_words (is_whitespace c) rest
  end.

Definition header_as_worded (col : label) : label :=
  capitalize_words true (spaced col).

(** Whether the character before position [i] of [s] is a letter. *)
Definition follows_letter (s : PyStr.str) (i : nat) : bool :=
  match i with
  | O => false
  | S j => match s !! j with
           | Some p => PyStr.is_latin_letter p
           | None => false
           end
  end.

(** ** Sample data *)

(** "a", U+0130, "b". *)
Definition dotted_name : label := [0x61; 0x130; 0x62]%N.

Definition dotted_heap : heap unit := {[ 0 := mkFrame [dotted_name] [] ]}.

Definition order_frame : DataFrame Z :=
  mkFrame [PyStr.lit "order_id"] [[1%Z]; [2%Z]].
Definition order_heap : heap Z := {[ 0 := order_frame ]}.

(** ** Classes of CSV columns and of JSON documents *)

(** The fields of column [j], one per record. *)
Definition column_tokens (records : list (list (list N))) (j : nat)
  : list (list N) :=
  map (cell_at [] j) records.

Definition integer_column (tokens : list (list N)) : Prop :=
  Forall (fun t => is_Some (int_literal t)) tokens.

Definition text_column (tokens : list (list N)) : Prop :=
  Exists (fun t => classify t = TWord) tokens
  /\ Forall (fun t => classify t <> TOther) tokens.

Definition null_column (tokens : list (list N)) : Prop :=
  Forall (fun t => t = [] \/ t ∈ null_markers) tokens.

(** A number, a string or a boolean. *)
Definition top_level_scalar (v : json) : Prop :=
  match v with
  | JBool _ | JInt _ | JFloat _ | JStr _ => True
  | JNull | JArr _ | JObj _ => False
  end.

(** An object with a member, all of whose values are numbers, strings,
    booleans or null. *)
Definition object_of_scalars (v : json) : Prop :=
  match v with
  | JObj ((k, x) :: members) =>
      Forall (fun m : PyStr.str * json => is_json_scalar m.2 = true)
             ((k, x) :: members)
  | _ => False
  end.

(** The decoder of the sample texts; a text outside them is refused
    here, whatever the decoder of pandas makes of it. *)
Definition sample_loads (text : PyStr.str) : result json :=
  match json_loads text with
  | Some v => Ok v
  | None => Raise (ValueError (PyStr.lit "Expected object or value"))
  end.

(** ** More sample data *)

(** An ElementTree description that covers no input. *)
Definition no_element_tree : list N -> covered (result element) :=
  fun _ => NotCovered.

Definition double_quote : N := 34%N.

(** The text [{"id":[1,2]}]. *)
Definition object_of_arrays : list N :=
  PyStr.lit "{" ++ [double_quote] ++ PyStr.lit "id" ++ [double_quote]
  ++ PyStr.lit ":[1,2]}".

(** The text of a CSV file with the header [id] and the record [1]. *)
Definition one_integer_csv : list N :=
  PyStr.lit "id" ++ [line_feed] ++ PyStr.lit "1" ++ [line_feed].

(** The two files of the end-to-end scenario of the specification. *)
Definition metadata_csv : list N :=
  PyStr.lit "id,file" ++ [line_feed] ++ PyStr.lit "1,a.jpg" ++ [line_feed]
  ++ PyStr.lit "2,b.jpg".
Definition customer_csv : list N :=
  PyStr.lit "cust_id,file" ++ [line_feed] ++ PyStr.lit "1,a.jpg" ++ [line_feed]
  ++ PyStr.lit "3,c.jpg".

Definition metadata_frame : DataFrame (option Z) :=
  mkFrame [PyStr.lit "id"; PyStr.lit "file"]
          [[Some 1%Z; Some 10%Z]; [Some 2%Z; Some 20%Z]].
Definition customer_frame : DataFrame (option Z) :=
  mkFrame [PyStr.lit "cust_id"; PyStr.lit "file"]
          [[Some 1%Z; Some 10%Z]; [Some 3%Z; Some 30%Z]].

(** Two left rows with key 5, one right row with key 5. *)
Definition fives_left : DataFrame (option Z) :=
  mkFrame [PyStr.lit "k"; PyStr.lit "a"]
          [[Some 5%Z; Some 1%Z]; [Some 5%Z; Some 2%Z]].
Definition fives_right : DataFrame (option Z) :=
  mkFrame [PyStr.lit "k"; PyStr.lit "b"] [[Some 5%Z; Some 7%Z]].

(** Neither column is unique: key inference falls back to [id]. *)
Definition fallback_frame : DataFrame (option Z) :=
  mkFrame [PyStr.lit "id"; PyStr.lit "x"]
          [[Some 1%Z; Some 1%Z]; [Some 1%Z; Some 1%Z]].

(** A frame that already has a column named [_merge]. *)
Definition marked_frame : DataFrame (option Z) :=
  mkFrame [PyStr.lit "id"; PyStr.lit "_merge"] [[Some 1%Z; Some 0%Z]].

(** Columns [A], [B], [C]: [A] repeats a value, [B] is the first column
    that is fully populated and unique. *)
Definition abc_frame : DataFrame (option Z) :=
  mkFrame [PyStr.lit "A"; PyStr.lit "B"; PyStr.lit "C"]
          [[Some 1%Z; Some 1%Z; None]; [Some 1%Z; Some 2%Z; None]].

(** The join in the order of its groups. *)
Definition in_group_order (l : list join_row) : list join_row := l.

(** [DataFrame.empty]: some axis has length 0. *)
Definition df_empty {C} (df : DataFrame C) : bool :=
  bool_decide (columns df = []) || bool_decide (rows df = []).

Definition is_SStr (c : option scalar) : bool :=
  match c with Some (SStr _) => true | _ => false end.

(** Key columns that pandas compares without more ado: both of
    integers, or both of strings. *)
Definition both_integers_or_both_strings (lkeys rkeys : list (option scalar))
  : bool :=
  (forallb is_SInt lkeys && forallb is_SInt rkeys)
  || (forallb is_SStr lkeys && forallb is_SStr rkeys).

(** Keys of a single scalar type are always comparable. *)
Definition one_kind {V} (lkeys rkeys : list (option V)) : bool := true.

(** [maybe_promote] on the columns of parsed frames: a column of
    integers becomes a column of doubles; the values of the other
    columns stay as they are. *)
Definition promote_scalar (col : list (option scalar)) (v : scalar) : scalar :=
  if forallb is_SInt col
  then match v with SInt z => SFloat (nearest_double z) | _ => v end
  else v.

(** For frames of integers: the integer that the double nearest to [z]
    is. *)
Definition double_value (x : spec_float) : Z :=
  match x with
  | S754_finite s m e => (if s then -1 else 1) * Z.shiftl (Z.pos m) e
  | _ => 0
  end.

Definition promote_int (col : list (option Z)) (z : Z) : Z :=
  double_value (nearest_double z).

(** ** More sample data *)

(** The metadata table of the scenario with its two rows exchanged. *)
Definition metadata_frame_swapped : DataFrame (option Z) :=
  mkFrame [PyStr.lit "id"; PyStr.lit "file"]
          [[Some 2%Z; Some 20%Z]; [Some 1%Z; Some 10%Z]].

(** Two tables whose key columns have the same name; key 1 is on both
    sides, key 2 on the left only, key 3 on the right only. *)
Definition shared_left : DataFrame (option Z) :=
  mkFrame [PyStr.lit "k"; PyStr.lit "a"]
          [[Some 1%Z; Some 10%Z]; [Some 2%Z; Some 20%Z]].
Definition shared_right : DataFrame (option Z) :=
  mkFrame [PyStr.lit "k"; PyStr.lit "b"]
          [[Some 1%Z; Some 7%Z]; [Some 3%Z; Some 9%Z]].

(** A table that shares no key with [shared_left]. *)
Definition far_right : DataFrame (option Z) :=
  mkFrame [PyStr.lit "k"; PyStr.lit "b"]
          [[Some 8%Z; Some 7%Z]; [Some 9%Z; Some 9%Z]].

(** A row of the join names rows that exist. *)
Definition in_range (n m : nat) (jr : option nat * option nat) : Prop :=
  match jr with
  | (Some i, Some j) => i < n /\ j < m
  | (Some i, None) => i < n
  | (None, Some j) => j < m
  | (None, None) => False
  end.

(** The tag [t] of a record of an XML file, as its last child with that
    tag gives it. *)
Definition last_with_tag (t : label) (record : element) : option element :=
  last (filter (fun sub => tag sub = t) (children record)).

(** An XML document of two records; the first one carries the tag [id]
    twice, the second one has no [name]. *)
Definition sample_root : element :=
  Element (PyStr.lit "records") None
    [Element (PyStr.lit "record") None
       [Element (PyStr.lit "id") (Some (PyStr.lit "1")) [];
        Element (PyStr.lit "name") (Some (PyStr.lit "a")) [];
        Element (PyStr.lit "id") (Some (PyStr.lit "7")) []];
     Element (PyStr.lit "record") None
       [Element (PyStr.lit "id") (Some (PyStr.lit "2")) []]].

(** A description of ElementTree that reads every input as
    [sample_root]. *)
Definition sample_tree : list N -> covered (result element) :=
  fun _ => Covered (Ok sample_root).

(** ** More of Python's [str] *)

Section Case.
Variable db : PyStr.ucd.

(** [_PyUnicode_ToUpperFull] of the character database. *)
Variable to_upper_full : N -> list N.

(** CPython's [do_upper_or_lower], lowering: every character through
    [lower_ucs4]. *)
Fixpoint do_lower (before_reversed s : list N) : list N :=
  match s with
  | [] => []
  | c :: rest =>
      PyStr.lower_ucs4 db before_reversed c rest ++ do_lower (c :: before_reversed) rest
  end.

(** [str.lower] *)
Definition str_lower (s : list N) : list N := do_lower [] s.

(** [str.upper] *)
Definition str_upper (s : list N) : list N := flat_map to_upper_full s.

End Case.

(** What the database says of the upper case of the Basic Latin block. *)
Definition basic_latin_upper (to_upper_full : N -> list N) : Prop :=
  forall c, PyStr.is_ascii c -> to_upper_full c = [PyStr.upper_latin c].

Definition full_stop : N := 46%N.

(** [s.split(".")[-1]] *)
Definition last_piece (s : list N) : list N :=
  default [] (last (split_on full_stop s)).

(** ** What the pages show

    The calls of Streamlit that depend on data; the fixed markup of the
    pages is left out. *)
Inductive ui_event :=
| shown (m : message)
| st_error (text : list N)
| st_error_failed_to_fetch (e : exn)
| st_error_failed_to_list (e : exn)
| st_success_metadata_key (key : list N)
| st_success_customer_key (key : list N)
| st_subheader_matched (count : nat)
| st_subheader_unmatched (count : nat)
| st_dataframe (df : DataFrame (mcell scalar))
| st_rerun.

Definition is_dataframe (ev : ui_event) : bool :=
  match ev with st_dataframe _ => true | _ => false end.

(** ** S3

    boto3 and the S3 service are taken as given: what a request made
    with an access key, a secret key and a session token returns, or
    the exception that it raises.  [get_object] stands for the session,
    the client, the request and the reading of its body;
    [list_objects_v2] gives the keys under ['Contents'], or [None] when
    the response has no ['Contents']. *)
Record s3_service := mk_s3 {
  get_object : list N -> list N -> list N -> list N -> list N -> result (list N);
  list_objects_v2 :
    list N -> list N -> list N -> list N -> result (option (list (list N)))
}.

Definition supported_extensions : list (list N) :=
  map PyStr.lit ["csv"; "json"; "xml"]%string.

Section S3.
Variable db : PyStr.ucd.
Variable s3 : s3_service.

(** The returned pair, and what is shown. *)
Definition fetch_s3_file (access_key secret_key session_token bucket_name file_key : list N)
  : (option (list N) * option (list N)) * list ui_event :=
  let attempt :=
    if bool_decide (bucket_name = []) || bool_decide (file_key = [])
    then Raise (ValueError (PyStr.lit "Bucket name or file key is empty"))
    else get_object s3 access_key secret_key session_token bucket_name file_key in
  match attempt with
  | Ok body => ((Some body, Some file_key), [])
  | Raise e => ((None, None), [st_error_failed_to_fetch e])
  end.

(** The condition of the comprehension. *)
Definition has_supported_extension (key : list N) : bool :=
  bool_decide (str_lower db (last_piece key) ∈ supported_extensions).

Definition list_s3_files (access_key secret_key session_token bucket_name : list N)
  : list (list N) * list ui_event :=
  let attempt :=
    if bool_decide (bucket_name = [])
    then Raise (ValueError (PyStr.lit "Bucket name is empty"))
    else list_objects_v2 s3 access_key secret_key session_token bucket_name in
  match attempt with
  | Ok (Some contents) =>
      (filter (fun key => has_supported_extension key = true) contents, [])
  | Ok None => ([], [])
  | Raise e => ([], [st_error_failed_to_list e])
  end.

End S3.

(** ** Session state

    [st.session_state] as a finite map from names to strings. *)
Abbreviation session := (gmap (list N) (list N)) (only parsing).

(** [st.session_state.get(k)] as a condition: present and not empty. *)
Definition filled (ss : session) (k : list N) : bool :=
  match ss !! k with
  | Some (_ :: _) => true
  | _ => false
  end.

Definition required_keys : list (list N) :=
  map PyStr.lit
    ["aws_access_key"; "aws_secret_key"; "aws_session_token"; "bucket_name";
     "file_key"; "cust_aws_access_key"; "cust_aws_secret_key";
     "cust_aws_session_token"; "cust_bucket_name"; "cust_file_key"]%string.

Definition no_files_available : list N := PyStr.lit "No files available".

(** The condition under which the button "Start Parsing & Matching" of
    the upload page sets the page to "results". *)
Definition ready_to_start (ss : session) : bool :=
  forallb (filled ss) required_keys
  && negb (bool_decide (ss !! PyStr.lit "file_key" = Some no_files_available))
  && negb (bool_decide (ss !! PyStr.lit "cust_file_key" = Some no_files_available)).

(** The branch of that button. *)
Definition start_parsing (ss : session) : session * list ui_event :=
  if ready_to_start ss
  then (<[PyStr.lit "page" := PyStr.lit "results"]> ss, [])
  else (ss, [st_error (PyStr.lit "Please complete all fields and select valid files.")]).

(** The condition under which the results page refuses the session. *)
Definition invalid_session (ss : session) : bool :=
  negb (forallb (filled ss) required_keys)
  || bool_decide (ss !! PyStr.lit "file_key" = Some no_files_available)
  || bool_decide (ss !! PyStr.lit "cust_file_key" = Some no_files_available).

(** [reset_session]: delete every key, one after the other, then set
    the page; the rerun that ends it is in what the callers show. *)
Definition reset_session (ss : session) : session :=
  <[PyStr.lit "page" := PyStr.lit "home"]>
    (fold_left (fun acc key => delete key acc) (map fst (map_to_list ss)) ss).

(** The defaults of [main], in the order of the dictionary. *)
Definition default_keys : list (list N * list N) :=
  [(PyStr.lit "page", PyStr.lit "home");
   (PyStr.lit "aws_access_key", []);
   (PyStr.lit "aws_secret_key", []);
   (PyStr.lit "aws_session_token", []);
   (PyStr.lit "bucket_name", []);
   (PyStr.lit "file_key", []);
   (PyStr.lit "cust_aws_access_key", []);
   (PyStr.lit "cust_aws_secret_key", []);
   (PyStr.lit "cust_aws_session_token", []);
   (PyStr.lit "cust_bucket_name", []);
   (PyStr.lit "cust_file_key", [])].

(** The loop of [main] that initializes the session. *)
Definition initialize_session (ss : session) : session :=
  fold_left (fun acc '(key, default) =>
               match acc !! key with
               | Some _ => acc
               | None => <[key := default]> acc
               end)
            default_keys ss.

(** The page function that [main] calls, if any. *)
Inductive route := to_home_page | to_upload_page | to_results_page | to_no_page.

(** The routing of [main]; reading [st.session_state.page] fails when
    the session has no such entry. *)
Definition main_route (ss : session) : result (session * route) :=
  let ss := initialize_session ss in
  match ss !! PyStr.lit "page" with
  | None => Raise AttributeError
  | Some page =>
      Ok (ss,
          if decide (page = PyStr.lit "home") then to_home_page
          else if decide (page = PyStr.lit "upload") then to_upload_page
          else if decide (page = PyStr.lit "results") then to_results_page
          else to_no_page)
  end.

(** ** The results page *)

Section ResultsPage.
Variable db : PyStr.ucd.
Variable to_upper_full : N -> list N.
Variable s3 : s3_service.
Variable et_parse : list N -> covered (result element).
Variable ujson_loads : list N -> result json.
Variable arrange : list (option nat * option nat) -> list (option nat * option nat).
Variable empty_left_drops_left_key : bool.

(** [st.session_state.name], for a name that the validation has found
    filled. *)
Definition field (ss : session) (name : string) : list N :=
  default [] (ss !! PyStr.lit name).

(** [filename.split(".")[-1].upper() if filename else None] *)
Definition filetype_of (filename : option (list N)) : option (list N) :=
  match filename with
  | Some (c :: rest) => Some (str_upper to_upper_full (last_piece (c :: rest)))
  | _ => None
  end.

(** [parse_metadata(file_content, filetype, filename) if file_content
    and filetype else pd.DataFrame()] *)
Definition metadata_table (file_content filetype filename : option (list N))
  : covered (DataFrame (option scalar) * list message) :=
  match file_content, filetype with
  | Some (b :: bytes), Some (c :: type) =>
      parse_metadata et_parse ujson_loads (b :: bytes) (c :: type)
                     (default [] filename)
  | _, _ => Covered (empty_frame, [])
  end.

(** [parse_metadata(cust_file_content, cust_filetype, cust_filename) if
    cust_file_content else pd.DataFrame()]; a file type [None] is no
    supported type. *)
Definition customer_table (file_content filetype filename : option (list N))
  : covered (DataFrame (option scalar) * list message) :=
  match file_content with
  | Some (b :: bytes) =>
      parse_metadata et_parse ujson_loads (b :: bytes) (default [] filetype)
                     (default [] filename)
  | _ => Covered (empty_frame, [])
  end.

(** [clean_column_headers(df.drop(columns=["_merge"]))]: the frame that
    [drop] returns is a new object, which the normalizer renames in
    place and returns. *)
Definition shown_table (df : DataFrame (mcell scalar))
  : result (DataFrame (mcell scalar)) :=
  try! dropped := drop_columns df merge_label in
  Ok (match clean_column_headers db 0 {[0 := dropped]} with
      | Some (r, h) => default dropped (h !! r)
      | None => dropped
      end).

(** The branch of the page that infers the keys, matches and shows the
    two tables.  The match is described for key columns that are both
    of integers or both of strings. *)
Definition show_match (metadata_df customer_df : DataFrame (option scalar))
  : covered (result (list ui_event)) :=
  match detect_primary_key metadata_df with
  | Raise e => Covered (Raise e)
  | Ok meta_key =>
  match detect_primary_key customer_df with
  | Raise e => Covered (Raise e)
  | Ok cust_key =>
      let described :=
        match key_values metadata_df meta_key, key_values customer_df cust_key with
        | Ok lkeys, Ok rkeys => both_integers_or_both_strings lkeys rkeys
        | _, _ => true
        end in
      if negb described then NotCovered else
      Covered (
        try! tables := match_data arrange (fun _ _ => true) promote_scalar
                                  empty_left_drops_left_key
                                  metadata_df customer_df meta_key cust_key in
        try! matched_df := shown_table tables.1 in
        try! unmatched_df := shown_table tables.2 in
        Ok [st_success_metadata_key meta_key;
            st_success_customer_key cust_key;
            st_subheader_matched (length (rows matched_df));
            st_dataframe matched_df;
            st_subheader_unmatched (length (rows unmatched_df));
            st_dataframe unmatched_df])
  end end.

(** The button "Home" at the foot of the page. *)
Definition home_button (home_clicked : bool) (ss : session) (events : list ui_event)
  : session * list ui_event :=
  if home_clicked then (reset_session ss, events ++ [st_rerun]) else (ss, events).

(** [results_page], from the session and the state of its button to the
    session it leaves and what it shows; an exception that it does not
    catch is the [Raise] branch. *)
Definition results_page (ss : session) (home_clicked : bool)
  : covered (result (session * list ui_event)) :=
  if negb (bool_decide (ss !! PyStr.lit "page" = Some (PyStr.lit "results"))) then
    Covered (Ok (<[PyStr.lit "page" := PyStr.lit "home"]> ss, [st_rerun]))
  else if invalid_session ss then
    Covered (Ok (reset_session ss,
                 [st_error (PyStr.lit "Invalid or missing session state. Returning to home page.");
                  st_rerun]))
  else
    let fetched :=
      fetch_s3_file s3 (field ss "aws_access_key") (field ss "aws_secret_key")
                    (field ss "aws_session_token") (field ss "bucket_name")
                    (field ss "file_key") in
    let file_content := fetched.1.1 in
    let filename := fetched.1.2 in
    let filetype := filetype_of filename in
    match metadata_table file_content filetype filename with
    | NotCovered => NotCovered
    | Covered (metadata_df, log) =>
        let cust_fetched :=
          fetch_s3_file s3 (field ss "cust_aws_access_key")
                        (field ss "cust_aws_secret_key")
                        (field ss "cust_aws_session_token")
                        (field ss "cust_bucket_name") (field ss "cust_file_key") in
        let cust_file_content := cust_fetched.1.1 in
        let cust_filename := cust_fetched.1.2 in
        let cust_filetype := filetype_of cust_filename in
        match customer_table cust_file_content cust_filetype cust_filename with
        | NotCovered => NotCovered
        | Covered (customer_df, cust_log) =>
            let before :=
              fetched.2 ++ map shown log ++ cust_fetched.2 ++ map shown cust_log in
            if negb (df_empty metadata_df) && negb (df_empty customer_df) then
              match show_match metadata_df customer_df with
              | Covered (Ok events) =>
                  Covered (Ok (home_button home_clicked ss (before ++ events)))
              | Covered (Raise e) => Covered (Raise e)
              | NotCovered => NotCovered
              end
            else
              Covered (Ok (home_button home_clicked ss
                             (before
                              ++ [shown (st_warning
                                           (PyStr.lit "No data found or parsing failed."))])))
        end
    end.

End ResultsPage.

(** ** Sample services and sessions *)

(** A bucket [b] with the two files of the scenario and a picture. *)
Definition sample_s3 : s3_service :=
  mk_s3
    (fun _ _ _ bucket key =>
       if decide (bucket = PyStr.lit "b") then
         if decide (key = PyStr.lit "meta.csv") then Ok metadata_csv
         else if decide (key = PyStr.lit "cust.CSV") then Ok customer_csv
         else Raise (KeyError key)
       else Raise (KeyError bucket))
    (fun _ _ _ bucket =>
       if decide (bucket = PyStr.lit "b")
       then Ok (Some [PyStr.lit "meta.csv"; PyStr.lit "photo.jpg"; PyStr.lit "cust.CSV"])
       else Raise (KeyError bucket)).

(** An S3 that answers no request. *)
Definition no_s3 : s3_service :=
  mk_s3 (fun _ _ _ _ _ => Raise AttributeError) (fun _ _ _ _ => Raise AttributeError).

(** The upper case of the Basic Latin block; other characters are left
    as they are. *)
Definition latin_upper : N -> list N := fun c => [PyStr.upper_latin c].

(** A session with every field filled, on the results page. *)
Definition ready_session : session :=
  list_to_map
    [(PyStr.lit "page", PyStr.lit "results");
     (PyStr.lit "aws_access_key", PyStr.lit "AK");
     (PyStr.lit "aws_secret_key", PyStr.lit "SK");
     (PyStr.lit "aws_session_token", PyStr.lit "T");
     (PyStr.lit "bucket_name", PyStr.lit "b");
     (PyStr.lit "file_key", PyStr.lit "meta.csv");
     (PyStr.lit "cust_aws_access_key", PyStr.lit "AK");
     (PyStr.lit "cust_aws_secret_key", PyStr.lit "SK");
     (PyStr.lit "cust_aws_session_token", PyStr.lit "T");
     (PyStr.lit "cust_bucket_name", PyStr.lit "b");
     (PyStr.lit "cust_file_key", PyStr.lit "cust.CSV")].

(** The same session without a customer bucket. *)
Definition incomplete_session : session :=
  <[PyStr.lit "cust_bucket_name" := []]> ready_session.

(** The text of a CSV file with a column named [_merge]. *)
Definition marked_csv : list N :=
  PyStr.lit "id,_merge" ++ [line_feed] ++ PyStr.lit "1,x" ++ [line_feed].

(** The bucket [b] with that file as its metadata file. *)
Definition marked_s3 : s3_service :=
  mk_s3
    (fun _ _ _ bucket key =>
       if decide (key = PyStr.lit "meta.csv") then Ok marked_csv else Ok customer_csv)
    (fun _ _ _ bucket => Ok None).

(** The tables that the two files of the scenario are parsed into. *)
Definition metadata_table_parsed : DataFrame (option scalar) :=
  mkFrame [PyStr.lit "id"; PyStr.lit "file"]
          [[Some (SInt 1); Some (SStr (PyStr.lit "a.jpg"))];
           [Some (SInt 2); Some (SStr (PyStr.lit "b.jpg"))]].
Definition customer_table_parsed : DataFrame (option scalar) :=
  mkFrame [PyStr.lit "cust_id"; PyStr.lit "file"]
          [[Some (SInt 1); Some (SStr (PyStr.lit "a.jpg"))];
           [Some (SInt 3); Some (SStr (PyStr.lit "c.jpg"))]].

(** Two tables without a common key; the left one holds an integer that
    no double equals. *)
Definition large_left : DataFrame (option Z) :=
  mkFrame [PyStr.lit "k"; PyStr.lit "a"]
          [[Some 1%Z; Some 4611686018427387905%Z]].
Definition large_right : DataFrame (option Z) :=
  mkFrame [PyStr.lit "k"; PyStr.lit "b"] [[Some 2%Z; Some 5%Z]].

(** The text of a CSV file with a space in a field, a line of spaces
    and a null marker. *)
Definition people_csv : list N :=
  PyStr.lit "id,name" ++ [line_feed] ++ PyStr.lit "1,John Smith" ++ [line_feed]
  ++ PyStr.lit "   " ++ [line_feed] ++ PyStr.lit "2,NA" ++ [line_feed].

(** ** Proof automation *)

Ltac latin_cases :=
  unfold PyStr.is_latin_letter, PyStr.upper_latin, PyStr.lower_latin,
    PyStr.is_upper_latin, PyStr.is_lower_latin, PyStr.is_ascii in *;
  repeat match goal with
         | |- context [(?a <=? ?b)%N] => destruct (N.leb_spec a b)
         | H : context [(?a <=? ?b)%N] |- _ => destruct (N.leb_spec a b)
         end;
  simpl in *; try done; try lia.

(** Decides a closed decidable proposition by evaluation. *)
Ltac by_computation := apply (bool_decide_unpack _); vm_compute; exact I.

(** * Properties *)

(** ** Lists *)

Lemma map_fmap {A B} (f : A -> B) (l : list A) : map f l = f <$> l.
Proof. induction l as [|a l IH]; simpl; [done|]. by rewrite IH. Qed.

Lemma lookup_map {A B} (f : A -> B) (l : list A) (i : nat) :
  map f l !! i = f <$> l !! i.
Proof. rewrite map_fmap. apply list_lookup_fmap. Qed.

(** ** Header normalization *)

Lemma replace_underscore (col : label) :
  PyStr.replace PyStr.underscore [PyStr.space] col = spaced col.
Proof.
  unfold PyStr.replace, spaced. induction col as [|c col IH]; simpl; [done|].
  rewrite IH. by destruct (c =? PyStr.underscore)%N.
Qed.

Lemma ascii_lower_ucs4 (db : PyStr.ucd) (before after : list N) (c : N) :
  PyStr.basic_latin db -> PyStr.is_ascii c ->
  PyStr.lower_ucs4 db before c after = [PyStr.lower_latin c].
Proof.
  intros Hdb Hc. unfold PyStr.lower_ucs4.
  destruct (N.eqb_spec c 0x3A3) as [->|_]; [unfold PyStr.is_ascii in Hc; lia|].
  by destruct (Hdb c Hc) as (-> & _ & _).
Qed.

Lemma upper_latin_ascii c : PyStr.is_ascii c -> PyStr.is_ascii (PyStr.upper_latin c).
Proof. intros. latin_cases. Qed.

Lemma lower_latin_ascii c : PyStr.is_ascii c -> PyStr.is_ascii (PyStr.lower_latin c).
Proof. intros. latin_cases. Qed.

Lemma upper_latin_letter c :
  PyStr.is_latin_letter (PyStr.upper_latin c) = PyStr.is_latin_letter c.
Proof. latin_cases. Qed.

Lemma lower_latin_letter c :
  PyStr.is_latin_letter (PyStr.lower_latin c) = PyStr.is_latin_letter c.
Proof. latin_cases. Qed.

Lemma upper_latin_idem c : PyStr.upper_latin (PyStr.upper_latin c) = PyStr.upper_latin c.
Proof. latin_cases. Qed.

Lemma lower_latin_idem c : PyStr.lower_latin (PyStr.lower_latin c) = PyStr.lower_latin c.
Proof. latin_cases. Qed.

Lemma upper_latin_not_underscore c :
  c <> PyStr.underscore -> PyStr.upper_latin c <> PyStr.underscore.
Proof. unfold PyStr.underscore. intros. latin_cases. Qed.

Lemma lower_latin_not_underscore c :
  c <> PyStr.underscore -> PyStr.lower_latin c <> PyStr.underscore.
Proof. unfold PyStr.underscore. intros. latin_cases. Qed.

Lemma do_title_ascii (db : PyStr.ucd) (s before : PyStr.str) (b : bool) :
  PyStr.basic_latin db -> PyStr.ascii_str s ->
  PyStr.do_title db before b s = title_chars b s.
Proof.
  intros Hdb Hs. revert before b.
  induction Hs as [|c s Hc Hs IH]; intros before b; simpl; [done|].
  rewrite ascii_lower_ucs4, IH by done.
  destruct (Hdb c Hc) as (_ & -> & ->). by destruct b.
Qed.

Lemma title_chars_lookup (s : PyStr.str) (b : bool) (i : nat) (c : PyStr.char) :
  s !! i = Some c ->
  title_chars b s !! i
  = Some (if match i with O => b | S _ => follows_letter s i end
          then PyStr.lower_latin c else PyStr.upper_latin c).
Proof.
  revert b i. induction s as [|a s IH]; intros b i Hi; [done|].
  destruct i as [|i]; simpl in *.
  - by simplify_eq.
  - rewrite (IH _ _ Hi). destruct i; simpl; [done|]. done.
Qed.

Lemma title_chars_length (s : PyStr.str) (b : bool) :
  length (title_chars b s) = length s.
Proof. revert b. induction s as [|a s IH]; intros b; simpl; [done|]. by rewrite IH. Qed.

Lemma title_chars_idem (s : PyStr.str) (b : bool) :
  title_chars b (title_chars b s) = title_chars b s.
Proof.
  revert b. induction s as [|a s IH]; intros b; simpl; [done|].
  destruct b.
  - by rewrite lower_latin_idem, lower_latin_letter, IH.
  - by rewrite upper_latin_idem, upper_latin_letter, IH.
Qed.

Lemma title_chars_ascii (s : PyStr.str) (b : bool) :
  PyStr.ascii_str s -> PyStr.ascii_str (title_chars b s).
Proof.
  intros Hs. revert b. induction Hs as [|c s Hc Hs IH]; intros b; simpl.
  - constructor.
  - constructor; [|apply IH].
    destruct b; [by apply lower_latin_ascii | by apply upper_latin_ascii].
Qed.

Lemma title_chars_no_underscore (s : PyStr.str) (b : bool) :
  Forall (fun c => c <> PyStr.underscore) s ->
  Forall (fun c => c <> PyStr.underscore) (title_chars b s).
Proof.
  intros Hs. revert b. induction Hs as [|c s Hc Hs IH]; intros b; simpl.
  - constructor.
  - constructor; [|apply IH].
    destruct b; [by apply lower_latin_not_underscore
                | by apply upper_latin_not_underscore].
Qed.

Lemma spaced_ascii col : PyStr.ascii_str col -> PyStr.ascii_str (spaced col).
Proof.
  unfold PyStr.ascii_str, spaced. intros Hs. apply Forall_map.
  eapply Forall_impl; [exact Hs|]. intros c Hc. simpl.
  destruct (c =? PyStr.underscore)%N; [|done].
  unfold PyStr.is_ascii, PyStr.space. lia.
Qed.

Lemma spaced_no_underscore col : Forall (fun c => c <> PyStr.underscore) (spaced col).
Proof.
  unfold spaced. apply Forall_map, Forall_forall. intros c _. simpl.
  destruct (N.eqb_spec c PyStr.underscore); [|done].
  unfold PyStr.space, PyStr.underscore. lia.
Qed.

Lemma spaced_id col :
  Forall (fun c => c <> PyStr.underscore) col -> spaced col = col.
Proof.
  unfold spaced. induction 1 as [|c s Hc Hs IH]; simpl; [done|].
  rewrite IH. by destruct (N.eqb_spec c PyStr.underscore).
Qed.

Lemma clean_header_ascii db col :
  PyStr.basic_latin db -> PyStr.ascii_str col ->
  clean_header db col = title_chars false (spaced col).
Proof.
  intros Hdb Hs. unfold clean_header, PyStr.title.
  rewrite replace_underscore. by apply do_title_ascii; [|apply spaced_ascii].
Qed.

Lemma clean_header_idem db col :
  PyStr.basic_latin db -> PyStr.ascii_str col ->
  clean_header db (clean_header db col) = clean_header db col.
Proof.
  intros Hdb Hs. rewrite (clean_header_ascii db col Hdb Hs).
  rewrite clean_header_ascii by (try done; by apply title_chars_ascii, spaced_ascii).
  rewrite spaced_id by apply title_chars_no_underscore, spaced_no_underscore.
  apply title_chars_idem.
Qed.

Lemma latin_and_dotted_i_basic : PyStr.basic_latin PyStr.latin_and_dotted_i.
Proof.
  intros c Hc. simpl. unfold PyStr.is_ascii in Hc.
  destruct (N.eqb_spec c 0x130) as [->|_]; [lia|].
  by rewrite orb_false_r.
Qed.

(** C7, as worded, fails: [str.title] lower-cases the letters that follow
    a letter, so "userID" becomes "Userid" and not "UserID". *)
Lemma clean_header_lowers_rest :
  clean_header PyStr.latin_and_dotted_i (PyStr.lit "userID") = PyStr.lit "Userid"
  /\ header_as_worded (PyStr.lit "userID") = PyStr.lit "UserID"
  /\ clean_header PyStr.latin_and_dotted_i (PyStr.lit "userID")
     <> header_as_worded (PyStr.lit "userID").
Proof. split; [|split]; [reflexivity | reflexivity | discriminate]. Qed.

(** C7, amended: for every ASCII column name the normalizer keeps the
    length of the name, replaces every underscore with a space, and then
    lower-cases each character that follows a letter and upper-cases each
    other character (characters that are not letters are unchanged by
    either). *)
Theorem clean_header_characters (db : PyStr.ucd) (col : label) :
  PyStr.basic_latin db ->
  PyStr.ascii_str col ->
  length (clean_header db col) = length col
  /\ (forall i c, col !! i = Some c ->
        spaced col !! i
        = Some (if (c =? PyStr.underscore)%N then PyStr.space else c))
  /\ (forall i c, spaced col !! i = Some c ->
        clean_header db col !! i
        = Some (if follows_letter (spaced col) i
                then PyStr.lower_latin c else PyStr.upper_latin c)).
Proof.
  intros Hdb Hs. rewrite (clean_header_ascii db col Hdb Hs). repeat split.
  - rewrite title_chars_length. unfold spaced. by rewrite length_map.
  - intros i c Hi. unfold spaced. by rewrite lookup_map, Hi.
  - intros i c Hi. rewrite (title_chars_lookup _ _ _ _ Hi). by destruct i.
Qed.

Lemma order_ID_ascii : PyStr.ascii_str (PyStr.lit "order_ID").
Proof. unfold PyStr.ascii_str, PyStr.is_ascii. repeat constructor. Qed.

Lemma clean_header_characters_witness :
  PyStr.basic_latin PyStr.latin_and_dotted_i
  /\ PyStr.ascii_str (PyStr.lit "order_ID")
  /\ clean_header PyStr.latin_and_dotted_i (PyStr.lit "order_ID") !! 7 = Some 100%N.
Proof.
  split; [exact latin_and_dotted_i_basic|]. split; [exact order_ID_ascii|].
  destruct (clean_header_characters PyStr.latin_and_dotted_i (PyStr.lit "order_ID")
              latin_and_dotted_i_basic order_ID_ascii) as (_ & _ & H).
  exact (H 7 68%N eq_refl).
Defined.

(** ** Header normalization: effect on the heap *)

(** C2, as worded, fails: the table handed back is the input object
    itself, and the input's column names have changed after the call. *)
Lemma clean_column_headers_renames_input :
  exists h',
    clean_column_headers PyStr.latin_and_dotted_i 0 order_heap = Some (0, h')
    /\ columns <$> order_heap !! 0 = Some [PyStr.lit "order_id"]
    /\ columns <$> h' !! 0 = Some [PyStr.lit "Order Id"].
Proof.
  eexists. split; [|split].
  - unfold clean_column_headers, order_heap. rewrite lookup_singleton_eq. reflexivity.
  - unfold order_heap. by rewrite lookup_singleton_eq.
  - rewrite lookup_insert_eq. reflexivity.
Qed.

(** C2, amended: for every table, the normalizer renames the columns of
    its input in place and returns the input object itself; the rows and
    their order are unchanged, and no other object is touched. *)
Theorem clean_column_headers_in_place {C} (db : PyStr.ucd) (h : heap C) (df : ref)
    (frame : DataFrame C) :
  h !! df = Some frame ->
  exists h',
    clean_column_headers db df h = Some (df, h')
    /\ h' !! df = Some (mkFrame (map (clean_header db) (columns frame)) (rows frame))
    /\ (forall other, other <> df -> h' !! other = h !! other).
Proof.
  intros Hdf. unfold clean_column_headers. rewrite Hdf.
  eexists. split; [reflexivity|]. split.
  - by rewrite lookup_insert_eq.
  - intros other Hne. by rewrite lookup_insert_ne.
Qed.

Lemma order_heap_lookup : order_heap !! 0 = Some order_frame.
Proof. unfold order_heap. by rewrite lookup_singleton_eq. Qed.

Lemma clean_column_headers_in_place_witness :
  order_heap !! 0 = Some order_frame
  /\ exists h',
       clean_column_headers PyStr.latin_and_dotted_i 0 order_heap = Some (0, h')
       /\ h' !! 0
          = Some (mkFrame (map (clean_header PyStr.latin_and_dotted_i)
                               (columns order_frame))
                          (rows order_frame))
       /\ (forall other, other <> 0 -> h' !! other = order_heap !! other).
Proof.
  split; [exact order_heap_lookup|].
  exact (clean_column_headers_in_place PyStr.latin_and_dotted_i order_heap 0
           order_frame order_heap_lookup).
Defined.

(** C9, as worded, fails: the name "a", U+0130, "b" is normalized to
    "A", "i", U+0307, "b", and a second pass turns the last letter into
    "B", because the combining dot is not a cased character. *)
Lemma clean_column_headers_twice_differs :
  exists h1 h2,
    clean_column_headers PyStr.latin_and_dotted_i 0 dotted_heap = Some (0, h1)
    /\ clean_column_headers PyStr.latin_and_dotted_i 0 h1 = Some (0, h2)
    /\ columns <$> h1 !! 0 = Some [[0x41; 0x69; 0x307; 0x62]%N]
    /\ columns <$> h2 !! 0 = Some [[0x41; 0x69; 0x307; 0x42]%N].
Proof.
  eexists _, _. split; [|split; [|split]].
  - unfold clean_column_headers, dotted_heap. rewrite lookup_singleton_eq. reflexivity.
  - unfold clean_column_headers. rewrite lookup_insert_eq. reflexivity.
  - rewrite lookup_insert_eq. reflexivity.
  - rewrite lookup_insert_eq. reflexivity.
Qed.

(** C9, amended: for every table whose column names are ASCII, applying
    the normalizer twice yields the same column names as applying it
    once. *)
Theorem clean_column_headers_idempotent {C} (db : PyStr.ucd) (h : heap C) (df : ref)
    (frame : DataFrame C) :
  PyStr.basic_latin db ->
  h !! df = Some frame ->
  Forall PyStr.ascii_str (columns frame) ->
  exists h1 h2 once twice,
    clean_column_headers db df h = Some (df, h1)
    /\ clean_column_headers db df h1 = Some (df, h2)
    /\ h1 !! df = Some once
    /\ h2 !! df = Some twice
    /\ columns twice = columns once.
Proof.
  intros Hdb Hdf Hascii. unfold clean_column_headers. rewrite Hdf.
  eexists _, _, _, _. split; [reflexivity|].
  rewrite lookup_insert_eq. split; [reflexivity|]. split; [reflexivity|].
  split; [by rewrite lookup_insert_eq|]. simpl.
  rewrite !map_fmap, <- list_fmap_compose. apply Forall_fmap_ext_1.
  eapply Forall_impl; [exact Hascii|]. intros col Hcol. simpl.
  by apply clean_header_idem.
Qed.

Lemma order_frame_ascii : Forall PyStr.ascii_str (columns order_frame).
Proof. unfold PyStr.ascii_str, PyStr.is_ascii. simpl. repeat constructor. Qed.

Lemma clean_column_headers_idempotent_witness :
  PyStr.basic_latin PyStr.latin_and_dotted_i
  /\ order_heap !! 0 = Some order_frame
  /\ Forall PyStr.ascii_str (columns order_frame)
  /\ exists h1 h2 once twice,
       clean_column_headers PyStr.latin_and_dotted_i 0 order_heap = Some (0, h1)
       /\ clean_column_headers PyStr.latin_and_dotted_i 0 h1 = Some (0, h2)
       /\ h1 !! 0 = Some once
       /\ h2 !! 0 = Some twice
       /\ columns twice = columns once.
Proof.
  split; [exact latin_and_dotted_i_basic|]. split; [exact order_heap_lookup|].
  split; [exact order_frame_ascii|].
  exact (clean_column_headers_idempotent PyStr.latin_and_dotted_i order_heap 0
           order_frame latin_and_dotted_i_basic order_heap_lookup order_frame_ascii).
Defined.

(** ** Positions of a label *)

Lemma positions_from_notin {A} `{EqDecision A} (x : A) (l : list A) (i : nat) :
  x ∉ l -> positions_from i x l = [].
Proof.
  revert i. induction l as [|y l IH]; intros i Hx; simpl; [done|].
  apply not_elem_of_cons in Hx as [Hne Hx].
  destruct (decide (y = x)); [congruence | by apply IH].
Qed.

Lemma positions_from_NoDup {A} `{EqDecision A} (x : A) (l : list A) (i j : nat) :
  NoDup l -> l !! j = Some x -> positions_from i x l = [i + j].
Proof.
  revert i j. induction l as [|y l IH]; intros i j Hnd Hj; [done|].
  apply NoDup_cons in Hnd as [Hy Hnd]. simpl.
  destruct j as [|j]; simpl in Hj.
  - simplify_eq. rewrite decide_True by done.
    rewrite positions_from_notin by done. f_equal. lia.
  - assert (y <> x).
    { intros ->. apply Hy. by eapply list_elem_of_lookup_2. }
    rewrite decide_False by done.
    rewrite (IH (S i) j) by done. f_equal. lia.
Qed.

Lemma positions_NoDup {A} `{EqDecision A} (x : A) (l : list A) (j : nat) :
  NoDup l -> l !! j = Some x -> positions x l = [j].
Proof. intros Hnd Hj. unfold positions. by rewrite (positions_from_NoDup x l 0 j). Qed.

Lemma positions_from_elem {A} `{EqDecision A} (x : A) (l : list A) (i : nat) :
  x ∈ l -> positions_from i x l <> [].
Proof.
  revert i. induction l as [|y l IH]; intros i Hx; [by apply elem_of_nil in Hx|].
  simpl. destruct (decide (y = x)); [done|].
  apply elem_of_cons in Hx as [->|Hx]; [done | by apply IH].
Qed.

(** ** Key inference *)

Section KeyInferenceFacts.
Context {V : Type} `{EqDecision V}.

Lemma is_unique_spec (s : list (option V)) :
  is_unique s = true <-> pairwise_distinct s.
Proof.
  unfold is_unique, pairwise_distinct.
  rewrite bool_decide_eq_true, NoDup_alt. split.
  - intros Hnd i j x y Hij Hi Hj ->. apply Hij. by eapply Hnd.
  - intros Hpd i j x Hi Hj. destruct (decide (i = j)) as [|Hij]; [done|].
    by destruct (Hpd i j x x Hij Hi Hj).
Qed.

Lemma notnull_all_spec (s : list (option V)) :
  notnull_all s = true <-> all_non_null s.
Proof.
  unfold notnull_all, all_non_null. rewrite forallb_forall. split.
  - intros Hall i c Hi. eapply bool_decide_eq_true_1.
    apply Hall. apply list_elem_of_In. by eapply list_elem_of_lookup_2.
  - intros Hall c Hc. apply bool_decide_eq_true.
    apply list_elem_of_In, list_elem_of_lookup_1 in Hc as [i Hi]. by eapply Hall.
Qed.

Lemma key_candidate_spec (df : DataFrame (option V)) (j : nat) :
  (is_unique (column_values None df j) && notnull_all (column_values None df j)) = true
  <-> key_like df j.
Proof.
  unfold key_like. rewrite andb_true_iff, is_unique_spec, notnull_all_spec. tauto.
Qed.

(** The loop, started at position [k] with no key-like column before. *)
Lemma scan_columns_from (df : DataFrame (option V)) (rest : list label) (k : nat) :
  NoDup (columns df) ->
  drop k (columns df) = rest ->
  (forall i, i < k -> ~ key_like df i) ->
  (exists j name,
      columns df !! j = Some name /\ key_like df j
      /\ (forall i, i < j -> ~ key_like df i)
      /\ scan_columns df rest = Ok (Some name))
  \/ ((forall i, i < length (columns df) -> ~ key_like df i)
      /\ scan_columns df rest = Ok None).
Proof.
  intros Hnd. revert k. induction rest as [|column rest IH]; intros k Hdrop Hbefore.
  - right. split; [|done]. intros i Hi. apply Hbefore.
    apply drop_nil_inv in Hdrop. lia.
  - assert (Hk : columns df !! k = Some column).
    { rewrite <- (Nat.add_0_r k), <- lookup_drop, Hdrop. done. }
    simpl. unfold getitem. rewrite (positions_NoDup _ _ _ Hnd Hk). simpl.
    destruct (is_unique (column_values None df k)
              && notnull_all (column_values None df k)) eqn:Hgood.
    + left. exists k, column. by rewrite <- key_candidate_spec.
    + apply (IH (S k)).
      * replace (S k) with (k + 1) by lia.
        by rewrite <- drop_drop, Hdrop.
      * intros i Hi. destruct (decide (i = k)) as [->|].
        -- rewrite <- key_candidate_spec. by rewrite Hgood.
        -- apply Hbefore. lia.
Qed.

(** C3: for every table with at least one column (and distinct column
    names), key inference returns the first column, in declared order,
    whose values are all non-null and pairwise distinct; when no
    column is such, it returns the first declared column. *)
Theorem detect_primary_key_first_match (df : DataFrame (option V))
    (first : label) (others : list label) :
  columns df = first :: others ->
  NoDup (columns df) ->
  (exists j name,
      columns df !! j = Some name /\ key_like df j
      /\ (forall i, i < j -> ~ key_like df i)
      /\ detect_primary_key df = Ok name)
  \/ ((forall i, i < length (columns df) -> ~ key_like df i)
      /\ detect_primary_key df = Ok first).
Proof.
  intros Hcols Hnd. unfold detect_primary_key.
  destruct (scan_columns_from df (columns df) 0 Hnd eq_refl)
    as [(j & name & Hj & Hkey & Hmin & Hscan)|[Hnone Hscan]]; [lia| |].
  - left. exists j, name. by rewrite Hscan.
  - right. split; [done|]. by rewrite Hscan, Hcols.
Qed.

(** C8: a table with zero columns makes key inference fail with an
    [IndexError]; no key is returned. *)
Theorem detect_primary_key_no_columns (df : DataFrame (option V)) :
  columns df = [] ->
  detect_primary_key df = Raise IndexError
  /\ (forall key, detect_primary_key df <> Ok key).
Proof.
  intros Hcols. unfold detect_primary_key. rewrite Hcols. simpl. done.
Qed.

End KeyInferenceFacts.

(** ** Labels of a merge *)

Lemma omap_all_none {A B} (f : A -> option B) (l : list A) :
  Forall (fun x => f x = None) l -> omap f l = [].
Proof. induction 1 as [|x l Hx _ IH]; simpl; [done|]. by rewrite Hx. Qed.

Lemma duplicated_NoDup (l seen : list label) :
  NoDup l -> (forall x, x ∈ l -> x ∉ seen) ->
  Forall (fun b => b = false) (duplicated seen l).
Proof.
  intros Hnd. revert seen. induction Hnd as [|x l Hx Hnd IH]; intros seen Hseen; simpl.
  - constructor.
  - constructor.
    + apply bool_decide_eq_false. apply Hseen. by left.
    + apply IH. intros y Hy. rewrite not_elem_of_cons. split.
      * intros ->. done.
      * apply Hseen. by right.
Qed.

Lemma suffix_dups_NoDup (orig renamed : list label) :
  NoDup renamed -> suffix_dups orig renamed = [].
Proof.
  intros Hnd. unfold suffix_dups. apply omap_all_none, Forall_forall.
  intros [x [d_new d_old]] Hin.
  apply elem_of_zip_r, elem_of_zip_l in Hin.
  assert (Hall : Forall (fun b => b = false) (duplicated [] renamed)).
  { apply duplicated_NoDup; [done|]. intros y _. apply not_elem_of_nil. }
  rewrite Forall_forall in Hall. by rewrite (Hall _ Hin).
Qed.

Lemma renamer_NoDup (to_rename cols : list label) (suffix : label) :
  NoDup cols ->
  (forall a, a ∈ to_rename -> a ++ suffix ∉ cols) ->
  NoDup (map (renamer to_rename suffix) cols).
Proof.
  intros Hnd Hfresh. rewrite map_fmap. apply NoDup_fmap_2_strong; [|done].
  intros x y Hx Hy. unfold renamer.
  destruct (decide (x ∈ to_rename)) as [Hxr|Hxr],
           (decide (y ∈ to_rename)) as [Hyr|Hyr]; intros Heq.
  - by apply app_inv_tail in Heq.
  - subst y. by destruct (Hfresh x Hxr).
  - subst x. by destruct (Hfresh y Hyr).
  - done.
Qed.

Lemma suffixed_not_merge_label (x suffix : label) :
  suffix = suffix_x \/ suffix = suffix_y -> x ++ suffix <> merge_label.
Proof.
  intros Hs Heq. apply (f_equal (@rev _)) in Heq. rewrite rev_app_distr in Heq.
  destruct Hs as [-> | ->]; discriminate.
Qed.

Lemma renamer_not_merge_label (to_rename cols : list label) (suffix : label) :
  suffix = suffix_x \/ suffix = suffix_y ->
  merge_label ∉ cols ->
  merge_label ∉ map (renamer to_rename suffix) cols.
Proof.
  intros Hs Hcols. rewrite map_fmap. intros Hin.
  apply list_elem_of_fmap in Hin as (x & Heq & Hx). unfold renamer in Heq.
  destruct (decide (x ∈ to_rename)).
  - by eapply suffixed_not_merge_label.
  - by subst x.
Qed.

(** Under the preconditions the labels are computed, one per column. *)
Lemma items_overlap_with_suffix_ok (lcols rcols : list label) :
  NoDup lcols -> NoDup rcols ->
  merge_label ∉ lcols -> merge_label ∉ rcols ->
  (forall a, a ∈ lcols -> a ∈ rcols ->
             (a ++ suffix_x ∉ lcols) /\ (a ++ suffix_y ∉ rcols)) ->
  exists ll rl,
    items_overlap_with_suffix lcols rcols = Ok (ll, rl)
    /\ length ll = length lcols /\ length rl = length rcols
    /\ (merge_label ∉ ll ++ rl).
Proof.
  intros Hl Hr Hml Hmr Hfresh. unfold items_overlap_with_suffix.
  destruct (filter (fun x => x ∈ rcols) lcols) as [|a0 to_rename'] eqn:Hren.
  - exists lcols, rcols. repeat split; try done.
    rewrite elem_of_app. tauto.
  - set (to_rename := a0 :: to_rename') in *.
    assert (Hboth : forall a, a ∈ to_rename -> a ∈ lcols /\ a ∈ rcols).
    { intros a Ha. rewrite <- Hren in Ha.
      apply list_elem_of_filter in Ha. tauto. }
    rewrite suffix_dups_NoDup, suffix_dups_NoDup.
    + eexists _, _. split; [reflexivity|]. rewrite !length_map.
      repeat split. rewrite elem_of_app. intros [H|H]; revert H.
      * apply renamer_not_merge_label; auto.
      * apply renamer_not_merge_label; auto.
    + apply renamer_NoDup; [done|]. intros a Ha.
      destruct (Hboth a Ha) as [Hal Har]. by apply Hfresh.
    + apply renamer_NoDup; [done|]. intros a Ha.
      destruct (Hboth a Ha) as [Hal Har]. by apply Hfresh.
Qed.

Lemma positions_from_snoc {A} `{EqDecision A} (x : A) (l : list A) (i : nat) :
  x ∉ l -> positions_from i x (l ++ [x]) = [i + length l].
Proof.
  revert i. induction l as [|y l IH]; intros i Hx; simpl.
  - rewrite decide_True by done. f_equal. lia.
  - apply not_elem_of_cons in Hx as [Hne Hx].
    rewrite decide_False by done. rewrite IH by done. f_equal. lia.
Qed.

(** ** Dropping the shared key column *)

Lemma drop_positions_from_length {A B} (js : list nat) (l1 : list A) (l2 : list B)
    (s : nat) :
  length l1 = length l2 ->
  length (omap (fun '(i, x) => if decide (i ∈ js) then None else Some x)
               (zip (seq s (length l1)) l1))
  = length (omap (fun '(i, x) => if decide (i ∈ js) then None else Some x)
                 (zip (seq s (length l2)) l2)).
Proof.
  revert l2 s. induction l1 as [|a l1 IH]; intros [|b l2] s Hlen; simpl in *;
    try done.
  destruct (decide (s ∈ js)); simpl; [|f_equal]; apply IH; lia.
Qed.

Lemma drop_positions_length {A B} (js : list nat) (l1 : list A) (l2 : list B) :
  length l1 = length l2 ->
  length (drop_positions js l1) = length (drop_positions js l2).
Proof. apply drop_positions_from_length. Qed.

Lemma drop_positions_from_elem {A} (js : list nat) (l : list A) (s : nat) (x : A) :
  x ∈ omap (fun '(i, x) => if decide (i ∈ js) then None else Some x)
           (zip (seq s (length l)) l) ->
  x ∈ l.
Proof.
  revert s. induction l as [|a l IH]; intros s; simpl; [done|].
  destruct (decide (s ∈ js)); simpl.
  - intros H. right. by eapply IH.
  - rewrite elem_of_cons. intros [->|H]; [by left|]. right. by eapply IH.
Qed.

Lemma drop_positions_elem {A} (js : list nat) (l : list A) (x : A) :
  x ∈ drop_positions js l -> x ∈ l.
Proof. apply drop_positions_from_elem. Qed.

Lemma drop_positions_from_NoDup {A} (js : list nat) (l : list A) (s : nat) :
  NoDup l ->
  NoDup (omap (fun '(i, x) => if decide (i ∈ js) then None else Some x)
              (zip (seq s (length l)) l)).
Proof.
  intros Hnd. revert s. induction Hnd as [|a l Ha Hnd IH]; intros s; simpl.
  - constructor.
  - destruct (decide (s ∈ js)); simpl; [apply IH|].
    constructor; [|apply IH]. intros H. apply Ha. by eapply drop_positions_from_elem.
Qed.

Lemma drop_positions_NoDup {A} (js : list nat) (l : list A) :
  NoDup l -> NoDup (drop_positions js l).
Proof. apply drop_positions_from_NoDup. Qed.

(** ** The rows of a merge *)

Lemma boolean_mask_filter {A C} (P : A -> Prop) `{forall x, Decision (P x)}
    (g : A -> list C) (l : list A) :
  boolean_mask (map (fun x => bool_decide (P x)) l) (map g l)
  = map g (filter P l).
Proof.
  induction l as [|x l IH]; simpl; [done|].
  rewrite filter_cons. destruct (decide (P x)) as [Hx|Hx].
  - rewrite bool_decide_eq_true_2 by done. simpl. by rewrite IH.
  - rewrite bool_decide_eq_false_2 by done. done.
Qed.

Section MatcherRows.
Context {V : Type} `{EqDecision V}.
Variable arrange : list join_row -> list join_row.
Variable keys_comparable : list (option V) -> list (option V) -> bool.
Variable promote : list (option V) -> V -> V.
Variable empty_left_drops_left_key : bool.

Lemma key_values_ok (df : DataFrame (option V)) (key : label) :
  NoDup (columns df) -> key ∈ columns df ->
  exists p, columns df !! p = Some key
            /\ positions key (columns df) = [p]
            /\ key_values df key = Ok (column_values None df p).
Proof.
  intros Hnd Hkey. apply list_elem_of_lookup_1 in Hkey as [p Hp].
  exists p. split; [done|]. unfold key_values.
  by rewrite (positions_NoDup _ _ _ Hnd Hp).
Qed.

Lemma take_row_length (df : DataFrame (option V)) (oi : option nat) :
  well_formed df -> length (take_row df oi) = length (columns df).
Proof.
  intros Hwf. unfold take_row.
  destruct (oi ≫= fun i => rows df !! i) as [r|] eqn:Hr.
  - destruct oi as [i|]; simpl in Hr; [|done].
    unfold well_formed in Hwf. rewrite Forall_forall in Hwf.
    apply Hwf. by eapply list_elem_of_lookup_2.
  - by rewrite length_replicate.
Qed.

Lemma well_formed_drop_label (df : DataFrame (option V)) (name : label) :
  well_formed df -> well_formed (drop_label df name).
Proof.
  unfold well_formed, drop_label. simpl. intros Hwf.
  rewrite map_fmap. apply Forall_fmap. eapply Forall_impl; [exact Hwf|].
  intros r Hr. simpl. by apply drop_positions_length.
Qed.

Lemma fill_key_length (fill : bool) (left_on : label) (lcols : list label)
    (rkeys : list (option V)) (jr : join_row) (cells : list (option V)) :
  length (fill_key fill left_on lcols rkeys jr cells) = length cells.
Proof.
  unfold fill_key. destruct fill; [|done].
  destruct jr as [[i|] [j|]]; try done.
  destruct (positions left_on lcols) as [|p [|]]; try done.
  by rewrite length_insert.
Qed.

Lemma promote_cells_length (df : DataFrame (option V)) (keep : option nat)
    (r : list (option V)) :
  length (promote_cells promote df keep r) = length r.
Proof. unfold promote_cells. by rewrite length_imap. Qed.

Lemma stored_cells_length (gets_null : bool) (df : DataFrame (option V))
    (keep : option nat) (r : list (option V)) :
  length (stored_cells promote gets_null df keep r) = length r.
Proof.
  unfold stored_cells. destruct gets_null; [apply promote_cells_length|done].
Qed.

Lemma merged_row_indicator (left right' : DataFrame (option V)) (fill : bool)
    (left_on : label) (rkeys : list (option V)) (join : list join_row)
    (jr : join_row) :
  well_formed left -> well_formed right' ->
  cell_at (Data None) (length (columns left) + length (columns right'))
          (merged_row promote left right' fill left_on rkeys join jr)
  = Category (indicator_of jr).
Proof.
  intros Hl Hr. unfold cell_at, merged_row.
  rewrite lookup_app_r;
    rewrite length_map, fill_key_length, stored_cells_length, take_row_length
      by done; [|lia].
  rewrite lookup_app_r;
    rewrite length_map, stored_cells_length, take_row_length by done; [|lia].
  replace (_ - _ - _) with 0 by lia. done.
Qed.

(** Under its preconditions the matcher returns, and each of its two
    tables holds the rows built from a part of the join. *)
Lemma match_data_rows (left right : DataFrame (option V)) (left_on right_on : label) :
  mergeable keys_comparable left right left_on right_on ->
  exists cols p q,
    columns left !! p = Some left_on
    /\ columns right !! q = Some right_on
    /\ merge_label ∈ cols
    /\ let joined := full_outer_join arrange (column_values None left p)
                                    (column_values None right q) in
       match_data arrange keys_comparable promote empty_left_drops_left_key left right left_on right_on
       = Ok (mkFrame cols (map (joined_row arrange promote empty_left_drops_left_key left right left_on right_on)
                               (filter (fun jr => indicator_of jr = both) joined)),
             mkFrame cols (map (joined_row arrange promote empty_left_drops_left_key left right left_on right_on)
                               (filter (fun jr => indicator_of jr <> both) joined))).
Proof.
  intros [Hlwf Hrwf Hlnd Hrnd Hlk Hrk Hkind Hres Hclash].
  destruct (key_values_ok left left_on Hlnd Hlk) as (p & Hp & _ & Hlkeys).
  destruct (key_values_ok right right_on Hrnd Hrk) as (q & Hq & _ & Hrkeys).
  specialize (Hkind _ _ Hlkeys Hrkeys).
  set (left' := kept_left empty_left_drops_left_key left left_on right_on).
  set (right' := kept_right empty_left_drops_left_key left right left_on right_on).
  assert (Hsubl : forall x, x ∈ columns left' -> x ∈ columns left).
  { intros x. unfold left', kept_left. destruct (drops_left _ _ _ _); [|done].
    simpl. apply drop_positions_elem. }
  assert (Hsubr : forall x, x ∈ columns right' -> x ∈ columns right).
  { intros x. unfold right', kept_right. destruct (drops_right _ _ _ _); [|done].
    simpl. apply drop_positions_elem. }
  assert (Hlnd' : NoDup (columns left')).
  { unfold left', kept_left. destruct (drops_left _ _ _ _); [|done].
    simpl. by apply drop_positions_NoDup. }
  assert (Hrnd' : NoDup (columns right')).
  { unfold right', kept_right. destruct (drops_right _ _ _ _); [|done].
    simpl. by apply drop_positions_NoDup. }
  assert (Hlwf' : well_formed left').
  { unfold left', kept_left. destruct (drops_left _ _ _ _); [|done].
    by apply well_formed_drop_label. }
  assert (Hrwf' : well_formed right').
  { unfold right', kept_right. destruct (drops_right _ _ _ _); [|done].
    by apply well_formed_drop_label. }
  assert (Hfree : forall l,
             l ∈ [merge_label; left_indicator_label; right_indicator_label] ->
             l ∉ columns left' ++ columns right').
  { intros l Hl. destruct (Hres l Hl) as [H1 H2].
    rewrite elem_of_app. intros [?|?]; [apply H1; by apply Hsubl|].
    apply H2. by apply Hsubr. }
  assert (Hm : merge_label ∉ columns left' ++ columns right').
  { apply Hfree. by left. }
  assert (Hli : left_indicator_label ∉ columns left' ++ columns right').
  { apply Hfree. right. by left. }
  assert (Hri : right_indicator_label ∉ columns left' ++ columns right').
  { apply Hfree. right. right. by left. }
  assert (Hpre : indicator_pre_merge (columns left') (columns right') = Ok tt).
  { unfold indicator_pre_merge. by rewrite !decide_False. }
  rewrite elem_of_app in Hm.
  destruct (items_overlap_with_suffix_ok (columns left') (columns right'))
    as (ll & rl & Hlabels & Hll & Hrl & Hfresh); try tauto.
  { intros a Hal Har. destruct (Hclash a (Hsubl _ Hal) (Hsubr _ Har)) as [H1 H2].
    split; intros Hin; [apply H1; by apply Hsubl | apply H2; by apply Hsubr]. }
  exists (ll ++ rl ++ [merge_label]), p, q.
  split; [done|]. split; [done|].
  split; [rewrite !elem_of_app; right; right; by left|].
  intros joined. unfold match_data, merge. rewrite Hlkeys, Hrkeys. simpl.
  rewrite Hkind. simpl.
  fold left'. fold right'. rewrite Hpre. simpl. rewrite Hlabels. simpl.
  fold joined.
  unfold getitem. simpl. unfold positions.
  rewrite (app_assoc ll rl), positions_from_snoc by done. simpl.
  unfold select_rows, column_values. simpl.
  rewrite !map_map.
  rewrite length_app, Hll, Hrl.
  assert (Hrow : forall jr,
             merged_row promote left' right'
               (drops_right empty_left_drops_left_key left left_on right_on)
               left_on (column_values None right q) joined jr
             = joined_row arrange promote empty_left_drops_left_key
                          left right left_on right_on jr).
  { intros jr. unfold joined_row, keys_of. by rewrite Hlkeys, Hrkeys. }
  f_equal. f_equal.
  - f_equal. rewrite <- (boolean_mask_filter (fun jr => indicator_of jr = both)).
    f_equal.
    + apply map_ext. intros jr. by rewrite merged_row_indicator.
    + apply map_ext, Hrow.
  - f_equal. rewrite <- (boolean_mask_filter (fun jr => indicator_of jr <> both)).
    f_equal.
    + apply map_ext. intros jr. rewrite merged_row_indicator by done. simpl.
      by rewrite bool_decide_not.
    + apply map_ext, Hrow.
Qed.

End MatcherRows.

(** ** Counting in lists *)

Lemma filter_all {A} (P : A -> Prop) `{forall x, Decision (P x)} (l : list A) :
  Forall P l -> filter P l = l.
Proof.
  induction 1 as [|x l Hx _ IH]; [done|]. by rewrite filter_cons_True, IH.
Qed.

Lemma filter_none {A} (P : A -> Prop) `{forall x, Decision (P x)} (l : list A) :
  Forall (fun x => ~ P x) l -> filter P l = [].
Proof.
  induction 1 as [|x l Hx _ IH]; [done|]. by rewrite filter_cons_False.
Qed.

Lemma length_filter_eq_NoDup {A} `{EqDecision A} (x : A) (l : list A) :
  NoDup l ->
  length (filter (fun y => y = x) l) = if decide (x ∈ l) then 1 else 0.
Proof.
  induction 1 as [|y l Hy Hnd IH]; [done|].
  rewrite filter_cons. destruct (decide (y = x)) as [->|Hne].
  - simpl. rewrite IH. rewrite decide_False by done.
    rewrite decide_True by (by left). done.
  - rewrite IH. destruct (decide (x ∈ l)) as [Hx|Hx].
    + rewrite decide_True by (by right). done.
    + rewrite decide_False; [done|]. rewrite elem_of_cons. intros [?|?]; by subst.
Qed.

Lemma NoDup_unique_length {A} (x : A) (l : list A) :
  NoDup l -> x ∈ l -> (forall y, y ∈ l -> y = x) -> length l = 1.
Proof.
  intros Hnd Hx Hall. destruct l as [|a [|b l]]; [by apply elem_of_nil in Hx|done|].
  assert (a = x) as -> by (apply Hall; by left).
  assert (b = x) as -> by (apply Hall; right; by left).
  apply NoDup_cons in Hnd as [Hnot _]. destruct Hnot. by left.
Qed.

Lemma positions_from_elem_of {A} `{EqDecision A} (x : A) (l : list A) (n k : nat) :
  k ∈ positions_from n x l <-> exists a, k = n + a /\ l !! a = Some x.
Proof.
  revert n. induction l as [|y l IH]; intros n; simpl.
  - split; [by intros ?%elem_of_nil | by intros (a & _ & ?)].
  - assert (Hrest : k ∈ positions_from (S n) x l
                     <-> exists a, k = n + S a /\ l !! a = Some x).
    { rewrite IH. split; intros (a & -> & Ha); exists a; split; auto; lia. }
    destruct (decide (y = x)) as [->|Hne].
    + rewrite elem_of_cons, Hrest. split.
      * intros [->|(a & -> & Ha)]; [exists 0 | exists (S a)]; split; auto; lia.
      * intros ([|a] & -> & Ha); [left; lia | right; by exists a].
    + rewrite Hrest. split.
      * intros (a & -> & Ha). by exists (S a).
      * intros ([|a] & -> & Ha); simpl in Ha; [congruence | by exists a].
Qed.

Lemma positions_elem_of {A} `{EqDecision A} (x : A) (l : list A) (k : nat) :
  k ∈ positions x l <-> l !! k = Some x.
Proof.
  unfold positions. rewrite positions_from_elem_of. split.
  - by intros (a & -> & Ha).
  - intros Hk. by exists k.
Qed.

Lemma positions_from_NoDup_list {A} `{EqDecision A} (x : A) (l : list A) (n : nat) :
  NoDup (positions_from n x l).
Proof.
  revert n. induction l as [|y l IH]; intros n; simpl; [constructor|].
  destruct (decide (y = x)); [|apply IH].
  constructor; [|apply IH].
  rewrite positions_from_elem_of. intros (a & Heq & _). lia.
Qed.

Lemma positions_from_length {A} `{EqDecision A} (x : A) (l : list A) (n m : nat) :
  length (positions_from n x l) = length (positions_from m x l).
Proof.
  revert n m. induction l as [|y l IH]; intros n m; simpl; [done|].
  destruct (decide (y = x)); simpl; auto.
Qed.

Lemma positions_unique {A} `{EqDecision A} (x : A) (l : list A) (j : nat) :
  l !! j = Some x -> (forall j', l !! j' = Some x -> j' = j) ->
  length (positions x l) = 1.
Proof.
  intros Hj Huniq. apply (NoDup_unique_length j).
  - apply positions_from_NoDup_list.
  - by apply positions_elem_of.
  - intros y Hy. apply Huniq. by apply positions_elem_of.
Qed.

Lemma Forall_concat_imap {A B} (Q : B -> Prop) (F : nat -> A -> list B) (l : list A) :
  (forall m x, Forall Q (F m x)) -> Forall Q (concat (imap F l)).
Proof.
  revert F. induction l as [|x l IH]; intros F HF; simpl; [constructor|].
  apply Forall_app. split; [apply HF|]. apply IH. intros m y. apply HF.
Qed.

(** Groups indexed by position: filtering on the index of a group selects
    that group. *)
Lemma filter_concat_imap_select {A B} (P : nat -> B -> Prop)
    {Hdec : forall i y, Decision (P i y)} (F : nat -> A -> list B) :
  (forall m x, Forall (P m) (F m x)) ->
  (forall m i x, m <> i -> Forall (fun y => ~ P i y) (F m x)) ->
  forall (l : list A) (n i : nat),
    filter (P i) (concat (imap (fun a => F (n + a)) l))
    = match (if decide (n <= i) then l !! (i - n) else None) with
      | Some x => F i x
      | None => []
      end.
Proof.
  intros Hown Hother l. induction l as [|x l IH]; intros n i.
  - simpl. by destruct (decide (n <= i)).
  - rewrite imap_cons. simpl. rewrite filter_app.
    rewrite (imap_ext _ (fun a => F (S n + a))); last first.
    { intros a y _. simpl. f_equal. lia. }
    rewrite IH. replace (n + 0) with n by lia.
    destruct (decide (n = i)) as [->|Hne].
    + rewrite filter_all by apply Hown.
      destruct (decide (i <= i)); [|lia]. destruct (decide (S i <= i)); [lia|].
      replace (i - i) with 0 by lia. simpl. by rewrite app_nil_r.
    + rewrite filter_none by (by apply Hother). simpl.
      destruct (decide (S n <= i)) as [Hle|Hgt].
      * destruct (decide (n <= i)); [|lia].
        replace (i - n) with (S (i - S n)) by lia. done.
      * destruct (decide (n <= i)); [lia|]. done.
Qed.

Lemma filter_comm {A} (P Q : A -> Prop) `{forall x, Decision (P x)}
    `{forall x, Decision (Q x)} (l : list A) :
  filter P (filter Q l) = filter Q (filter P l).
Proof.
  rewrite !list_filter_filter. apply list_filter_iff. intros x. tauto.
Qed.

Lemma filter_map_pair (m j : nat) (js : list nat) :
  filter (fun jr : join_row => jr.2 = Some j)
         (map (fun j' => (Some m, Some j')) js)
  = map (fun j' => (Some m, Some j')) (filter (fun j' => j' = j) js).
Proof.
  induction js as [|a js IH]; [done|]. simpl. rewrite !filter_cons. simpl.
  destruct (decide (a = j)) as [->|Hne].
  - rewrite decide_True by done. simpl. by rewrite IH.
  - rewrite decide_False by congruence. done.
Qed.

(** ** The groups of an outer join *)

Lemma Forall_concat_imap_lookup {A B} (Q : B -> Prop) (F : nat -> A -> list B)
    (l : list A) :
  (forall m x, l !! m = Some x -> Forall Q (F m x)) -> Forall Q (concat (imap F l)).
Proof.
  revert F. induction l as [|x l IH]; intros F HF; simpl; [constructor|].
  apply Forall_app. split; [by apply HF|]. apply IH. intros m y Hm. by apply HF.
Qed.

Lemma elem_of_concat_imap {A B} (F : nat -> A -> list B) (l : list A) (y : B) :
  y ∈ concat (imap F l) <-> exists m x, l !! m = Some x /\ y ∈ F m x.
Proof.
  revert F. induction l as [|a l IH]; intros F; simpl.
  - split; [by intros ?%elem_of_nil | by intros (m & x & ? & _)].
  - rewrite elem_of_app, IH. split.
    + intros [Hy|(m & x & Hm & Hy)]; [by exists 0, a | by exists (S m), x].
    + intros ([|m] & x & Hm & Hy); simpl in Hm.
      * left. by simplify_eq.
      * right. by exists m, x.
Qed.

Lemma existsb_elem_of {A} (f : A -> bool) (l : list A) :
  existsb f l = true <-> exists x, x ∈ l /\ f x = true.
Proof.
  rewrite existsb_exists. split; intros (x & Hx & Hf); exists x;
    (split; [by apply list_elem_of_In|done]).
Qed.

Lemma imap_replicate_fixed {A} (f : nat -> A -> A) (a : A) (n : nat) :
  (forall m, f m a = a) -> imap f (replicate n a) = replicate n a.
Proof.
  revert f. induction n as [|n IH]; intros f Hf; simpl; [done|].
  rewrite Hf. f_equal. apply IH. intros m. apply Hf.
Qed.

Section JoinGroups.
Context {V : Type} `{EqDecision V}.
Implicit Types lkeys rkeys : list (option V).

Lemma left_group_own rkeys (m : nat) (k : option V) :
  Forall (fun jr : join_row => jr.1 = Some m) (left_group rkeys m k).
Proof.
  unfold left_group. destruct (positions k rkeys) as [|j js].
  - by repeat constructor.
  - rewrite map_fmap. apply Forall_fmap, Forall_forall. done.
Qed.

Lemma left_group_other rkeys (m i : nat) (k : option V) :
  m <> i -> Forall (fun jr : join_row => ~ jr.1 = Some i) (left_group rkeys m k).
Proof.
  intros Hne. eapply Forall_impl; [apply left_group_own|].
  intros jr Hjr. simpl in *. rewrite Hjr. congruence.
Qed.

Lemma right_group_own lkeys (m : nat) (k : option V) :
  Forall (fun jr : join_row => jr.2 = Some m) (right_group lkeys m k).
Proof.
  unfold right_group. destruct (positions k lkeys); by repeat constructor.
Qed.

Lemma right_group_other lkeys (m j : nat) (k : option V) :
  m <> j -> Forall (fun jr : join_row => ~ jr.2 = Some j) (right_group lkeys m k).
Proof.
  intros Hne. eapply Forall_impl; [apply right_group_own|].
  intros jr Hjr. simpl in *. rewrite Hjr. congruence.
Qed.

Lemma right_group_not_left lkeys (m : nat) (k : option V) :
  Forall (fun jr : join_row => jr.1 = None) (right_group lkeys m k).
Proof.
  unfold right_group. destruct (positions k lkeys); by repeat constructor.
Qed.

Lemma left_group_both rkeys (m : nat) (k : option V) :
  length (filter (fun jr => indicator_of jr = both) (left_group rkeys m k))
  = length (positions k rkeys).
Proof.
  unfold left_group. destruct (positions k rkeys) as [|j js]; [done|].
  rewrite filter_all; [by rewrite length_map|].
  rewrite map_fmap. apply Forall_fmap, Forall_forall. done.
Qed.

Lemma left_group_not_both rkeys (m : nat) (k : option V) :
  length (filter (fun jr => indicator_of jr <> both) (left_group rkeys m k))
  = if decide (positions k rkeys = []) then 1 else 0.
Proof.
  unfold left_group. destruct (positions k rkeys) as [|j js]; [done|].
  rewrite decide_False by done. rewrite filter_none; [done|].
  rewrite map_fmap. apply Forall_fmap, Forall_forall. intros j' _ Hne. by apply Hne.
Qed.

Lemma right_group_both lkeys (m : nat) (k : option V) :
  filter (fun jr => indicator_of jr = both) (right_group lkeys m k) = [].
Proof. unfold right_group. by destruct (positions k lkeys). Qed.

Lemma right_group_not_both lkeys (m : nat) (k : option V) :
  length (filter (fun jr => indicator_of jr <> both) (right_group lkeys m k))
  = if decide (positions k lkeys = []) then 1 else 0.
Proof. unfold right_group. by destruct (positions k lkeys). Qed.

(** The right row [j] occurs in the group of a left row once when the
    keys are equal, and not otherwise. *)
Lemma left_group_by_right rkeys (m j : nat) (k kj : option V) :
  rkeys !! j = Some kj ->
  length (filter (fun jr : join_row => jr.2 = Some j) (left_group rkeys m k))
  = if decide (k = kj) then 1 else 0.
Proof.
  intros Hj. unfold left_group.
  pose proof (positions_elem_of k rkeys j) as Hmem.
  pose proof (positions_from_NoDup_list k rkeys 0) as Hnd.
  fold (positions k rkeys) in Hnd.
  destruct (positions k rkeys) as [|j0 js] eqn:Hpos.
  - destruct (decide (k = kj)) as [->|]; [|done].
    apply Hmem in Hj. by apply elem_of_nil in Hj.
  - rewrite filter_map_pair, length_map, length_filter_eq_NoDup by done.
    destruct (decide (k = kj)) as [->|Hne].
    + rewrite decide_True; [done|]. by apply Hmem.
    + rewrite decide_False; [done|]. rewrite Hmem, Hj. congruence.
Qed.

Lemma left_groups_by_right rkeys (j : nat) (kj : option V) (l : list (option V))
    (n m : nat) :
  rkeys !! j = Some kj ->
  length (filter (fun jr : join_row => jr.2 = Some j)
                 (concat (imap (fun a => left_group rkeys (n + a)) l)))
  = length (positions_from m kj l).
Proof.
  intros Hj. revert n m. induction l as [|k l IH]; intros n m; [done|].
  rewrite imap_cons. simpl. rewrite filter_app, length_app.
  rewrite (left_group_by_right _ _ _ _ _ Hj).
  rewrite (imap_ext _ (fun a => left_group rkeys (S n + a))); last first.
  { intros a y _. simpl. f_equal. lia. }
  rewrite (IH (S n) (S m)). by destruct (decide (k = kj)).
Qed.

Lemma left_groups_both rkeys (l : list (option V)) (n : nat) :
  length (filter (fun jr => indicator_of jr = both)
                 (concat (imap (fun a => left_group rkeys (n + a)) l)))
  = sum_list (map (fun k => length (positions k rkeys)) l).
Proof.
  revert n. induction l as [|k l IH]; intros n; [done|].
  rewrite imap_cons. simpl. rewrite filter_app, length_app, left_group_both.
  rewrite (imap_ext _ (fun a => left_group rkeys (S n + a))); last first.
  { intros a y _. simpl. f_equal. lia. }
  by rewrite IH.
Qed.

(** The rows of the join that come from the left row [i]. *)
Lemma join_groups_by_left lkeys rkeys (i : nat) (k : option V) :
  lkeys !! i = Some k ->
  filter (fun jr : join_row => jr.1 = Some i) (join_groups lkeys rkeys)
  = left_group rkeys i k.
Proof.
  intros Hi. unfold join_groups. rewrite filter_app.
  assert (Hsel :
    filter (fun jr : join_row => jr.1 = Some i)
           (concat (imap (left_group rkeys) lkeys))
    = match (if decide (0 <= i) then lkeys !! (i - 0) else None) with
      | Some x => left_group rkeys i x
      | None => []
      end).
  { exact (filter_concat_imap_select (fun i (jr : join_row) => jr.1 = Some i)
             (Hdec := fun i (jr : join_row) => decide (jr.1 = Some i))
             (left_group rkeys) (left_group_own rkeys) (left_group_other rkeys)
             lkeys 0 i). }
  rewrite Hsel. clear Hsel.
  rewrite decide_True by lia. rewrite Nat.sub_0_r, Hi.
  rewrite (filter_none _ (concat _)); [by rewrite app_nil_r|].
  apply Forall_concat_imap. intros m x.
  eapply Forall_impl; [apply right_group_not_left|].
  intros jr Hjr. simpl in *. rewrite Hjr. congruence.
Qed.

(** The rows of the unmatched right row [j]. *)
Lemma join_groups_right_part lkeys rkeys (j : nat) (k : option V) :
  rkeys !! j = Some k ->
  filter (fun jr : join_row => jr.2 = Some j)
         (concat (imap (right_group lkeys) rkeys))
  = right_group lkeys j k.
Proof.
  intros Hj.
  assert (Hsel :
    filter (fun jr : join_row => jr.2 = Some j)
           (concat (imap (right_group lkeys) rkeys))
    = match (if decide (0 <= j) then rkeys !! (j - 0) else None) with
      | Some x => right_group lkeys j x
      | None => []
      end).
  { exact (filter_concat_imap_select (fun j (jr : join_row) => jr.2 = Some j)
             (Hdec := fun j (jr : join_row) => decide (jr.2 = Some j))
             (right_group lkeys) (right_group_own lkeys) (right_group_other lkeys)
             rkeys 0 j). }
  rewrite Hsel. clear Hsel.
  rewrite decide_True by lia. by rewrite Nat.sub_0_r, Hj.
Qed.

Lemma left_part_all_both_by_right lkeys rkeys (j : nat) :
  Forall (fun jr => indicator_of jr = both)
         (filter (fun jr : join_row => jr.2 = Some j)
                 (concat (imap (left_group rkeys) lkeys))).
Proof.
  apply Forall_forall. intros jr Hjr.
  apply list_elem_of_filter in Hjr as [Hsnd Hin].
  assert (Hall : Forall (fun jr : join_row => exists m, jr.1 = Some m)
                        (concat (imap (left_group rkeys) lkeys))).
  { apply Forall_concat_imap. intros m x.
    eapply Forall_impl; [apply left_group_own|].
    intros jr' Hjr'. simpl in Hjr'. by exists m. }
  rewrite Forall_forall in Hall. destruct (Hall _ Hin) as [m Hm].
  destruct jr as [[?|] [?|]]; simpl in *; try done.
Qed.

Lemma matched_left_count lkeys rkeys (i : nat) (k : option V) :
  lkeys !! i = Some k ->
  left_occurrences i (filter (fun jr => indicator_of jr = both)
                             (join_groups lkeys rkeys))
  = length (positions k rkeys).
Proof.
  intros Hi. unfold left_occurrences.
  by rewrite filter_comm, (join_groups_by_left _ _ _ _ Hi), left_group_both.
Qed.

Lemma unmatched_left_count lkeys rkeys (i : nat) (k : option V) :
  lkeys !! i = Some k ->
  left_occurrences i (filter (fun jr => indicator_of jr <> both)
                             (join_groups lkeys rkeys))
  = if decide (positions k rkeys = []) then 1 else 0.
Proof.
  intros Hi. unfold left_occurrences.
  by rewrite filter_comm, (join_groups_by_left _ _ _ _ Hi), left_group_not_both.
Qed.

Lemma matched_right_count lkeys rkeys (j : nat) (k : option V) :
  rkeys !! j = Some k ->
  right_occurrences j (filter (fun jr => indicator_of jr = both)
                              (join_groups lkeys rkeys))
  = length (positions k lkeys).
Proof.
  intros Hj. unfold right_occurrences, join_groups.
  rewrite filter_comm, !filter_app, length_app.
  rewrite (join_groups_right_part _ _ _ _ Hj), right_group_both.
  rewrite filter_all by apply left_part_all_both_by_right.
  simpl. rewrite Nat.add_0_r.
  apply (left_groups_by_right rkeys j k lkeys 0 0 Hj).
Qed.

Lemma unmatched_right_count lkeys rkeys (j : nat) (k : option V) :
  rkeys !! j = Some k ->
  right_occurrences j (filter (fun jr => indicator_of jr <> both)
                              (join_groups lkeys rkeys))
  = if decide (positions k lkeys = []) then 1 else 0.
Proof.
  intros Hj. unfold right_occurrences, join_groups.
  rewrite filter_comm, !filter_app, length_app.
  rewrite (join_groups_right_part _ _ _ _ Hj), right_group_not_both.
  rewrite filter_none; [done|].
  eapply Forall_impl; [apply left_part_all_both_by_right|].
  intros jr Hjr Hne. by apply Hne.
Qed.

Lemma matched_pair_count lkeys rkeys (i j : nat) (ki kj : option V) :
  lkeys !! i = Some ki -> rkeys !! j = Some kj ->
  pair_occurrences i j (filter (fun jr => indicator_of jr = both)
                               (join_groups lkeys rkeys))
  = if decide (ki = kj) then 1 else 0.
Proof.
  intros Hi Hj. unfold pair_occurrences.
  rewrite list_filter_filter.
  rewrite (list_filter_iff _
             (fun jr : join_row => jr.2 = Some j /\ jr.1 = Some i)); last first.
  { intros [a b]. simpl. split.
    - by intros [[= -> ->] _].
    - by intros [-> ->]. }
  rewrite <- list_filter_filter, (join_groups_by_left _ _ _ _ Hi).
  apply (left_group_by_right _ _ _ _ _ Hj).
Qed.

Lemma matched_total lkeys rkeys :
  length (filter (fun jr => indicator_of jr = both) (join_groups lkeys rkeys))
  = sum_list (map (fun k => length (positions k rkeys)) lkeys).
Proof.
  unfold join_groups. rewrite filter_app, length_app.
  rewrite (filter_none _ (concat (imap (right_group lkeys) rkeys))).
  - simpl. rewrite Nat.add_0_r. apply (left_groups_both rkeys lkeys 0).
  - apply Forall_concat_imap. intros m x.
    eapply Forall_impl; [apply right_group_not_left|].
    intros [[?|] ?] Hjr; simpl in *; done.
Qed.

Lemma join_groups_in_range (lkeys rkeys : list (option V)) :
  Forall (in_range (length lkeys) (length rkeys)) (join_groups lkeys rkeys).
Proof.
  unfold join_groups. apply Forall_app. split.
  - apply Forall_concat_imap_lookup. intros i k Hi.
    apply lookup_lt_Some in Hi. unfold left_group.
    destruct (positions k rkeys) as [|j0 js] eqn:Hpos; [by repeat constructor|].
    rewrite map_fmap. apply Forall_fmap, Forall_forall. intros j Hj. simpl.
    rewrite <- Hpos in Hj. apply positions_elem_of, lookup_lt_Some in Hj. done.
  - apply Forall_concat_imap_lookup. intros j k Hj.
    apply lookup_lt_Some in Hj. unfold right_group.
    destruct (positions k lkeys); by repeat constructor.
Qed.

Lemma positions_nil_not_elem (k : option V) (keys : list (option V)) :
  positions k keys = [] <-> k ∉ keys.
Proof.
  split.
  - intros Hnil Hin. apply list_elem_of_lookup_1 in Hin as [m Hm].
    apply positions_elem_of in Hm. rewrite Hnil in Hm. by apply elem_of_nil in Hm.
  - intros Hnot. destruct (positions k keys) as [|m ms] eqn:Hpos; [done|].
    destruct Hnot. assert (Hm : m ∈ positions k keys) by (rewrite Hpos; by left).
    apply positions_elem_of in Hm. by eapply list_elem_of_lookup_2.
Qed.

(** The join has a row without left row exactly when some right key is
    no left key, and a row without right row exactly when some left key
    is no right key. *)
Lemma lacks_left_join_groups lkeys rkeys :
  lacks_left (join_groups lkeys rkeys) = left_gets_null lkeys rkeys.
Proof.
  apply eq_true_iff_eq. unfold lacks_left, left_gets_null.
  rewrite !existsb_elem_of. split.
  - intros (jr & Hin & Hnone). apply bool_decide_eq_true in Hnone.
    unfold join_groups in Hin. apply elem_of_app in Hin as [Hin|Hin].
    + apply elem_of_concat_imap in Hin as (m & k & _ & Hin).
      pose proof (left_group_own rkeys m k) as Hown.
      rewrite Forall_forall in Hown. rewrite (Hown _ Hin) in Hnone. done.
    + apply elem_of_concat_imap in Hin as (m & k & Hm & Hin).
      exists k. split; [by eapply list_elem_of_lookup_2|].
      apply bool_decide_eq_true. apply positions_nil_not_elem.
      unfold right_group in Hin.
      destruct (positions k lkeys); [done|]. by apply elem_of_nil in Hin.
  - intros (k & Hin & Hnot). apply bool_decide_eq_true in Hnot.
    apply list_elem_of_lookup_1 in Hin as [m Hm].
    exists (None, Some m). split; [|done].
    unfold join_groups. apply elem_of_app. right.
    apply elem_of_concat_imap. exists m, k. split; [done|].
    unfold right_group. apply positions_nil_not_elem in Hnot. rewrite Hnot.
    by left.
Qed.

Lemma lacks_right_join_groups lkeys rkeys :
  lacks_right (join_groups lkeys rkeys) = right_gets_null lkeys rkeys.
Proof.
  apply eq_true_iff_eq. unfold lacks_right, right_gets_null.
  rewrite !existsb_elem_of. split.
  - intros (jr & Hin & Hnone). apply bool_decide_eq_true in Hnone.
    unfold join_groups in Hin. apply elem_of_app in Hin as [Hin|Hin].
    + apply elem_of_concat_imap in Hin as (m & k & Hm & Hin).
      exists k. split; [by eapply list_elem_of_lookup_2|].
      apply bool_decide_eq_true. apply positions_nil_not_elem.
      unfold left_group in Hin.
      destruct (positions k rkeys) as [|j js]; [done|].
      apply list_elem_of_fmap in Hin as (j' & -> & _). done.
    + apply elem_of_concat_imap in Hin as (m & k & _ & Hin).
      pose proof (right_group_own lkeys m k) as Hown.
      rewrite Forall_forall in Hown. rewrite (Hown _ Hin) in Hnone. done.
  - intros (k & Hin & Hnot). apply bool_decide_eq_true in Hnot.
    apply list_elem_of_lookup_1 in Hin as [m Hm].
    exists (Some m, None). split; [|done].
    unfold join_groups. apply elem_of_app. left.
    apply elem_of_concat_imap. exists m, k. split; [done|].
    unfold left_group. apply positions_nil_not_elem in Hnot. rewrite Hnot.
    by left.
Qed.

End JoinGroups.

(** ** The matcher *)

Section MatcherProperties.
Context {V : Type} `{EqDecision V}.
Variable arrange : list join_row -> list join_row.
Variable keys_comparable : list (option V) -> list (option V) -> bool.
Variable promote : list (option V) -> V -> V.
Variable empty_left_drops_left_key : bool.
Hypothesis arrange_perm : forall l, arrange l ≡ₚ l.

Lemma arranged_count (P Q : join_row -> Prop) `{forall x, Decision (P x)}
    `{forall x, Decision (Q x)} (l : list join_row) :
  length (filter P (filter Q (arrange l))) = length (filter P (filter Q l)).
Proof. by rewrite (arrange_perm l). Qed.

Lemma lookup_unique_position (cols : list label) (name : label) (p p' : nat) :
  NoDup cols -> cols !! p = Some name -> cols !! p' = Some name -> p = p'.
Proof. intros Hnd Hp Hp'. by eapply NoDup_lookup. Qed.

Section Arranged.
Variables lkeys rkeys : list (option V).

Lemma arranged_left (i : nat) (k : option V) :
  lkeys !! i = Some k ->
  left_occurrences i (filter (fun jr => indicator_of jr = both)
                             (full_outer_join arrange lkeys rkeys))
  = length (positions k rkeys)
  /\ left_occurrences i (filter (fun jr => indicator_of jr <> both)
                                (full_outer_join arrange lkeys rkeys))
     = if decide (positions k rkeys = []) then 1 else 0.
Proof.
  intros Hi. unfold full_outer_join, left_occurrences.
  rewrite !arranged_count. split.
  - by apply matched_left_count.
  - by apply unmatched_left_count.
Qed.

Lemma arranged_right (j : nat) (k : option V) :
  rkeys !! j = Some k ->
  right_occurrences j (filter (fun jr => indicator_of jr = both)
                              (full_outer_join arrange lkeys rkeys))
  = length (positions k lkeys)
  /\ right_occurrences j (filter (fun jr => indicator_of jr <> both)
                                 (full_outer_join arrange lkeys rkeys))
     = if decide (positions k lkeys = []) then 1 else 0.
Proof.
  intros Hj. unfold full_outer_join, right_occurrences.
  rewrite !arranged_count. split.
  - by apply matched_right_count.
  - by apply unmatched_right_count.
Qed.

Lemma arranged_pair (i j : nat) (ki kj : option V) :
  lkeys !! i = Some ki -> rkeys !! j = Some kj ->
  pair_occurrences i j (filter (fun jr => indicator_of jr = both)
                               (full_outer_join arrange lkeys rkeys))
  = if decide (ki = kj) then 1 else 0.
Proof.
  intros Hi Hj. unfold pair_occurrences, full_outer_join.
  rewrite arranged_count. by apply matched_pair_count.
Qed.


End Arranged.

Lemma lacks_left_arranged (lkeys rkeys : list (option V)) :
  lacks_left (full_outer_join arrange lkeys rkeys) = left_gets_null lkeys rkeys.
Proof.
  rewrite <- lacks_left_join_groups. unfold full_outer_join, lacks_left.
  apply eq_true_iff_eq. rewrite !existsb_elem_of.
  split; intros (jr & Hin & Hjr); exists jr; (split; [|done]).
  - by rewrite <- (arrange_perm _).
  - by rewrite (arrange_perm _).
Qed.

Lemma lacks_right_arranged (lkeys rkeys : list (option V)) :
  lacks_right (full_outer_join arrange lkeys rkeys) = right_gets_null lkeys rkeys.
Proof.
  rewrite <- lacks_right_join_groups. unfold full_outer_join, lacks_right.
  apply eq_true_iff_eq. rewrite !existsb_elem_of.
  split; intros (jr & Hin & Hjr); exists jr; (split; [|done]).
  - by rewrite <- (arrange_perm _).
  - by rewrite (arrange_perm _).
Qed.

Lemma full_outer_join_in_range (lkeys rkeys : list (option V)) :
  Forall (in_range (length lkeys) (length rkeys))
         (full_outer_join arrange lkeys rkeys).
Proof.
  unfold full_outer_join. rewrite (arrange_perm _). apply join_groups_in_range.
Qed.

Lemma stored_cells_nulls (gets_null : bool) (df : DataFrame (option V))
    (keep : option nat) (n : nat) :
  stored_cells promote gets_null df keep (replicate n None) = replicate n None.
Proof.
  unfold stored_cells, promote_cells. destruct gets_null; [|done].
  apply imap_replicate_fixed. intros m. by destruct (decide (keep = Some m)).
Qed.

Lemma keys_of_position (df : DataFrame (option V)) (key : label) (p : nat) :
  NoDup (columns df) -> columns df !! p = Some key ->
  positions key (columns df) = [p] /\ keys_of df key = column_values None df p.
Proof.
  intros Hnd Hp. pose proof (positions_NoDup _ _ _ Hnd Hp) as Hpos.
  split; [done|]. unfold keys_of, key_values. by rewrite Hpos.
Qed.

Lemma fill_key_left (fill : bool) (left_on : label) (lcols : list label)
    (rkeys : list (option V)) (i : nat) (oj : option nat)
    (cells : list (option V)) :
  fill_key fill left_on lcols rkeys (Some i, oj) cells = cells.
Proof. by destruct fill, oj. Qed.

(** The row that the merge builds for a row of the join is the row that
    [row_for] describes by the rows of the two arguments. *)
Lemma joined_row_described (left right : DataFrame (option V))
    (left_on right_on : label) (p q : nat) (jr : join_row) :
  mergeable keys_comparable left right left_on right_on ->
  columns left !! p = Some left_on ->
  columns right !! q = Some right_on ->
  in_range (length (rows left)) (length (rows right)) jr ->
  row_for promote empty_left_drops_left_key left right left_on right_on p q jr
    (joined_row arrange promote empty_left_drops_left_key
                left right left_on right_on jr).
Proof.
  intros [Hlwf Hrwf Hlnd Hrnd _ _ _ _ _] Hp Hq Hrange.
  destruct (keys_of_position left left_on p Hlnd Hp) as [Hlpos Hlkeys].
  destruct (keys_of_position right right_on q Hrnd Hq) as [Hrpos Hrkeys].
  unfold joined_row, merged_row. rewrite Hlkeys, Hrkeys.
  rewrite lacks_left_arranged, lacks_right_arranged.
  assert (Hright : forall j r',
             rows right !! j = Some r' ->
             take_row (kept_right empty_left_drops_left_key left right
                                  left_on right_on) (Some j)
             = if drops_right empty_left_drops_left_key left left_on right_on
               then drop_positions [q] r' else r').
  { intros j r' Hj. unfold take_row, kept_right.
    destruct (drops_right _ _ _ _); simpl; [|by rewrite Hj].
    rewrite Hrpos, map_fmap, list_lookup_fmap, Hj. done. }
  assert (Hnonempty : forall i, i < length (rows left) ->
             drops_left empty_left_drops_left_key left left_on right_on = false).
  { intros i Hi. unfold drops_left.
    rewrite (bool_decide_eq_false_2 (rows left = [])); [apply andb_false_r|].
    intros Hnil. rewrite Hnil in Hi. simpl in Hi. lia. }
  assert (Hkeep : forall i, i < length (rows left) ->
             kept_left empty_left_drops_left_key left left_on right_on = left
             /\ filled_key (drops_right empty_left_drops_left_key left left_on right_on)
                           left_on (columns left)
                = if decide (left_on = right_on) then Some p else None).
  { intros i Hi. unfold kept_left, filled_key, drops_right.
    rewrite (Hnonempty i Hi), Hlpos. split; [done|].
    destruct (decide (left_on = right_on)).
    - by rewrite bool_decide_eq_true_2.
    - by rewrite bool_decide_eq_false_2. }
  destruct jr as [[i|] [j|]]; simpl in Hrange; [| | |done]; cbn [fst snd].
  - destruct Hrange as [Hi Hj].
    destruct (lookup_lt_is_Some_2 _ _ Hi) as [r Hr].
    destruct (lookup_lt_is_Some_2 _ _ Hj) as [r' Hr'].
    destruct (Hkeep i Hi) as [-> ->].
    exists r, r'. split; [done|]. split; [done|].
    rewrite (Hright j r' Hr'), fill_key_left. simpl.
    unfold shown_left, shown_right, take_row. simpl. by rewrite Hr.
  - destruct (lookup_lt_is_Some_2 _ _ Hrange) as [r Hr].
    destruct (Hkeep i Hrange) as [-> ->].
    exists r. split; [done|]. rewrite fill_key_left. simpl.
    unfold shown_left, take_row at 1. simpl. rewrite Hr. simpl.
    f_equal. f_equal. unfold take_row. simpl.
    rewrite stored_cells_nulls. rewrite map_fmap. by rewrite fmap_replicate.
  - destruct (lookup_lt_is_Some_2 _ _ Hrange) as [r' Hr'].
    exists r'. split; [done|].
    rewrite (Hright j r' Hr'). simpl. f_equal.
    unfold filled_left, take_row at 1. simpl. rewrite stored_cells_nulls.
    unfold fill_key.
    destruct (drops_right empty_left_drops_left_key left left_on right_on)
      eqn:Hdr; [|done].
    assert (Hleft : kept_left empty_left_drops_left_key left left_on right_on
                    = left).
    { unfold kept_left. unfold drops_right in Hdr.
      apply andb_true_iff in Hdr as [_ Hdl]. apply negb_true_iff in Hdl.
      by rewrite Hdl. }
    rewrite Hleft, Hlpos. done.
Qed.

(** Under its preconditions the matcher returns, and the rows of its
    two tables are, one for one, the rows described for the rows of the
    join with the category [both] and for the other rows of the join. *)
Lemma match_data_described (left right : DataFrame (option V))
    (left_on right_on : label) (p q : nat) :
  mergeable keys_comparable left right left_on right_on ->
  columns left !! p = Some left_on ->
  columns right !! q = Some right_on ->
  let joined := full_outer_join arrange (column_values None left p)
                                (column_values None right q) in
  exists matched unmatched,
    match_data arrange keys_comparable promote empty_left_drops_left_key
               left right left_on right_on = Ok (matched, unmatched)
    /\ Forall2 (row_for promote empty_left_drops_left_key
                        left right left_on right_on p q)
               (filter (fun jr => indicator_of jr = both) joined)
               (rows matched)
    /\ Forall2 (row_for promote empty_left_drops_left_key
                        left right left_on right_on p q)
               (filter (fun jr => indicator_of jr <> both) joined)
               (rows unmatched).
Proof.
  intros Hm Hp Hq joined.
  destruct (match_data_rows arrange keys_comparable promote
              empty_left_drops_left_key left right left_on right_on Hm)
    as (cols & p' & q' & Hp' & Hq' & _ & Hres).
  assert (p' = p) as ->
    by (eapply lookup_unique_position; eauto using left_distinct).
  assert (q' = q) as ->
    by (eapply lookup_unique_position; eauto using right_distinct).
  simpl in Hres. fold joined in Hres.
  pose proof (full_outer_join_in_range (column_values None left p)
                (column_values None right q)) as Hrange.
  fold joined in Hrange. unfold column_values in Hrange at 1 2.
  rewrite !length_map in Hrange.
  assert (Hall : forall P `{forall x, Decision (P x)},
             Forall2 (row_for promote empty_left_drops_left_key
                              left right left_on right_on p q)
                     (filter P joined)
                     (map (joined_row arrange promote empty_left_drops_left_key
                                      left right left_on right_on)
                          (filter P joined))).
  { intros P HP. rewrite map_fmap. apply Forall2_fmap_r.
    apply Forall_Forall2_diag. apply Forall_forall. intros jr Hjr.
    apply list_elem_of_filter in Hjr as [_ Hjr].
    rewrite Forall_forall in Hrange. apply joined_row_described; auto. }
  eexists _, _. split; [exact Hres|]. simpl. split; apply Hall.
Qed.



End MatcherProperties.

(** ** The indicator column *)

Lemma drop_positions_from_keep {A} (js : list nat) (l : list A) (s : nat) (x y : A) :
  (forall a, s + a ∈ js -> l !! a = Some y) ->
  x ∈ l -> x <> y ->
  x ∈ omap (fun '(i, z) => if decide (i ∈ js) then None else Some z)
           (zip (seq s (length l)) l).
Proof.
  revert s. induction l as [|a l IH]; intros s Hjs Hx Hne; [done|]. simpl.
  assert (Htail : forall b, S s + b ∈ js -> l !! b = Some y).
  { intros b Hb. apply (Hjs (S b)). by replace (s + S b) with (S s + b) by lia. }
  apply elem_of_cons in Hx as [->|Hx].
  - destruct (decide (s ∈ js)) as [Hs|Hs]; simpl; [|by left].
    specialize (Hjs 0). rewrite Nat.add_0_r in Hjs. specialize (Hjs Hs).
    simpl in Hjs. congruence.
  - destruct (decide (s ∈ js)); simpl; [|right]; by apply IH.
Qed.

Lemma drop_positions_keep {A} `{EqDecision A} (l : list A) (x y : A) :
  x ∈ l -> x <> y -> x ∈ drop_positions (positions y l) l.
Proof.
  intros Hx Hne. apply (drop_positions_from_keep _ _ 0 x y); try done.
  intros a Ha. by apply positions_elem_of.
Qed.



Lemma items_overlap_with_suffix_fresh (lcols rcols ll rl : list label) :
  items_overlap_with_suffix lcols rcols = Ok (ll, rl) ->
  merge_label ∉ lcols -> merge_label ∉ rcols ->
  merge_label ∉ ll ++ rl.
Proof.
  unfold items_overlap_with_suffix. intros Hres Hl Hr.
  destruct (filter (fun x => x ∈ rcols) lcols) as [|a to_rename].
  - simplify_eq. rewrite elem_of_app. tauto.
  - destruct (_ ++ _) in Hres; [|done]. simplify_eq.
    rewrite elem_of_app. intros [H|H]; revert H.
    + apply renamer_not_merge_label; auto.
    + apply renamer_not_merge_label; auto.
Qed.

Section IndicatorColumn.
Context {V : Type} `{EqDecision V}.
Variable arrange : list join_row -> list join_row.
Variable keys_comparable : list (option V) -> list (option V) -> bool.
Variable promote : list (option V) -> V -> V.
Variable empty_left_drops_left_key : bool.

Lemma key_values_elem (df : DataFrame (option V)) (key : label)
    (keys : list (option V)) :
  key_values df key = Ok keys -> key ∈ columns df.
Proof.
  unfold key_values. intros Hres.
  destruct (positions key (columns df)) as [|j js] eqn:Hpos; [done|].
  assert (Hj : j ∈ positions key (columns df)) by (rewrite Hpos; by left).
  apply positions_elem_of in Hj. by eapply list_elem_of_lookup_2.
Qed.

Lemma match_data_columns (left right : DataFrame (option V))
    (left_on right_on : label) (matched unmatched : DataFrame (mcell V)) :
  match_data arrange keys_comparable promote empty_left_drops_left_key left right left_on right_on = Ok (matched, unmatched) ->
  exists others,
    columns matched = others ++ [merge_label]
    /\ columns unmatched = others ++ [merge_label]
    /\ (merge_label ∉ others)
    /\ (merge_label ∉ columns left)
    /\ (merge_label ∉ columns right).
Proof.
  unfold match_data, merge. intros Hres.
  destruct (key_values right right_on) as [rkeys|] eqn:Hrk; [|done].
  destruct (key_values left left_on) as [lkeys|] eqn:Hlk; [|done].
  simpl in Hres.
  destruct (keys_comparable lkeys rkeys); [|done]. simpl in Hres.
  set (left' := kept_left empty_left_drops_left_key left left_on right_on) in *.
  set (right' := kept_right empty_left_drops_left_key left right left_on right_on) in *.
  destruct (indicator_pre_merge (columns left') (columns right')) as [[]|] eqn:Hpre;
    [|done].
  simpl in Hres.
  destruct (items_overlap_with_suffix (columns left') (columns right'))
    as [[ll rl]|] eqn:Hlabels; [|done].
  simpl in Hres.
  assert (Hfree : merge_label ∉ columns left' ++ columns right').
  { unfold indicator_pre_merge in Hpre.
    destruct (decide (left_indicator_label ∈ _)); [done|].
    destruct (decide (right_indicator_label ∈ _)); [done|].
    by destruct (decide (merge_label ∈ columns left' ++ columns right')). }
  rewrite elem_of_app in Hfree.
  assert (Hfresh : merge_label ∉ ll ++ rl).
  { eapply items_overlap_with_suffix_fresh; eauto. }
  destruct (getitem _ _ _) as [sel|] in Hres; [|done]. simpl in Hres.
  destruct (series_of sel) as [ind|] in Hres; [|done]. simpl in Hres.
  simplify_eq. exists (ll ++ rl). simpl. rewrite <- !app_assoc.
  apply key_values_elem in Hlk. apply key_values_elem in Hrk.
  unfold left', right', kept_left, kept_right, drops_right, drops_left in Hfree.
  repeat split; try done.
  - intros Hin.
    destruct empty_left_drops_left_key;
      destruct (bool_decide (left_on = right_on)) eqn:Hsame;
      destruct (bool_decide (rows left = [])); simpl in Hfree; try tauto.
    apply bool_decide_eq_true in Hsame. subst right_on.
    destruct (decide (merge_label = left_on)) as [<-|Hne]; [tauto|].
    apply Hfree. left. by apply drop_positions_keep.
  - intros Hin.
    destruct empty_left_drops_left_key;
      destruct (bool_decide (left_on = right_on)) eqn:Hsame;
      destruct (bool_decide (rows left = [])); simpl in Hfree; try tauto;
      apply bool_decide_eq_true in Hsame; subst right_on;
      (destruct (decide (merge_label = left_on)) as [<-|Hne]; [tauto|]);
      apply Hfree; right; by apply drop_positions_keep.
Qed.



End IndicatorColumn.

(** ** Parsing *)

(** C5, as worded, fails: the JSON text [{"id":[1,2]}], whose top-level
    value is an object, is parsed into a table of one column and two
    rows, and nothing is reported. *)
Lemma parse_metadata_accepts_object :
  sample_loads object_of_arrays
  = Ok (JObj [(PyStr.lit "id", JArr [JInt 1; JInt 2])])
  /\ parse_metadata no_element_tree sample_loads object_of_arrays (PyStr.lit "JSON")
                    (PyStr.lit "meta.json")
     = Covered (mkFrame [PyStr.lit "id"] [[Some (SInt 1)]; [Some (SInt 2)]], []).
Proof. split; vm_compute; reflexivity. Qed.

Lemma filetype_JSON_not_CSV : PyStr.lit "JSON" <> PyStr.lit "CSV".
Proof. discriminate. Qed.

Lemma forallb_members_scalar (members : list (list N * json)) :
  Forall (fun m : list N * json => is_json_scalar m.2 = true) members ->
  forallb (fun '(_, v) => is_json_scalar v) members = true.
Proof.
  induction 1 as [|[k v] members Hv _ IH]; simpl; [done|].
  simpl in Hv. by rewrite Hv, IH.
Qed.

(** C5, amended: for every JSON input, whatever the decoder, whose
    top-level value is a number, a string or a boolean, or an object
    with at least one member all of whose values are numbers, strings,
    booleans or null, parsing with format JSON yields an empty table
    together with a reported diagnostic; for a top-level null or an
    object without members it yields the empty table and reports
    nothing. *)
Theorem parse_metadata_json_scalar (et_parse : list N -> covered (result element))
    (ujson_loads : list N -> result json)
    (file_content : list N) (filename decoded : list N) (v : json) :
  decode_utf8 file_content = Ok decoded ->
  ujson_loads decoded = Ok v ->
  (top_level_scalar v ->
   parse_metadata et_parse ujson_loads file_content (PyStr.lit "JSON") filename
   = Covered (empty_frame,
              [st_error_failed_to_parse filename
                 (ValueError (PyStr.lit "DataFrame constructor not properly called!"))]))
  /\ (object_of_scalars v ->
      parse_metadata et_parse ujson_loads file_content (PyStr.lit "JSON") filename
      = Covered (empty_frame,
                 [st_error_failed_to_parse filename
                    (ValueError (PyStr.lit "If using all scalar values, you must pass an index"))]))
  /\ (v = JNull \/ v = JObj [] ->
      parse_metadata et_parse ujson_loads file_content (PyStr.lit "JSON") filename
      = Covered (empty_frame, [])).
Proof.
  intros Hdec Hloads. unfold parse_metadata, parse_body.
  rewrite decide_False by apply filetype_JSON_not_CSV.
  rewrite decide_True by done.
  rewrite Hdec. simpl. unfold read_json. rewrite Hloads.
  split; [|split].
  - intros Hv. by destruct v.
  - intros Hv. destruct v as [| | | | | |[|[k x] members]]; try done.
    unfold object_of_scalars in Hv. unfold DataFrame_of_json.
    by rewrite (forallb_members_scalar _ Hv).
  - by intros [->| ->].
Qed.

Lemma parse_metadata_json_scalar_witness :
  decode_utf8 (PyStr.lit "5") = Ok (PyStr.lit "5")
  /\ sample_loads (PyStr.lit "5") = Ok (JInt 5)
  /\ top_level_scalar (JInt 5)
  /\ parse_metadata no_element_tree sample_loads (PyStr.lit "5") (PyStr.lit "JSON")
                    (PyStr.lit "meta.json")
     = Covered (empty_frame,
                [st_error_failed_to_parse (PyStr.lit "meta.json")
                   (ValueError (PyStr.lit "DataFrame constructor not properly called!"))]).
Proof.
  split; [reflexivity|]. split; [reflexivity|]. split; [exact I|].
  exact (proj1 (parse_metadata_json_scalar no_element_tree sample_loads
                  (PyStr.lit "5") (PyStr.lit "meta.json") (PyStr.lit "5") (JInt 5)
                  eq_refl eq_refl) I).
Defined.

(** A flat object and a top-level null, at sample texts: [{"a":1}] ends
    in the diagnostic, [null] in the empty table without one. *)
Example parse_metadata_flat_object :
  parse_metadata no_element_tree sample_loads
    (PyStr.lit "{" ++ [double_quote] ++ PyStr.lit "a" ++ [double_quote]
     ++ PyStr.lit ":1}")
    (PyStr.lit "JSON") (PyStr.lit "meta.json")
  = Covered (empty_frame,
             [st_error_failed_to_parse (PyStr.lit "meta.json")
                (ValueError (PyStr.lit "If using all scalar values, you must pass an index"))]).
Proof. vm_compute. reflexivity. Qed.

Example parse_metadata_json_null :
  parse_metadata no_element_tree sample_loads (PyStr.lit "null") (PyStr.lit "JSON")
                 (PyStr.lit "meta.json")
  = Covered (empty_frame, []).
Proof. vm_compute. reflexivity. Qed.

(** C6, as worded, fails: the cell [1] of a CSV file is parsed into the
    integer 1, not into the string "1". *)
Lemma parse_metadata_csv_integer_cell :
  parse_metadata no_element_tree sample_loads one_integer_csv (PyStr.lit "CSV")
                 (PyStr.lit "meta.csv")
  = Covered (mkFrame [PyStr.lit "id"] [[Some (SInt 1)]], []).
Proof. vm_compute. reflexivity. Qed.

(** *** Type inference of [read_csv] *)

Lemma null_marker_not_int (t : list N) :
  t ∈ null_markers -> int_literal t = None.
Proof.
  assert (Hall : Forall (fun m => int_literal m = None) null_markers)
    by by_computation.
  rewrite Forall_forall in Hall. apply Hall.
Qed.

Lemma classify_int (t : list N) :
  is_Some (int_literal t) -> exists z, classify t = TInt z /\ int_literal t = Some z.
Proof.
  intros [z Hz]. exists z. split; [|done]. unfold classify.
  destruct t as [|c t]; [done|].
  rewrite bool_decide_eq_false_2; [by rewrite Hz|].
  intros Hin. apply null_marker_not_int in Hin. congruence.
Qed.

Lemma classify_missing (t : list N) :
  is_missing (classify t) = true <-> t = [] \/ t ∈ null_markers.
Proof.
  unfold classify. destruct t as [|c t]; [simpl; by split; auto|].
  destruct (bool_decide (c :: t ∈ null_markers)) eqn:Hb.
  - simpl. split; [|done]. intros _. right. by apply bool_decide_eq_true in Hb.
  - apply bool_decide_eq_false in Hb.
    destruct (int_literal (c :: t)); [|destruct (is_word (c :: t))]; simpl;
      (split; [done|]); by intros [?|?].
Qed.

Lemma existsb_false_Forall {A} (f : A -> bool) (l : list A) :
  Forall (fun x => f x = false) l -> existsb f l = false.
Proof. induction 1 as [|x l Hx _ IH]; simpl; [done|]. by rewrite Hx, IH. Qed.

Lemma existsb_true_Exists {A} (f : A -> bool) (l : list A) :
  Exists (fun x => f x = true) l -> existsb f l = true.
Proof.
  induction 1 as [x l Hx|x l _ IH]; simpl.
  - by rewrite Hx.
  - rewrite IH. apply orb_true_r.
Qed.

Lemma forallb_true_Forall {A} (f : A -> bool) (l : list A) :
  Forall (fun x => f x = true) l -> forallb f l = true.
Proof. induction 1 as [|x l Hx _ IH]; simpl; [done|]. by rewrite Hx, IH. Qed.

Lemma infer_dtype_integer (tokens : list (list N)) :
  integer_column tokens -> infer_dtype tokens = Covered int64.
Proof.
  intros Hint. unfold infer_dtype.
  assert (Hks : Forall (fun k => is_TInt k = true) (map classify tokens)).
  { rewrite map_fmap. apply Forall_fmap. eapply Forall_impl; [exact Hint|].
    intros t Ht. simpl. by destruct (classify_int t Ht) as (z & -> & _). }
  rewrite existsb_false_Forall, existsb_false_Forall, forallb_true_Forall; try done.
  - eapply Forall_impl; [exact Hks|]. by intros [].
  - eapply Forall_impl; [exact Hks|]. by intros [].
Qed.

Lemma infer_dtype_text (tokens : list (list N)) :
  text_column tokens -> infer_dtype tokens = Covered object.
Proof.
  intros [Hword Hcov]. unfold infer_dtype.
  rewrite existsb_false_Forall, existsb_true_Exists; try done.
  - rewrite map_fmap. apply Exists_fmap. eapply Exists_impl; [exact Hword|].
    intros t Ht. simpl. by rewrite Ht.
  - rewrite map_fmap. apply Forall_fmap. eapply Forall_impl; [exact Hcov|].
    intros t Ht. simpl. destruct (classify t) eqn:Hk; done.
Qed.

Lemma infer_dtype_null (tokens : list (list N)) :
  null_column tokens -> exists d, infer_dtype tokens = Covered d.
Proof.
  intros Hnull. unfold infer_dtype.
  assert (Hks : Forall (fun k => is_missing k = true) (map classify tokens)).
  { rewrite map_fmap. apply Forall_fmap. eapply Forall_impl; [exact Hnull|].
    intros t Ht. simpl. by apply classify_missing. }
  rewrite existsb_false_Forall, existsb_false_Forall; first last.
  - eapply Forall_impl; [exact Hks|]. by intros [].
  - eapply Forall_impl; [exact Hks|]. by intros [].
  - destruct (forallb is_TInt _); [by eexists|].
    rewrite forallb_true_Forall by done. by eexists.
Qed.

Lemma convert_missing (d : dtype) (t : list N) :
  t = [] \/ t ∈ null_markers -> convert d t = None.
Proof.
  intros Ht. destruct d; simpl; [|done|].
  - destruct Ht as [->|Ht]; [done|]. by rewrite (null_marker_not_int t Ht).
  - apply classify_missing in Ht. by rewrite Ht.
Qed.

Lemma convert_object (t : list N) :
  convert object t
  = if decide (t = [] \/ t ∈ null_markers) then None else Some (SStr t).
Proof.
  simpl. destruct (decide (t = [] \/ t ∈ null_markers)) as [Ht|Ht].
  - apply classify_missing in Ht. by rewrite Ht.
  - destruct (is_missing (classify t)) eqn:Hm; [|done].
    apply classify_missing in Hm. done.
Qed.

Lemma sequence_covered_map {A B} (f : A -> covered B) (l : list A) :
  (forall x, x ∈ l -> exists d, f x = Covered d) ->
  exists ds,
    sequence_covered (map f l) = Covered ds
    /\ length ds = length l
    /\ (forall i x, l !! i = Some x -> exists d, ds !! i = Some d /\ f x = Covered d).
Proof.
  induction l as [|a l IH]; intros Hall; simpl.
  - exists []. repeat split; done.
  - destruct (Hall a) as [d Hd]; [by left|].
    destruct IH as (ds & Hseq & Hlen & Hlook).
    { intros x Hx. apply Hall. by right. }
    rewrite Hd, Hseq. exists (d :: ds). split; [done|]. split; [simpl; lia|].
    intros [|i] x Hi; simpl in *.
    + simplify_eq. by exists d.
    + by apply Hlook.
Qed.

Lemma cell_at_zip_with_convert (dtypes : list dtype) (r : list (list N))
    (j : nat) (d : dtype) :
  dtypes !! j = Some d -> j < length r ->
  cell_at None j (zip_with convert dtypes r) = convert d (cell_at [] j r).
Proof.
  intros Hd Hj. unfold cell_at.
  destruct (lookup_lt_is_Some_2 r j Hj) as [t Ht].
  rewrite lookup_zip_with, Hd, Ht. done.
Qed.

(** C6, amended: for a CSV input of comma-separated fields without
    quotes, with a header of distinct non-empty names and as many
    fields in every record, small enough to be read in one piece, in
    which every column holds integer literals only, or holds a word, or
    holds empty fields and null markers only, the parser infers a type
    for each column.  A column whose fields are all integer literals is
    parsed into integers; a column with a word among its fields keeps
    every field that is neither empty nor a null marker as the string
    that was read; the empty fields and the null markers of such a
    column, and the fields of a column of empty fields and null
    markers, are missing. *)
Theorem parse_metadata_csv_types (et_parse : list N -> covered (result element))
    (ujson_loads : list N -> result json)
    (file_content filename decoded : list N)
    (header : list (list N)) (records : list (list (list N))) :
  decode_utf8 file_content = Ok decoded ->
  forallb csv_char decoded = true ->
  csv_records decoded = header :: records ->
  NoDup header ->
  Forall (fun name => name <> []) header ->
  Forall (fun r => length r = length header) records ->
  one_piece header records = true ->
  (forall j, j < length header ->
     integer_column (column_tokens records j)
     \/ text_column (column_tokens records j)
     \/ null_column (column_tokens records j)) ->
  exists df,
    parse_metadata et_parse ujson_loads file_content (PyStr.lit "CSV") filename
    = Covered (df, [])
    /\ columns df = header
    /\ length (rows df) = length records
    /\ (forall j, j < length header ->
          (integer_column (column_tokens records j) ->
           column_values None df j
           = map (fun t => SInt <$> int_literal t) (column_tokens records j)
           /\ Forall (fun c => exists z, c = Some (SInt z)) (column_values None df j))
          /\ (text_column (column_tokens records j) ->
              column_values None df j
              = map (fun t => if decide (t = [] \/ t ∈ null_markers) then None
                              else Some (SStr t))
                    (column_tokens records j))
          /\ (null_column (column_tokens records j) ->
              Forall (fun c => c = None) (column_values None df j))).
Proof.
  intros Hdec Hchars Hrecs Hnd Hnames Hrect Hsmall Hcols.
  unfold parse_metadata, parse_body. rewrite decide_True by done.
  rewrite Hdec. simpl. unfold read_csv. rewrite Hchars, Hrecs. simpl.
  rewrite bool_decide_eq_true_2 by done. simpl.
  rewrite forallb_true_Forall; last first.
  { eapply Forall_impl; [exact Hnames|]. intros n Hn. simpl.
    by rewrite bool_decide_eq_false_2. }
  rewrite forallb_true_Forall; last first.
  { eapply Forall_impl; [exact Hrect|]. intros r Hr. simpl.
    by apply Nat.eqb_eq. }
  rewrite Hsmall. simpl.
  destruct (sequence_covered_map
              (fun j => infer_dtype (map (cell_at [] j) records))
              (seq 0 (length header)))
    as (dtypes & Hseq & Hlen & Hlook).
  { intros j Hj. apply elem_of_seq in Hj.
    destruct (Hcols j) as [Hc|[Hc|Hc]]; [lia| | |].
    - eexists. by apply infer_dtype_integer.
    - eexists. by apply infer_dtype_text.
    - by apply infer_dtype_null. }
  rewrite Hseq. simpl. rewrite length_seq in Hlen.
  eexists. split; [reflexivity|]. simpl. split; [done|].
  split; [by rewrite length_map|].
  intros j Hj.
  destruct (Hlook j j) as (d & Hd & Hinfer).
  { apply lookup_seq. lia. }
  assert (Hcol : column_values None
                   (mkFrame header (map (zip_with convert dtypes) records)) j
                 = map (convert d) (column_tokens records j)).
  { unfold column_values, column_tokens. simpl. rewrite !map_map.
    rewrite !map_fmap. apply Forall_fmap_ext_1.
    eapply Forall_impl; [exact Hrect|]. intros r Hr. simpl in *.
    apply cell_at_zip_with_convert; [done | lia]. }
  rewrite Hcol. fold (column_tokens records j) in Hinfer.
  split; [|split].
  - intros Hint. rewrite (infer_dtype_integer _ Hint) in Hinfer. simplify_eq.
    split; [done|]. rewrite map_fmap. apply Forall_fmap.
    eapply Forall_impl; [exact Hint|]. intros t [z Hz]. simpl.
    exists z. by rewrite Hz.
  - intros Htext. rewrite (infer_dtype_text _ Htext) in Hinfer. simplify_eq.
    apply map_ext, convert_object.
  - intros Hnull. rewrite map_fmap. apply Forall_fmap.
    eapply Forall_impl; [exact Hnull|]. intros t Ht. simpl.
    by apply convert_missing.
Qed.

(** ** The properties at sample inputs *)

Lemma in_group_order_perm : forall l, in_group_order l ≡ₚ l.
Proof. intros l. reflexivity. Qed.

Lemma mergeable_intro {V} `{EqDecision V} (left right : DataFrame (option V))
    (left_on right_on : label) :
  well_formed left -> well_formed right ->
  NoDup (columns left) -> NoDup (columns right) ->
  left_on ∈ columns left -> right_on ∈ columns right ->
  Forall (fun l => (l ∉ columns left) /\ (l ∉ columns right))
         [merge_label; left_indicator_label; right_indicator_label] ->
  Forall (fun a => a ∈ columns right ->
                   (a ++ suffix_x ∉ columns left) /\ (a ++ suffix_y ∉ columns right))
         (columns left) ->
  mergeable one_kind left right left_on right_on.
Proof.
  intros Hlw Hrw Hln Hrn Hlk Hrk Hres Hclash.
  rewrite Forall_forall in Hres. rewrite Forall_forall in Hclash.
  split; done.
Qed.

Lemma scenario_mergeable :
  mergeable one_kind metadata_frame customer_frame (PyStr.lit "id") (PyStr.lit "cust_id").
Proof.
  apply mergeable_intro; try by_computation; repeat constructor.
Qed.


Lemma detect_primary_key_first_match_witness :
  columns metadata_frame = PyStr.lit "id" :: [PyStr.lit "file"]
  /\ NoDup (columns metadata_frame)
  /\ ((exists j name,
          columns metadata_frame !! j = Some name /\ key_like metadata_frame j
          /\ (forall i, i < j -> ~ key_like metadata_frame i)
          /\ detect_primary_key metadata_frame = Ok name)
      \/ ((forall i, i < length (columns metadata_frame) -> ~ key_like metadata_frame i)
          /\ detect_primary_key metadata_frame = Ok (PyStr.lit "id"))).
Proof.
  assert (Hnd : NoDup (columns metadata_frame)) by by_computation.
  split; [reflexivity|]. split; [exact Hnd|].
  exact (detect_primary_key_first_match metadata_frame (PyStr.lit "id")
           [PyStr.lit "file"] eq_refl Hnd).
Defined.

Lemma detect_primary_key_no_columns_witness :
  columns (@empty_frame (option Z)) = []
  /\ detect_primary_key (@empty_frame (option Z)) = Raise IndexError
  /\ (forall key, detect_primary_key (@empty_frame (option Z)) <> Ok key).
Proof.
  split; [reflexivity|].
  exact (detect_primary_key_no_columns (@empty_frame (option Z)) eq_refl).
Defined.




Lemma scenario_header_distinct :
  NoDup [PyStr.lit "id"; PyStr.lit "file"].
Proof. by_computation. Qed.

Lemma scenario_columns_classified (j : nat) :
  j < 2 ->
  integer_column (column_tokens [[PyStr.lit "1"; PyStr.lit "a.jpg"];
                                 [PyStr.lit "2"; PyStr.lit "b.jpg"]] j)
  \/ text_column (column_tokens [[PyStr.lit "1"; PyStr.lit "a.jpg"];
                                 [PyStr.lit "2"; PyStr.lit "b.jpg"]] j)
  \/ null_column (column_tokens [[PyStr.lit "1"; PyStr.lit "a.jpg"];
                                 [PyStr.lit "2"; PyStr.lit "b.jpg"]] j).
Proof.
  intros Hj. destruct j as [|[|j]]; [| |lia].
  - left. repeat constructor; by eexists.
  - right. left. split.
    + left. reflexivity.
    + repeat constructor; discriminate.
Qed.

Lemma parse_metadata_csv_types_witness :
  decode_utf8 metadata_csv = Ok metadata_csv
  /\ forallb csv_char metadata_csv = true
  /\ csv_records metadata_csv
     = [PyStr.lit "id"; PyStr.lit "file"]
       :: [[PyStr.lit "1"; PyStr.lit "a.jpg"]; [PyStr.lit "2"; PyStr.lit "b.jpg"]]
  /\ exists df,
      parse_metadata no_element_tree sample_loads metadata_csv (PyStr.lit "CSV")
                     (PyStr.lit "meta.csv")
      = Covered (df, [])
      /\ columns df = [PyStr.lit "id"; PyStr.lit "file"]
      /\ length (rows df) = 2.
Proof.
  split; [reflexivity|]. split; [reflexivity|]. split; [reflexivity|].
  destruct (parse_metadata_csv_types no_element_tree sample_loads metadata_csv
              (PyStr.lit "meta.csv") metadata_csv
              [PyStr.lit "id"; PyStr.lit "file"]
              [[PyStr.lit "1"; PyStr.lit "a.jpg"]; [PyStr.lit "2"; PyStr.lit "b.jpg"]]
              eq_refl eq_refl eq_refl scenario_header_distinct)
    as (df & Hres & Hcols & Hrows & _).
  - repeat constructor; discriminate.
  - repeat constructor.
  - reflexivity.
  - exact scenario_columns_classified.
  - exists df. split; [exact Hres|]. split; [exact Hcols|exact Hrows].
Defined.

(** ** The testable properties of the specification at their examples *)

(** Key inference determinism: [B] is returned whatever [C] holds. *)
Example detect_primary_key_abc :
  detect_primary_key abc_frame = Ok (PyStr.lit "B").
Proof. reflexivity. Qed.

(** Key inference fallback: no column is unique, the first one is
    returned. *)
Example detect_primary_key_fallback :
  detect_primary_key fallback_frame = Ok (PyStr.lit "id").
Proof. reflexivity. Qed.

(** Matcher multiplicity: two left rows and one right row with key 5. *)
Example match_data_fives :
  exists matched unmatched,
    match_data in_group_order one_kind promote_int false fives_left fives_right (PyStr.lit "k") (PyStr.lit "k")
    = Ok (matched, unmatched)
    /\ rows matched
       = [[Data (Some 5%Z); Data (Some 1%Z); Data (Some 7%Z); Category both];
          [Data (Some 5%Z); Data (Some 2%Z); Data (Some 7%Z); Category both]]
    /\ rows unmatched = [].
Proof. eexists _, _. split; [reflexivity|]. split; reflexivity. Qed.

(** A frame with a column named [_merge] is refused by the merge. *)
Example match_data_refuses_marked :
  match_data in_group_order one_kind promote_int false marked_frame customer_frame
             (PyStr.lit "id") (PyStr.lit "cust_id")
  = Raise (ValueError
             (PyStr.lit "Cannot use name of an existing column for indicator column")).
Proof. reflexivity. Qed.

(** The merge stores a column that gets a null as doubles: an integer
    above 2^53 comes back as the nearest double; the key under the
    name that both tables use stays as it is. *)
Example match_data_rounds_large_integers :
  exists matched unmatched,
    match_data in_group_order one_kind promote_int false large_left large_right
               (PyStr.lit "k") (PyStr.lit "k")
    = Ok (matched, unmatched)
    /\ rows matched = []
    /\ rows unmatched
       = [[Data (Some 1%Z); Data (Some 4611686018427387904%Z); Data None;
           Category left_only];
          [Data (Some 2%Z); Data None; Data (Some 5%Z); Category right_only]].
Proof. eexists _, _. split; [vm_compute; reflexivity|]. split; reflexivity. Qed.

(** A field with a space is a string, a line of spaces is skipped, and
    the null marker [NA] among words is a missing cell. *)
Example parse_metadata_people_csv :
  parse_metadata no_element_tree sample_loads people_csv (PyStr.lit "CSV")
                 (PyStr.lit "people.csv")
  = Covered (mkFrame [PyStr.lit "id"; PyStr.lit "name"]
                     [[Some (SInt 1); Some (SStr (PyStr.lit "John Smith"))];
                      [Some (SInt 2); None]],
             []).
Proof. vm_compute. reflexivity. Qed.

(** An unsupported format gives an empty table and a warning. *)
Lemma parse_metadata_unsupported (et_parse : list N -> covered (result element))
    (ujson_loads : list N -> result json)
    (file_content filetype filename : list N) :
  filetype <> PyStr.lit "CSV" -> filetype <> PyStr.lit "JSON" ->
  filetype <> PyStr.lit "XML" ->
  parse_metadata et_parse ujson_loads file_content filetype filename
  = Covered (empty_frame, [st_warning (PyStr.lit "Unsupported file format.")]).
Proof.
  intros H1 H2 H3. unfold parse_metadata, parse_body.
  by rewrite !decide_False.
Qed.

(** * Further properties *)

(** ** Key inference: the result is a declared column *)

Section KeyInferenceMore.
Context {V : Type} `{EqDecision V}.

Lemma scan_columns_elem (df : DataFrame (option V)) (cols : list label) (c : label) :
  scan_columns df cols = Ok (Some c) -> c ∈ cols.
Proof.
  induction cols as [|column rest IH]; simpl; [done|].
  destruct (getitem None df column) as [sel|]; simpl; [|done].
  destruct (key_candidate sel) as [[|]|]; simpl; try done.
  - intros [= ->]. by left.
  - intros Hrest. right. by apply IH.
Qed.

(** X1: whenever key inference returns, the key is one of the declared
    columns of the table; and on every table with at least one column
    and distinct column names it does return. *)
Theorem detect_primary_key_declared (df : DataFrame (option V)) :
  (forall key, detect_primary_key df = Ok key -> key ∈ columns df)
  /\ (NoDup (columns df) -> columns df <> [] ->
      exists key, detect_primary_key df = Ok key).
Proof.
  split.
  - intros key. unfold detect_primary_key.
    destruct (scan_columns df (columns df)) as [[c|]|] eqn:Hscan; simpl; try done.
    + intros [= ->]. by eapply scan_columns_elem.
    + destruct (columns df) as [|first others]; [done|]. intros [= ->]. by left.
  - intros Hnd Hne. unfold detect_primary_key.
    destruct (scan_columns_from df (columns df) 0 Hnd eq_refl)
      as [(j & name & _ & _ & _ & ->)|[_ ->]]; [lia| |]; simpl.
    + by eexists.
    + destruct (columns df); [done|]. by eexists.
Qed.

Lemma notnull_all_Permutation (s s' : list (option V)) :
  s ≡ₚ s' -> notnull_all s = notnull_all s'.
Proof.
  unfold notnull_all. induction 1 as [|x l l' _ IH|x y l|l1 l2 l3 _ IH1 _ IH2]; simpl.
  - done.
  - by rewrite IH.
  - by rewrite !andb_assoc, (andb_comm (bool_decide (y <> None))).
  - by rewrite IH1.
Qed.

Lemma is_unique_Permutation (s s' : list (option V)) :
  s ≡ₚ s' -> is_unique s = is_unique s'.
Proof.
  intros Hp. unfold is_unique. apply bool_decide_ext. by rewrite Hp.
Qed.

Lemma getitem_rows_Permutation (df df' : DataFrame (option V)) (name : label) :
  columns df' = columns df -> rows df' ≡ₚ rows df ->
  (try! sel := getitem None df' name in key_candidate sel)
  = (try! sel := getitem None df name in key_candidate sel).
Proof.
  intros Hcols Hrows. unfold getitem. rewrite Hcols.
  destruct (positions name (columns df)) as [|j [|j' js]]; simpl; try done.
  assert (Hvals : column_values None df' j ≡ₚ column_values None df j).
  { unfold column_values. rewrite !map_fmap. by rewrite Hrows. }
  by rewrite (is_unique_Permutation _ _ Hvals), (notnull_all_Permutation _ _ Hvals).
Qed.

(** X2: key inference does not depend on the order of the rows: two
    tables with the same columns and the same rows in another order get
    the same key (or fail alike). *)
Theorem detect_primary_key_row_order (df df' : DataFrame (option V)) :
  columns df' = columns df ->
  rows df' ≡ₚ rows df ->
  detect_primary_key df' = detect_primary_key df.
Proof.
  intros Hcols Hrows. unfold detect_primary_key. rewrite Hcols.
  assert (Hscan : forall cols, scan_columns df' cols = scan_columns df cols).
  { induction cols as [|column rest IH]; simpl; [done|].
    pose proof (getitem_rows_Permutation df df' column Hcols Hrows) as Hsel.
    destruct (getitem None df' column) as [sel'|e'];
      destruct (getitem None df column) as [sel|e]; simpl in *.
    - rewrite Hsel. by destruct (key_candidate sel) as [[|]|].
    - by rewrite Hsel.
    - by rewrite <- Hsel.
    - by injection Hsel as ->. }
  by rewrite Hscan.
Qed.

End KeyInferenceMore.

Lemma detect_primary_key_declared_witness :
  NoDup (columns metadata_frame) /\ columns metadata_frame <> []
  /\ exists key, detect_primary_key metadata_frame = Ok key.
Proof.
  assert (Hnd : NoDup (columns metadata_frame)) by by_computation.
  assert (Hne : columns metadata_frame <> []) by discriminate.
  split; [exact Hnd|]. split; [exact Hne|].
  exact (proj2 (detect_primary_key_declared metadata_frame) Hnd Hne).
Defined.

Lemma detect_primary_key_row_order_witness :
  columns metadata_frame_swapped = columns metadata_frame
  /\ rows metadata_frame_swapped ≡ₚ rows metadata_frame
  /\ detect_primary_key metadata_frame_swapped = detect_primary_key metadata_frame.
Proof.
  assert (Hp : rows metadata_frame_swapped ≡ₚ rows metadata_frame)
    by apply Permutation_swap.
  split; [reflexivity|]. split; [exact Hp|].
  exact (detect_primary_key_row_order metadata_frame metadata_frame_swapped
           eq_refl Hp).
Defined.

(** ** The matcher: how many rows *)

Lemma length_filter_concat_imap {A B} (P : B -> Prop) `{forall y, Decision (P y)}
    (F : nat -> A -> list B) (g : A -> nat) (l : list A) :
  (forall m x, length (filter P (F m x)) = g x) ->
  length (filter P (concat (imap F l))) = sum_list (map g l).
Proof.
  revert F. induction l as [|x l IH]; intros F HF; [done|].
  rewrite imap_cons. simpl. rewrite filter_app, length_app, HF.
  f_equal. apply IH. intros m y. apply HF.
Qed.

Lemma sum_decide_filter {A} (P : A -> Prop) `{forall x, Decision (P x)} (l : list A) :
  sum_list (map (fun x => if decide (P x) then 1 else 0) l) = length (filter P l).
Proof.
  induction l as [|x l IH]; [done|]. simpl. rewrite filter_cons.
  destruct (decide (P x)); simpl; by rewrite IH.
Qed.

Lemma length_filter_split {A} (P : A -> Prop) `{forall x, Decision (P x)} (l : list A) :
  length l = length (filter P l) + length (filter (fun x => ~ P x) l).
Proof.
  induction l as [|x l IH]; [done|]. rewrite !filter_cons.
  destruct (decide (P x)), (decide (~ P x)); simpl; try tauto; lia.
Qed.

Lemma positions_nil_iff {A} `{EqDecision A} (x : A) (l : list A) :
  positions x l = [] <-> x ∉ l.
Proof.
  split.
  - intros Hnil Hx. by apply (positions_from_elem x l 0).
  - apply positions_from_notin.
Qed.

Lemma length_positions_NoDup {A} `{EqDecision A} (x : A) (l : list A) :
  NoDup l -> length (positions x l) = if decide (x ∈ l) then 1 else 0.
Proof.
  intros Hnd. destruct (decide (x ∈ l)) as [Hx|Hx].
  - apply list_elem_of_lookup_1 in Hx as [j Hj].
    by rewrite (positions_NoDup x l j).
  - unfold positions. by rewrite positions_from_notin.
Qed.

Lemma length_positions_cons {A} `{EqDecision A} (x y : A) (l : list A) :
  length (positions x (y :: l))
  = (if decide (y = x) then 1 else 0) + length (positions x l).
Proof.
  unfold positions. simpl. pose proof (positions_from_length x l 1 0) as Hlen.
  destruct (decide (y = x)); simpl; lia.
Qed.

Lemma common_values_length {A} `{EqDecision A} (l r : list A) :
  NoDup l -> NoDup r ->
  length (filter (fun x => x ∈ r) l) = length (filter (fun x => x ∈ l) r).
Proof.
  intros Hl Hr. apply Permutation_length, NoDup_Permutation.
  - by apply NoDup_filter.
  - by apply NoDup_filter.
  - intros x. rewrite !list_elem_of_filter. tauto.
Qed.

Section JoinCounts.
Context {V : Type} `{EqDecision V}.
Implicit Types lkeys rkeys : list (option V).

(** The rows of the join that are not matched: one per left key that is
    no right key, one per right key that is no left key. *)
Lemma unmatched_total lkeys rkeys :
  length (filter (fun jr => indicator_of jr <> both) (join_groups lkeys rkeys))
  = length (filter (fun k => k ∉ rkeys) lkeys)
    + length (filter (fun k => k ∉ lkeys) rkeys).
Proof.
  unfold join_groups. rewrite filter_app, length_app. f_equal.
  - rewrite (length_filter_concat_imap _ _
               (fun k => if decide (k ∉ rkeys) then 1 else 0)).
    + apply sum_decide_filter.
    + intros m k. rewrite left_group_not_both.
      pose proof (positions_nil_iff k rkeys).
      destruct (decide (positions k rkeys = [])), (decide (k ∉ rkeys)); tauto.
  - rewrite (length_filter_concat_imap _ _
               (fun k => if decide (k ∉ lkeys) then 1 else 0)).
    + apply sum_decide_filter.
    + intros m k. rewrite right_group_not_both.
      pose proof (positions_nil_iff k lkeys).
      destruct (decide (positions k lkeys = [])), (decide (k ∉ lkeys)); tauto.
Qed.

(** Counting the pairs of equal keys from the left or from the right. *)
Lemma equal_pairs_swap lkeys rkeys :
  sum_list (map (fun k => length (positions k rkeys)) lkeys)
  = sum_list (map (fun k => length (positions k lkeys)) rkeys).
Proof.
  induction lkeys as [|k lkeys IH]; simpl.
  - induction rkeys as [|x rkeys IHr]; [done|]. simpl. by rewrite <- IHr.
  - rewrite IH. clear IH.
    induction rkeys as [|x rkeys IHr]; [done|].
    simpl. rewrite !length_positions_cons, <- IHr.
    destruct (decide (x = k)), (decide (k = x)); try congruence; lia.
Qed.

Lemma equal_pairs_at_least lkeys rkeys :
  length (filter (fun k => k ∈ rkeys) lkeys)
  <= sum_list (map (fun k => length (positions k rkeys)) lkeys).
Proof.
  induction lkeys as [|k lkeys IH]; [done|]. rewrite filter_cons. simpl.
  destruct (decide (k ∈ rkeys)) as [Hk|Hk]; simpl; [|lia].
  assert (positions k rkeys <> []) by by apply positions_from_elem.
  destruct (positions k rkeys); [done|]. simpl. lia.
Qed.

Lemma equal_pairs_NoDup lkeys rkeys :
  NoDup rkeys ->
  sum_list (map (fun k => length (positions k rkeys)) lkeys)
  = length (filter (fun k => k ∈ rkeys) lkeys).
Proof.
  intros Hnd. rewrite <- sum_decide_filter. f_equal. apply map_ext.
  intros k. by apply length_positions_NoDup.
Qed.

End JoinCounts.

Section MatcherCounts.
Context {V : Type} `{EqDecision V}.
Variable arrange : list join_row -> list join_row.
Variable keys_comparable : list (option V) -> list (option V) -> bool.
Variable promote : list (option V) -> V -> V.
Variable empty_left_drops_left_key : bool.
Hypothesis arrange_perm : forall l, arrange l ≡ₚ l.

(** The numbers of rows of the two tables, from the two key columns. *)
Lemma match_data_lengths (left right : DataFrame (option V))
    (left_on right_on : label) (p q : nat) :
  mergeable keys_comparable left right left_on right_on ->
  columns left !! p = Some left_on ->
  columns right !! q = Some right_on ->
  exists matched unmatched,
    match_data arrange keys_comparable promote empty_left_drops_left_key left right left_on right_on
    = Ok (matched, unmatched)
    /\ length (rows matched)
       = sum_list (map (fun k => length (positions k (column_values None right q)))
                       (column_values None left p))
    /\ length (rows unmatched)
       = length (filter (fun k => k ∉ column_values None right q)
                        (column_values None left p))
         + length (filter (fun k => k ∉ column_values None left p)
                          (column_values None right q)).
Proof.
  intros Hm Hp Hq.
  destruct (match_data_rows arrange keys_comparable promote empty_left_drops_left_key left right left_on right_on Hm)
    as (cols & p' & q' & Hp' & Hq' & _ & Hres).
  assert (p' = p) as ->
    by (eapply lookup_unique_position; eauto using left_distinct).
  assert (q' = q) as ->
    by (eapply lookup_unique_position; eauto using right_distinct).
  simpl in Hres. eexists _, _. split; [exact Hres|]. simpl.
  rewrite !length_map. unfold full_outer_join. rewrite !(arrange_perm _).
  split; [apply matched_total | apply unmatched_total].
Qed.

(** X3: for tables that the merge accepts, the number of unmatched rows
    is the number of left keys that are no right key plus the number of
    right keys that are no left key, and the two result tables together
    have at least as many rows as each input table. *)
Theorem match_data_unmatched_count (left right : DataFrame (option V))
    (left_on right_on : label) (p q : nat) :
  mergeable keys_comparable left right left_on right_on ->
  columns left !! p = Some left_on ->
  columns right !! q = Some right_on ->
  exists matched unmatched,
    match_data arrange keys_comparable promote empty_left_drops_left_key left right left_on right_on
    = Ok (matched, unmatched)
    /\ length (rows unmatched)
       = length (filter (fun k => k ∉ column_values None right q)
                        (column_values None left p))
         + length (filter (fun k => k ∉ column_values None left p)
                          (column_values None right q))
    /\ length (rows left) <= length (rows matched) + length (rows unmatched)
    /\ length (rows right) <= length (rows matched) + length (rows unmatched).
Proof.
  intros Hm Hp Hq.
  destruct (match_data_lengths left right left_on right_on p q Hm Hp Hq)
    as (matched & unmatched & Hres & Hlm & Hlu).
  exists matched, unmatched. split; [exact Hres|]. split; [exact Hlu|].
  set (lkeys := column_values None left p) in *.
  set (rkeys := column_values None right q) in *.
  assert (Hl : length (rows left) = length lkeys)
    by (unfold lkeys, column_values; by rewrite length_map).
  assert (Hr : length (rows right) = length rkeys)
    by (unfold rkeys, column_values; by rewrite length_map).
  pose proof (equal_pairs_at_least lkeys rkeys) as H1.
  pose proof (equal_pairs_at_least rkeys lkeys) as H2.
  rewrite <- (equal_pairs_swap lkeys rkeys) in H2.
  rewrite (length_filter_split (fun k => k ∈ rkeys) lkeys) in Hl.
  rewrite (length_filter_split (fun k => k ∈ lkeys) rkeys) in Hr.
  rewrite Hl, Hr, Hlm, Hlu. split; lia.
Qed.

(** X4: when no key value occurs twice in the left key column and none
    twice in the right key column, every matched row pairs one left row
    with one right row: the row counts of the two inputs add up to twice
    the matched rows plus the unmatched rows, and there are no more
    matched rows than rows in either input. *)
Theorem match_data_unique_keys_balance (left right : DataFrame (option V))
    (left_on right_on : label) (p q : nat) :
  mergeable keys_comparable left right left_on right_on ->
  columns left !! p = Some left_on ->
  columns right !! q = Some right_on ->
  NoDup (column_values None left p) ->
  NoDup (column_values None right q) ->
  exists matched unmatched,
    match_data arrange keys_comparable promote empty_left_drops_left_key left right left_on right_on
    = Ok (matched, unmatched)
    /\ length (rows left) + length (rows right)
       = 2 * length (rows matched) + length (rows unmatched)
    /\ length (rows matched) <= length (rows left)
    /\ length (rows matched) <= length (rows right).
Proof.
  intros Hm Hp Hq Hlnd Hrnd.
  destruct (match_data_lengths left right left_on right_on p q Hm Hp Hq)
    as (matched & unmatched & Hres & Hlm & Hlu).
  exists matched, unmatched. split; [exact Hres|].
  set (lkeys := column_values None left p) in *.
  set (rkeys := column_values None right q) in *.
  assert (Hl : length (rows left) = length lkeys)
    by (unfold lkeys, column_values; by rewrite length_map).
  assert (Hr : length (rows right) = length rkeys)
    by (unfold rkeys, column_values; by rewrite length_map).
  rewrite (equal_pairs_NoDup lkeys rkeys Hrnd) in Hlm.
  pose proof (common_values_length lkeys rkeys Hlnd Hrnd) as Hcommon.
  rewrite (length_filter_split (fun k => k ∈ rkeys) lkeys) in Hl.
  rewrite (length_filter_split (fun k => k ∈ lkeys) rkeys) in Hr.
  rewrite Hl, Hr, Hlm, Hlu. lia.
Qed.

(** X5: the row counts do not depend on which table is given first:
    matching the two tables the other way round gives as many matched
    rows and as many unmatched rows. *)
Theorem match_data_counts_symmetric (left right : DataFrame (option V))
    (left_on right_on : label) :
  mergeable keys_comparable left right left_on right_on ->
  mergeable keys_comparable right left right_on left_on ->
  exists matched unmatched matched' unmatched',
    match_data arrange keys_comparable promote empty_left_drops_left_key left right left_on right_on
    = Ok (matched, unmatched)
    /\ match_data arrange keys_comparable promote empty_left_drops_left_key right left right_on left_on
       = Ok (matched', unmatched')
    /\ length (rows matched') = length (rows matched)
    /\ length (rows unmatched') = length (rows unmatched).
Proof.
  intros Hm Hm'.
  destruct (key_values_ok left left_on (left_distinct _ _ _ _ _ Hm)
              (left_key_present _ _ _ _ _ Hm)) as (p & Hp & _).
  destruct (key_values_ok right right_on (right_distinct _ _ _ _ _ Hm)
              (right_key_present _ _ _ _ _ Hm)) as (q & Hq & _).
  destruct (match_data_lengths left right left_on right_on p q Hm Hp Hq)
    as (matched & unmatched & Hres & Hlm & Hlu).
  destruct (match_data_lengths right left right_on left_on q p Hm' Hq Hp)
    as (matched' & unmatched' & Hres' & Hlm' & Hlu').
  exists matched, unmatched, matched', unmatched'.
  split; [exact Hres|]. split; [exact Hres'|].
  rewrite Hlm, Hlu, Hlm', Hlu'. split; [apply equal_pairs_swap | lia].
Qed.

End MatcherCounts.

Lemma scenario_mergeable_swapped :
  mergeable one_kind customer_frame metadata_frame (PyStr.lit "cust_id") (PyStr.lit "id").
Proof.
  apply mergeable_intro; try by_computation; repeat constructor.
Qed.

Lemma match_data_unmatched_count_witness :
  (forall l, in_group_order l ≡ₚ l)
  /\ mergeable one_kind metadata_frame customer_frame (PyStr.lit "id") (PyStr.lit "cust_id")
  /\ columns metadata_frame !! 0 = Some (PyStr.lit "id")
  /\ columns customer_frame !! 0 = Some (PyStr.lit "cust_id")
  /\ exists matched unmatched,
      match_data in_group_order one_kind promote_int false metadata_frame customer_frame
                 (PyStr.lit "id") (PyStr.lit "cust_id")
      = Ok (matched, unmatched)
      /\ length (rows unmatched) = 2
      /\ length (rows metadata_frame) <= length (rows matched) + length (rows unmatched)
      /\ length (rows customer_frame) <= length (rows matched) + length (rows unmatched).
Proof.
  split; [exact in_group_order_perm|]. split; [exact scenario_mergeable|].
  split; [reflexivity|]. split; [reflexivity|].
  exact (match_data_unmatched_count in_group_order one_kind promote_int false in_group_order_perm
           metadata_frame customer_frame (PyStr.lit "id") (PyStr.lit "cust_id") 0 0
           scenario_mergeable eq_refl eq_refl).
Defined.

Lemma scenario_left_keys_distinct : NoDup (column_values None metadata_frame 0).
Proof. by_computation. Qed.

Lemma scenario_right_keys_distinct : NoDup (column_values None customer_frame 0).
Proof. by_computation. Qed.

Lemma match_data_unique_keys_balance_witness :
  (forall l, in_group_order l ≡ₚ l)
  /\ mergeable one_kind metadata_frame customer_frame (PyStr.lit "id") (PyStr.lit "cust_id")
  /\ columns metadata_frame !! 0 = Some (PyStr.lit "id")
  /\ columns customer_frame !! 0 = Some (PyStr.lit "cust_id")
  /\ NoDup (column_values None metadata_frame 0)
  /\ NoDup (column_values None customer_frame 0)
  /\ exists matched unmatched,
      match_data in_group_order one_kind promote_int false metadata_frame customer_frame
                 (PyStr.lit "id") (PyStr.lit "cust_id")
      = Ok (matched, unmatched)
      /\ length (rows metadata_frame) + length (rows customer_frame)
         = 2 * length (rows matched) + length (rows unmatched)
      /\ length (rows matched) <= length (rows metadata_frame)
      /\ length (rows matched) <= length (rows customer_frame).
Proof.
  split; [exact in_group_order_perm|]. split; [exact scenario_mergeable|].
  split; [reflexivity|]. split; [reflexivity|].
  split; [exact scenario_left_keys_distinct|].
  split; [exact scenario_right_keys_distinct|].
  exact (match_data_unique_keys_balance in_group_order one_kind promote_int false in_group_order_perm
           metadata_frame customer_frame (PyStr.lit "id") (PyStr.lit "cust_id") 0 0
           scenario_mergeable eq_refl eq_refl
           scenario_left_keys_distinct scenario_right_keys_distinct).
Defined.

Lemma match_data_counts_symmetric_witness :
  (forall l, in_group_order l ≡ₚ l)
  /\ mergeable one_kind metadata_frame customer_frame (PyStr.lit "id") (PyStr.lit "cust_id")
  /\ mergeable one_kind customer_frame metadata_frame (PyStr.lit "cust_id") (PyStr.lit "id")
  /\ exists matched unmatched matched' unmatched',
      match_data in_group_order one_kind promote_int false metadata_frame customer_frame
                 (PyStr.lit "id") (PyStr.lit "cust_id")
      = Ok (matched, unmatched)
      /\ match_data in_group_order one_kind promote_int false customer_frame metadata_frame
                    (PyStr.lit "cust_id") (PyStr.lit "id")
         = Ok (matched', unmatched')
      /\ length (rows matched') = length (rows matched)
      /\ length (rows unmatched') = length (rows unmatched).
Proof.
  split; [exact in_group_order_perm|]. split; [exact scenario_mergeable|].
  split; [exact scenario_mergeable_swapped|].
  exact (match_data_counts_symmetric in_group_order one_kind promote_int false in_group_order_perm
           metadata_frame customer_frame (PyStr.lit "id") (PyStr.lit "cust_id")
           scenario_mergeable scenario_mergeable_swapped).
Defined.

(** ** The matcher: the shape of the result *)

Lemma items_overlap_with_suffix_length (lcols rcols ll rl : list label) :
  items_overlap_with_suffix lcols rcols = Ok (ll, rl) ->
  length ll = length lcols /\ length rl = length rcols.
Proof.
  unfold items_overlap_with_suffix.
  destruct (filter (fun x => x ∈ rcols) lcols) as [|a to_rename].
  - by intros [= <- <-].
  - destruct (_ ++ _); [|done]. intros [= <- <-]. by rewrite !length_map.
Qed.

Lemma drop_positions_from_one_length {A} (p : nat) (l : list A) (s : nat) :
  length (omap (fun '(i, x) => if decide (i ∈ [p]) then None else Some x)
               (zip (seq s (length l)) l))
  = length l - (if decide (s <= p < s + length l) then 1 else 0).
Proof.
  revert s. induction l as [|a l IH]; intros s; simpl.
  - by destruct (decide (s <= p < s + 0)).
  - destruct (decide (s ∈ [p])) as [Hs|Hs]; simpl; rewrite IH.
    + apply list_elem_of_singleton in Hs as ->.
      destruct (decide (S p <= p < S p + length l)); [lia|].
      destruct (decide (p <= p < p + S (length l))); lia.
    + rewrite list_elem_of_singleton in Hs.
      destruct (decide (S s <= p < S s + length l)),
               (decide (s <= p < s + S (length l))); lia.
Qed.

Lemma drop_positions_one_length {A} (p : nat) (l : list A) :
  p < length l -> S (length (drop_positions [p] l)) = length l.
Proof.
  intros Hp. unfold drop_positions. rewrite drop_positions_from_one_length.
  destruct (decide (0 <= p < 0 + length l)); lia.
Qed.

Section MatcherShape.
Context {V : Type} `{EqDecision V}.
Variable arrange : list join_row -> list join_row.
Variable keys_comparable : list (option V) -> list (option V) -> bool.
Variable promote : list (option V) -> V -> V.
Variable empty_left_drops_left_key : bool.

Lemma kept_left_well_formed (left : DataFrame (option V)) (left_on right_on : label) :
  well_formed left -> well_formed (kept_left empty_left_drops_left_key left left_on right_on).
Proof.
  intros Hwf. unfold kept_left. destruct (drops_left _ _ _ _); [|done].
  by apply well_formed_drop_label.
Qed.

Lemma kept_right_well_formed (left right : DataFrame (option V))
    (left_on right_on : label) :
  well_formed right -> well_formed (kept_right empty_left_drops_left_key left right left_on right_on).
Proof.
  intros Hwf. unfold kept_right. destruct (drops_right _ _ _ _); [|done].
  by apply well_formed_drop_label.
Qed.

Lemma joined_row_length (left right : DataFrame (option V))
    (left_on right_on : label) (jr : join_row) :
  well_formed left -> well_formed right ->
  length (joined_row arrange promote empty_left_drops_left_key left right left_on right_on jr)
  = length (columns (kept_left empty_left_drops_left_key left left_on right_on))
    + length (columns (kept_right empty_left_drops_left_key left right left_on right_on)) + 1.
Proof.
  intros Hl Hr. unfold joined_row, merged_row.
  rewrite !length_app, !length_map, fill_key_length, !stored_cells_length.
  rewrite !take_row_length
    by (by apply kept_left_well_formed || by apply kept_right_well_formed).
  simpl. lia.
Qed.

Lemma match_data_columns_length (left right : DataFrame (option V))
    (left_on right_on : label) (matched unmatched : DataFrame (mcell V)) :
  match_data arrange keys_comparable promote empty_left_drops_left_key left right left_on right_on
  = Ok (matched, unmatched) ->
  columns unmatched = columns matched
  /\ length (columns matched)
     = length (columns (kept_left empty_left_drops_left_key left left_on right_on))
       + length (columns (kept_right empty_left_drops_left_key left right left_on right_on)) + 1.
Proof.
  unfold match_data, merge. intros Hres.
  destruct (key_values right right_on) as [rkeys|]; [|done].
  destruct (key_values left left_on) as [lkeys|]; [|done].
  simpl in Hres.
  destruct (keys_comparable lkeys rkeys); [|done]. simpl in Hres.
  destruct (indicator_pre_merge _ _) as [[]|]; [|done]. simpl in Hres.
  destruct (items_overlap_with_suffix _ _) as [[ll rl]|] eqn:Hlabels; [|done].
  simpl in Hres.
  apply items_overlap_with_suffix_length in Hlabels as [Hll Hrl].
  destruct (getitem _ _ _) as [sel|] in Hres; [|done]. simpl in Hres.
  destruct (series_of sel) as [ind|] in Hres; [|done]. simpl in Hres.
  simplify_eq. simpl. split; [done|]. rewrite !length_app. simpl. lia.
Qed.

Lemma kept_columns_length (left right : DataFrame (option V))
    (left_on right_on : label) :
  NoDup (columns left) -> NoDup (columns right) ->
  left_on ∈ columns left -> right_on ∈ columns right ->
  length (columns (kept_left empty_left_drops_left_key left left_on right_on))
  + length (columns (kept_right empty_left_drops_left_key left right left_on right_on))
  + (if decide (left_on = right_on) then 1 else 0)
  = length (columns left) + length (columns right).
Proof.
  intros Hlnd Hrnd Hlk Hrk.
  apply list_elem_of_lookup_1 in Hlk as [p Hp].
  apply list_elem_of_lookup_1 in Hrk as [q Hq].
  unfold kept_left, kept_right, drops_right, drops_left, drop_label.
  pose proof (drop_positions_one_length p (columns left)
                (lookup_lt_Some _ _ _ Hp)) as Hdropl.
  pose proof (drop_positions_one_length q (columns right)
                (lookup_lt_Some _ _ _ Hq)) as Hdropr.
  destruct (decide (left_on = right_on)) as [Heq|Hne].
  - rewrite (bool_decide_eq_true_2 _ Heq).
    destruct empty_left_drops_left_key; destruct (bool_decide (rows left = []));
      simpl;
      rewrite ?(positions_NoDup _ _ _ Hlnd Hp), ?(positions_NoDup _ _ _ Hrnd Hq);
      lia.
  - rewrite (bool_decide_eq_false_2 _ Hne), andb_false_r. simpl. lia.
Qed.

(** X6: for tables that the merge accepts, the two result tables have
    the same columns and are rectangular, and they have one column per
    column of each input plus the indicator column, less the key column
    that is dropped when both keys have the same name. *)
Theorem match_data_shape (left right : DataFrame (option V))
    (left_on right_on : label) :
  mergeable keys_comparable left right left_on right_on ->
  exists matched unmatched,
    match_data arrange keys_comparable promote empty_left_drops_left_key left right left_on right_on
    = Ok (matched, unmatched)
    /\ columns unmatched = columns matched
    /\ length (columns matched) + (if decide (left_on = right_on) then 1 else 0)
       = length (columns left) + length (columns right) + 1
    /\ well_formed matched
    /\ well_formed unmatched.
Proof.
  intros Hm.
  destruct (match_data_rows arrange keys_comparable promote empty_left_drops_left_key left right left_on right_on Hm)
    as (cols & p & q & _ & _ & _ & Hres).
  simpl in Hres. eexists _, _. split; [exact Hres|].
  destruct (match_data_columns_length _ _ _ _ _ _ Hres) as [_ Hlen].
  simpl in Hlen.
  pose proof (kept_columns_length left right left_on right_on
                (left_distinct _ _ _ _ _ Hm) (right_distinct _ _ _ _ _ Hm)
                (left_key_present _ _ _ _ _ Hm) (right_key_present _ _ _ _ _ Hm))
    as Hkept.
  split; [done|]. split; [simpl; lia|].
  unfold well_formed. simpl. rewrite !map_fmap.
  split; apply Forall_fmap, Forall_forall; intros jr _; simpl;
    rewrite joined_row_length
      by (apply (left_rectangular _ _ _ _ _ Hm)
          || apply (right_rectangular _ _ _ _ _ Hm)); lia.
Qed.

(** ** The matcher: the cells of the unmatched rows *)

Hypothesis arrange_perm : forall l, arrange l ≡ₚ l.

Lemma Forall2_Forall_r {A B} (R : A -> B -> Prop) (Q : B -> Prop)
    (l : list A) (k : list B) :
  Forall2 R l k -> (forall x y, x ∈ l -> R x y -> Q y) -> Forall Q k.
Proof.
  induction 1 as [|x y l k Hxy _ IH]; intros HQ; constructor.
  - apply (HQ x); [by left|done].
  - apply IH. intros x' y' Hx'. apply HQ. by right.
Qed.

(** X7: for tables that the merge accepts, every unmatched row is of
    one of two kinds.  Either it is the cells of a row of the left
    table, as the merge stores them, followed by one null per kept
    column of the right table and the category [left_only]; or it is
    the kept cells of a row of the right table, as the merge stores
    them, and the category [right_only], preceded by one cell per kept
    column of the left table: all of them null when the right key
    column is kept, and otherwise all null but the key cell, which holds
    the key of the right row. *)
Theorem match_data_unmatched_cells (left right : DataFrame (option V))
    (left_on right_on : label) (p q : nat) :
  mergeable keys_comparable left right left_on right_on ->
  columns left !! p = Some left_on ->
  columns right !! q = Some right_on ->
  exists matched unmatched,
    match_data arrange keys_comparable promote empty_left_drops_left_key
               left right left_on right_on
    = Ok (matched, unmatched)
    /\ Forall (fun row =>
         (exists i r,
             rows left !! i = Some r
             /\ row = map Data (shown_left promote left right left_on right_on p q r)
                      ++ replicate
                           (length (columns (kept_right empty_left_drops_left_key
                                               left right left_on right_on)))
                           (Data None)
                      ++ [Category left_only])
         \/ (exists j r lcells,
               rows right !! j = Some r
               /\ row = map Data lcells
                        ++ map Data (shown_right promote empty_left_drops_left_key
                                                 left right left_on right_on p q r)
                        ++ [Category right_only]
               /\ length lcells
                  = length (columns (kept_left empty_left_drops_left_key
                                               left left_on right_on))
               /\ (forall c, c < length lcells ->
                     lcells !! c
                     = Some (if drops_right empty_left_drops_left_key
                                            left left_on right_on
                                && bool_decide (c = p)
                             then default None (column_values None right q !! j)
                             else None))))
       (rows unmatched).
Proof.
  intros Hm Hp Hq.
  destruct (match_data_described arrange keys_comparable promote
              empty_left_drops_left_key arrange_perm
              left right left_on right_on p q Hm Hp Hq)
    as (matched & unmatched & Hres & _ & Hunmatched).
  exists matched, unmatched. split; [exact Hres|].
  eapply Forall2_Forall_r; [exact Hunmatched|].
  intros jr row Hjr Hrow. apply list_elem_of_filter in Hjr as [Hnb _].
  destruct jr as [[i|] [j|]]; simpl in Hrow, Hnb; try done.
  - destruct Hrow as (r & Hr & ->). left. by exists i, r.
  - destruct Hrow as (r & Hr & ->). right.
    exists j, r, (filled_left empty_left_drops_left_key left right
                              left_on right_on p q j).
    split; [done|]. split; [done|].
    assert (Hlen : length (filled_left empty_left_drops_left_key left right
                                       left_on right_on p q j)
                   = length (columns (kept_left empty_left_drops_left_key
                                                left left_on right_on))).
    { unfold filled_left. destruct (drops_right _ _ _ _);
        by rewrite ?length_insert, length_replicate. }
    split; [done|]. intros c Hc. rewrite Hlen in Hc.
    unfold filled_left.
    destruct (drops_right empty_left_drops_left_key left left_on right_on);
      simpl.
    + destruct (decide (c = p)) as [->|Hne].
      * rewrite bool_decide_eq_true_2 by done.
        apply list_lookup_insert_eq. by rewrite length_replicate.
      * rewrite bool_decide_eq_false_2 by done.
        rewrite list_lookup_insert_ne by done. by apply lookup_replicate.
    + by apply lookup_replicate.
Qed.

End MatcherShape.

Lemma match_data_shape_witness :
  mergeable one_kind metadata_frame customer_frame (PyStr.lit "id") (PyStr.lit "cust_id")
  /\ exists matched unmatched,
      match_data in_group_order one_kind promote_int false metadata_frame customer_frame
                 (PyStr.lit "id") (PyStr.lit "cust_id")
      = Ok (matched, unmatched)
      /\ columns unmatched = columns matched
      /\ length (columns matched) + 0 = 5
      /\ well_formed matched
      /\ well_formed unmatched.
Proof.
  split; [exact scenario_mergeable|].
  exact (match_data_shape in_group_order one_kind promote_int false metadata_frame customer_frame
           (PyStr.lit "id") (PyStr.lit "cust_id") scenario_mergeable).
Defined.

Lemma shared_mergeable :
  mergeable one_kind shared_left shared_right (PyStr.lit "k") (PyStr.lit "k").
Proof.
  apply mergeable_intro; try by_computation; repeat constructor.
Qed.

Lemma match_data_unmatched_cells_witness :
  (forall l, in_group_order l ≡ₚ l)
  /\ mergeable one_kind shared_left shared_right (PyStr.lit "k") (PyStr.lit "k")
  /\ columns shared_left !! 0 = Some (PyStr.lit "k")
  /\ columns shared_right !! 0 = Some (PyStr.lit "k")
  /\ exists matched unmatched,
      match_data in_group_order one_kind promote_int false shared_left shared_right
                 (PyStr.lit "k") (PyStr.lit "k")
      = Ok (matched, unmatched)
      /\ Forall (fun row =>
           (exists i r,
               rows shared_left !! i = Some r
               /\ row = map Data (shown_left promote_int shared_left shared_right
                                             (PyStr.lit "k") (PyStr.lit "k") 0 0 r)
                        ++ replicate
                             (length (columns (kept_right false shared_left shared_right
                                                 (PyStr.lit "k") (PyStr.lit "k"))))
                             (Data None)
                        ++ [Category left_only])
           \/ (exists j r lcells,
                 rows shared_right !! j = Some r
                 /\ row = map Data lcells
                          ++ map Data (shown_right promote_int false
                                         shared_left shared_right
                                         (PyStr.lit "k") (PyStr.lit "k") 0 0 r)
                          ++ [Category right_only]
                 /\ length lcells
                    = length (columns (kept_left false shared_left
                                                 (PyStr.lit "k") (PyStr.lit "k")))
                 /\ (forall c, c < length lcells ->
                       lcells !! c
                       = Some (if drops_right false shared_left
                                              (PyStr.lit "k") (PyStr.lit "k")
                                  && bool_decide (c = 0)
                               then default None
                                      (column_values None shared_right 0 !! j)
                               else None))))
         (rows unmatched).
Proof.
  split; [exact in_group_order_perm|]. split; [exact shared_mergeable|].
  split; [reflexivity|]. split; [reflexivity|].
  exact (match_data_unmatched_cells in_group_order one_kind promote_int false
           in_group_order_perm
           shared_left shared_right (PyStr.lit "k") (PyStr.lit "k") 0 0
           shared_mergeable eq_refl eq_refl).
Defined.

(** The unmatched rows of that match: the left row with key 2 and the
    right row with key 3, whose key fills the key column. *)
Example match_data_shared_unmatched :
  exists matched unmatched,
    match_data in_group_order one_kind promote_int false shared_left shared_right
               (PyStr.lit "k") (PyStr.lit "k")
    = Ok (matched, unmatched)
    /\ rows unmatched
       = [[Data (Some 2%Z); Data (Some 20%Z); Data None; Category left_only];
          [Data (Some 3%Z); Data None; Data (Some 9%Z); Category right_only]].
Proof. eexists _, _. split; [vm_compute; reflexivity|]. reflexivity. Qed.

(** ** The matcher: how it fails *)

Section MatcherFailures.
Context {V : Type} `{EqDecision V}.
Variable arrange : list join_row -> list join_row.
Variable keys_comparable : list (option V) -> list (option V) -> bool.
Variable promote : list (option V) -> V -> V.
Variable empty_left_drops_left_key : bool.

(** A label of either input is a label of one of the two frames that
    the merge keeps. *)
Lemma kept_columns_cover (left right : DataFrame (option V))
    (left_on right_on x : label) :
  left_on ∈ columns left -> right_on ∈ columns right ->
  x ∈ columns left \/ x ∈ columns right ->
  x ∈ columns (kept_left empty_left_drops_left_key left left_on right_on)
      ++ columns (kept_right empty_left_drops_left_key left right left_on right_on).
Proof.
  intros Hlk Hrk Hx. rewrite elem_of_app.
  unfold kept_left, kept_right, drops_right, drops_left.
  destruct (decide (left_on = right_on)) as [<-|Hne].
  - rewrite (bool_decide_eq_true_2 (left_on = left_on)) by done.
    destruct (empty_left_drops_left_key && true && bool_decide (rows left = []));
      simpl.
    + destruct Hx as [Hx|Hx]; [|by right].
      destruct (decide (x = left_on)) as [->|Hxk]; [by right|].
      left. by apply drop_positions_keep.
    + destruct Hx as [Hx|Hx]; [by left|].
      destruct (decide (x = left_on)) as [->|Hxk]; [by left|].
      right. by apply drop_positions_keep.
  - rewrite (bool_decide_eq_false_2 _ Hne), andb_false_r. simpl. tauto.
Qed.

(** With keys that are labels, and distinct labels in each input, the
    matcher fails only where the merge refuses the labels of its
    inputs or the types of the keys. *)
Lemma match_data_raises (left right : DataFrame (option V))
    (left_on right_on : label) (e : exn) :
  NoDup (columns left) -> NoDup (columns right) ->
  left_on ∈ columns left -> right_on ∈ columns right ->
  match_data arrange keys_comparable promote empty_left_drops_left_key left right left_on right_on = Raise e ->
  (exists msg, e = ValueError msg) \/ e = MergeError.
Proof.
  intros Hlnd Hrnd Hlk Hrk. unfold match_data, merge.
  destruct (key_values_ok left left_on Hlnd Hlk) as (p & _ & _ & ->).
  destruct (key_values_ok right right_on Hrnd Hrk) as (q & _ & _ & ->).
  simpl.
  destruct (keys_comparable _ _); simpl; [|intros [= <-]; left; by eexists].
  set (left' := kept_left empty_left_drops_left_key left left_on right_on).
  set (right' := kept_right empty_left_drops_left_key left right left_on right_on).
  destruct (indicator_pre_merge (columns left') (columns right')) as [[]|e0] eqn:Hpre;
    simpl.
  - destruct (items_overlap_with_suffix (columns left') (columns right'))
      as [[ll rl]|e1] eqn:Hlabels; simpl.
    + assert (Hfree : merge_label ∉ columns left' ++ columns right').
      { unfold indicator_pre_merge in Hpre.
        destruct (decide (left_indicator_label ∈ _)); [done|].
        destruct (decide (right_indicator_label ∈ _)); [done|].
        by destruct (decide (merge_label ∈ columns left' ++ columns right')). }
      rewrite elem_of_app in Hfree.
      assert (Hfresh : merge_label ∉ ll ++ rl).
      { eapply items_overlap_with_suffix_fresh; eauto. }
      unfold getitem. simpl. unfold positions.
      rewrite (app_assoc ll rl), positions_from_snoc by done. simpl. done.
    + intros [= <-]. right. unfold items_overlap_with_suffix in Hlabels.
      destruct (filter _ _); [done|]. destruct (_ ++ _); [done|].
      by injection Hlabels as <-.
  - intros [= <-]. left. unfold indicator_pre_merge in Hpre.
    destruct (decide (left_indicator_label ∈ _));
      [injection Hpre as <-; by eexists|].
    destruct (decide (right_indicator_label ∈ _));
      [injection Hpre as <-; by eexists|].
    destruct (decide (merge_label ∈ _)); [injection Hpre as <-; by eexists|done].
Qed.

(** X8: when a key is no column of its table, the matcher fails with a
    [KeyError] that names a missing key, whatever the tables hold. *)
Theorem match_data_missing_key (left right : DataFrame (option V))
    (left_on right_on : label) :
  NoDup (columns right) ->
  (left_on ∉ columns left) \/ (right_on ∉ columns right) ->
  exists key,
    match_data arrange keys_comparable promote empty_left_drops_left_key left right left_on right_on
    = Raise (KeyError key)
    /\ ((key = left_on /\ (left_on ∉ columns left))
        \/ (key = right_on /\ (right_on ∉ columns right))).
Proof.
  intros Hnd Hmiss. unfold match_data, merge.
  destruct (decide (right_on ∈ columns right)) as [Hr|Hr].
  - destruct Hmiss as [Hl|]; [|done].
    destruct (key_values_ok right right_on Hnd Hr) as (q & _ & _ & ->). simpl.
    unfold key_values. rewrite (proj2 (positions_nil_iff _ _) Hl). simpl.
    exists left_on. split; [done|]. by left.
  - unfold key_values at 1. rewrite (proj2 (positions_nil_iff _ _) Hr). simpl.
    exists right_on. split; [done|]. by right.
Qed.

(** X9: the matcher never overwrites a column of its inputs with the
    indicator: when either input has a column named [_merge],
    [_left_indicator] or [_right_indicator], it fails with a
    [ValueError] (the keys being columns, the labels distinct). *)
Theorem match_data_reserved_label (left right : DataFrame (option V))
    (left_on right_on l : label) :
  NoDup (columns left) -> NoDup (columns right) ->
  left_on ∈ columns left -> right_on ∈ columns right ->
  l ∈ [merge_label; left_indicator_label; right_indicator_label] ->
  l ∈ columns left \/ l ∈ columns right ->
  exists msg,
    match_data arrange keys_comparable promote empty_left_drops_left_key left right left_on right_on
    = Raise (ValueError msg).
Proof.
  intros Hlnd Hrnd Hlk Hrk Hl Hin. unfold match_data, merge.
  destruct (key_values_ok left left_on Hlnd Hlk) as (p & _ & _ & ->).
  destruct (key_values_ok right right_on Hrnd Hrk) as (q & _ & _ & ->).
  simpl.
  destruct (keys_comparable _ _); simpl; [|by eexists].
  pose proof (kept_columns_cover left right left_on right_on l Hlk Hrk Hin) as Hcover.
  unfold indicator_pre_merge.
  destruct (decide (left_indicator_label ∈ _)) as [|Hnl]; simpl; [by eexists|].
  destruct (decide (right_indicator_label ∈ _)) as [|Hnr]; simpl; [by eexists|].
  destruct (decide (merge_label ∈ _)) as [|Hnm]; simpl; [by eexists|].
  exfalso. rewrite !elem_of_cons in Hl.
  destruct Hl as [->|[->|[->|Hl]]]; [done|done|done|by apply elem_of_nil in Hl].
Qed.

End MatcherFailures.

Lemma match_data_missing_key_witness :
  NoDup (columns customer_frame)
  /\ ((PyStr.lit "name" ∉ columns metadata_frame)
      \/ (PyStr.lit "cust_id" ∉ columns customer_frame))
  /\ exists key,
      match_data in_group_order one_kind promote_int false metadata_frame customer_frame
                 (PyStr.lit "name") (PyStr.lit "cust_id")
      = Raise (KeyError key)
      /\ ((key = PyStr.lit "name" /\ (PyStr.lit "name" ∉ columns metadata_frame))
          \/ (key = PyStr.lit "cust_id"
              /\ (PyStr.lit "cust_id" ∉ columns customer_frame))).
Proof.
  assert (Hnd : NoDup (columns customer_frame)) by by_computation.
  assert (Hmiss : (PyStr.lit "name" ∉ columns metadata_frame)
                  \/ (PyStr.lit "cust_id" ∉ columns customer_frame))
    by (left; by_computation).
  split; [exact Hnd|]. split; [exact Hmiss|].
  exact (match_data_missing_key in_group_order one_kind promote_int false metadata_frame customer_frame
           (PyStr.lit "name") (PyStr.lit "cust_id") Hnd Hmiss).
Defined.

Lemma match_data_reserved_label_witness :
  NoDup (columns marked_frame) /\ NoDup (columns customer_frame)
  /\ PyStr.lit "id" ∈ columns marked_frame
  /\ PyStr.lit "cust_id" ∈ columns customer_frame
  /\ merge_label ∈ [merge_label; left_indicator_label; right_indicator_label]
  /\ (merge_label ∈ columns marked_frame \/ merge_label ∈ columns customer_frame)
  /\ exists msg,
      match_data in_group_order one_kind promote_int false marked_frame customer_frame
                 (PyStr.lit "id") (PyStr.lit "cust_id")
      = Raise (ValueError msg).
Proof.
  assert (H1 : NoDup (columns marked_frame)) by by_computation.
  assert (H2 : NoDup (columns customer_frame)) by by_computation.
  assert (H3 : PyStr.lit "id" ∈ columns marked_frame) by by_computation.
  assert (H4 : PyStr.lit "cust_id" ∈ columns customer_frame) by by_computation.
  assert (H5 : merge_label ∈ [merge_label; left_indicator_label; right_indicator_label])
    by by_computation.
  assert (H6 : merge_label ∈ columns marked_frame \/ merge_label ∈ columns customer_frame)
    by (left; by_computation).
  repeat (split; [assumption|]).
  exact (match_data_reserved_label in_group_order one_kind promote_int false marked_frame customer_frame
           (PyStr.lit "id") (PyStr.lit "cust_id") merge_label H1 H2 H3 H4 H5 H6).
Defined.

(** ** The parser: the tables it returns *)

Lemma add_new_elem (keys seen : list label) (x : label) :
  x ∈ add_new keys seen <-> x ∈ seen \/ x ∈ keys.
Proof.
  revert seen. induction keys as [|k keys IH]; intros seen; simpl.
  - rewrite elem_of_nil. tauto.
  - destruct (decide (k ∈ seen)) as [Hk|Hk]; rewrite IH, ?elem_of_app, !elem_of_cons,
      ?elem_of_nil; [|tauto].
    split; [tauto|]. intros [?|[->|?]]; tauto.
Qed.

Lemma add_new_NoDup (keys seen : list label) :
  NoDup seen -> NoDup (add_new keys seen).
Proof.
  revert seen. induction keys as [|k keys IH]; intros seen Hnd; simpl; [done|].
  destruct (decide (k ∈ seen)) as [Hk|Hk]; apply IH; [done|].
  apply NoDup_app. split; [done|]. split.
  - intros x Hx Hx'. apply list_elem_of_singleton in Hx'. by subst.
  - apply NoDup_singleton.
Qed.

Lemma union_of_keys_from_NoDup {A} (records : list (list (label * option A)))
    (seen : list label) :
  NoDup seen ->
  NoDup (fold_left (fun seen r => add_new (map fst r) seen) records seen).
Proof.
  revert seen. induction records as [|r records IH]; intros seen Hnd; simpl; [done|].
  apply IH. by apply add_new_NoDup.
Qed.

Lemma union_of_keys_from_elem {A} (records : list (list (label * option A)))
    (seen : list label) (x : label) :
  x ∈ fold_left (fun seen r => add_new (map fst r) seen) records seen
  <-> x ∈ seen \/ exists r, r ∈ records /\ x ∈ map fst r.
Proof.
  revert seen. induction records as [|r records IH]; intros seen; simpl.
  - split; [tauto|]. intros [?|(r & Hr & _)]; [done|by apply elem_of_nil in Hr].
  - rewrite IH, add_new_elem. split.
    + intros [[?|?]|(r' & Hr' & ?)]; [by left| |].
      * right. exists r. split; [by left|done].
      * right. exists r'. split; [by right|done].
    + intros [?|(r' & Hr' & ?)]; [tauto|].
      apply elem_of_cons in Hr' as [->|Hr']; [tauto|].
      right. by exists r'.
Qed.

Lemma frame_of_records_invariant {A} (records : list (list (label * option A))) :
  NoDup (columns (frame_of_records records))
  /\ well_formed (frame_of_records records).
Proof.
  split.
  - apply union_of_keys_from_NoDup. constructor.
  - unfold well_formed, frame_of_records. simpl. rewrite map_fmap.
    apply Forall_fmap, Forall_forall. intros r _. simpl. by rewrite length_map.
Qed.

Lemma sequence_option_labels {A B} (f : A -> option B) (members : list (label * A))
    (cols : list (label * B)) :
  sequence_option (map (fun '(k, v) => pair k <$> f v) members) = Some cols ->
  map fst cols = map fst members.
Proof.
  revert cols. induction members as [|[k v] members IH]; intros cols; simpl.
  - by intros [= <-].
  - destruct (f v) as [c|]; simpl; [|done].
    destruct (sequence_option _) as [rest|]; [|done].
    intros [= <-]. simpl. f_equal. by apply IH.
Qed.

Lemma frame_of_columns_well_formed (cols : list (label * list (option scalar))) :
  well_formed (frame_of_columns cols).
Proof.
  unfold well_formed, frame_of_columns. simpl. rewrite map_fmap.
  apply Forall_fmap, Forall_forall. intros i _. simpl. by rewrite !length_map.
Qed.

Lemma empty_frame_invariant {C} :
  NoDup (columns (@empty_frame C)) /\ well_formed (@empty_frame C).
Proof. split; constructor. Qed.

Lemma DataFrame_of_json_invariant (data : json) (df : DataFrame (option scalar)) :
  DataFrame_of_json data = Covered (Ok df) ->
  NoDup (columns df) /\ well_formed df.
Proof.
  destruct data as [| b | z | x | s | items | members]; try done.
  - intros [= <-]. apply empty_frame_invariant.
  - simpl. destruct (sequence_option _) as [records|]; [|done].
    intros [= <-]. apply frame_of_records_invariant.
  - destruct members as [|m members]; [intros [= <-]; apply empty_frame_invariant|].
    unfold DataFrame_of_json.
    destruct (forallb (fun '(_, v) => is_json_scalar v) (m :: members)); [done|].
    destruct (bool_decide (NoDup (map fst (m :: members)))) eqn:Hnd;
      cbn [negb]; [|done].
    apply bool_decide_eq_true in Hnd.
    destruct (sequence_option _) as [cols|] eqn:Hcols; [|done].
    apply sequence_option_labels in Hcols.
    destruct cols as [|[k c] cols]; [intros [= <-]; apply empty_frame_invariant|].
    destruct (forallb _ _); [|done].
    intros [= <-]. split; [|apply frame_of_columns_well_formed].
    change (NoDup (map fst ((k, c) :: cols))). by rewrite Hcols.
Qed.

Lemma sequence_covered_length {A} (l : list (covered A)) (r : list A) :
  sequence_covered l = Covered r -> length r = length l.
Proof.
  revert r. induction l as [|[a|] l IH]; intros r; simpl; try done.
  - by intros [= <-].
  - destruct (sequence_covered l) as [r'|]; [|done].
    intros [= <-]. simpl. f_equal. by apply IH.
Qed.

Lemma forallb_true_elim {A} (f : A -> bool) (l : list A) :
  forallb f l = true -> Forall (fun x => f x = true) l.
Proof.
  induction l as [|x l IH]; simpl; [constructor|].
  intros [Hx Hl]%andb_true_iff. constructor; auto.
Qed.

Lemma read_csv_invariant (text : list N) (df : DataFrame (option scalar)) :
  read_csv text = Covered (Ok df) ->
  NoDup (columns df) /\ well_formed df.
Proof.
  unfold read_csv. destruct (forallb csv_char text); simpl; [|done].
  destruct (csv_records text) as [|header records]; [done|].
  destruct (bool_decide (NoDup header)) eqn:Hnd; simpl; [|done].
  apply bool_decide_eq_true in Hnd.
  destruct (forallb _ header); simpl; [|done].
  destruct (forallb _ records) eqn:Hrect; simpl; [|done].
  destruct (one_piece header records); [|done].
  destruct (sequence_covered _) as [dtypes|] eqn:Hseq; [|done].
  intros [= <-]. split; [done|].
  apply sequence_covered_length in Hseq. rewrite length_map, length_seq in Hseq.
  unfold well_formed. simpl. rewrite map_fmap. apply Forall_fmap.
  apply forallb_true_elim in Hrect. eapply Forall_impl; [exact Hrect|].
  intros r Hr. simpl in *. apply Nat.eqb_eq in Hr.
  rewrite length_zip_with. lia.
Qed.

Lemma read_json_invariant (ujson_loads : list N -> result json) (text : list N)
    (df : DataFrame (option scalar)) :
  read_json ujson_loads text = Covered (Ok df) ->
  NoDup (columns df) /\ well_formed df.
Proof.
  unfold read_json. destruct (ujson_loads text) as [data|]; [|done].
  destruct (DataFrame_of_json data) as [[df'|e]|] eqn:Hdf; try done.
  destruct (conversions_inert df'); [|done].
  intros [= <-]. by eapply DataFrame_of_json_invariant.
Qed.

Section ParserInvariant.
Variable et_parse : list N -> covered (result element).
Variable ujson_loads : list N -> result json.

Lemma parse_body_invariant (file_content filetype : list N)
    (df : DataFrame (option scalar)) (log : list message) :
  parse_body et_parse ujson_loads file_content filetype = Covered (Ok (df, log)) ->
  (NoDup (columns df) /\ well_formed df)
  /\ (log = [] \/ (df = empty_frame /\ exists m, log = [m])).
Proof.
  unfold parse_body.
  destruct (decide (filetype = PyStr.lit "CSV")).
  { destruct (decode_utf8 file_content) as [decoded|]; simpl; [|done].
    destruct (read_csv decoded) as [[df'|]|] eqn:Hread; simpl; try done.
    intros [= <- <-]. split; [by eapply read_csv_invariant | by left]. }
  destruct (decide (filetype = PyStr.lit "JSON")).
  { destruct (decode_utf8 file_content) as [decoded|]; simpl; [|done].
    destruct (read_json ujson_loads decoded) as [[df'|]|] eqn:Hread; simpl;
      try done.
    intros [= <- <-]. split; [by eapply read_json_invariant | by left]. }
  destruct (decide (filetype = PyStr.lit "XML")).
  { destruct (et_parse file_content) as [[root|]|]; simpl; try done.
    intros [= <- <-]. split; [apply frame_of_records_invariant | by left]. }
  intros [= <- <-]. split; [apply empty_frame_invariant|].
  right. split; [done|]. by eexists.
Qed.

(** X11: the parser shows at most one message, and it shows one only
    together with the empty table: a table with a column or a row comes
    without any message. *)
Theorem parse_metadata_message_empty (file_content filetype filename : list N)
    (df : DataFrame (option scalar)) (log : list message) :
  parse_metadata et_parse ujson_loads file_content filetype filename = Covered (df, log) ->
  log = [] \/ (df = empty_frame /\ exists m, log = [m]).
Proof.
  unfold parse_metadata.
  destruct (parse_body et_parse ujson_loads file_content filetype) as [[[df' log']|e]|] eqn:Hbody;
    [| |done].
  - intros [= <- <-]. by apply parse_body_invariant in Hbody as [_ ?].
  - intros [= <- <-]. right. split; [done|]. by eexists.
Qed.

End ParserInvariant.

Lemma parse_metadata_message_empty_witness :
  parse_metadata no_element_tree sample_loads (PyStr.lit "5") (PyStr.lit "JSON") (PyStr.lit "meta.json")
  = Covered (empty_frame,
             [st_error_failed_to_parse (PyStr.lit "meta.json")
                (ValueError (PyStr.lit "DataFrame constructor not properly called!"))])
  /\ ([st_error_failed_to_parse (PyStr.lit "meta.json")
         (ValueError (PyStr.lit "DataFrame constructor not properly called!"))] = []
      \/ (@empty_frame (option scalar) = empty_frame
          /\ exists m,
              [st_error_failed_to_parse (PyStr.lit "meta.json")
                 (ValueError (PyStr.lit "DataFrame constructor not properly called!"))]
              = [m])).
Proof.
  assert (Hparse :
    parse_metadata no_element_tree sample_loads (PyStr.lit "5") (PyStr.lit "JSON") (PyStr.lit "meta.json")
    = Covered (empty_frame,
               [st_error_failed_to_parse (PyStr.lit "meta.json")
                  (ValueError (PyStr.lit "DataFrame constructor not properly called!"))]))
    by (vm_compute; reflexivity).
  split; [exact Hparse|].
  exact (parse_metadata_message_empty no_element_tree sample_loads (PyStr.lit "5") (PyStr.lit "JSON")
           (PyStr.lit "meta.json") _ _ Hparse).
Defined.

(** ** The parser: the cells of an XML table *)

Lemma dict_get_set_eq {A} (k : PyStr.str) (v : A) (d : list (PyStr.str * A)) :
  dict_get k (dict_set k v d) = Some v.
Proof.
  induction d as [|[k' v'] d IH]; simpl.
  - by rewrite decide_True.
  - destruct (decide (k' = k)) as [->|Hne]; simpl.
    + by rewrite decide_True.
    + by rewrite decide_False.
Qed.

Lemma dict_get_set_ne {A} (k k' : PyStr.str) (v : A) (d : list (PyStr.str * A)) :
  k <> k' -> dict_get k (dict_set k' v d) = dict_get k d.
Proof.
  intros Hne. induction d as [|[k0 v0] d IH]; simpl.
  - by rewrite decide_False.
  - destruct (decide (k0 = k')) as [->|Hne']; simpl.
    + by rewrite !decide_False.
    + destruct (decide (k0 = k)); [done|]. apply IH.
Qed.

Lemma dict_set_keys {A} (k x : PyStr.str) (v : A) (d : list (PyStr.str * A)) :
  x ∈ map fst (dict_set k v d) <-> x = k \/ x ∈ map fst d.
Proof.
  induction d as [|[k' v'] d IH]; simpl.
  - rewrite elem_of_cons. tauto.
  - destruct (decide (k' = k)) as [->|Hne]; simpl; rewrite !elem_of_cons.
    + tauto.
    + rewrite IH. tauto.
Qed.

Lemma xml_row_get (t : label) (subs : list element) (d : list (label * option scalar)) :
  dict_get t (fold_left (fun row sub => dict_set (tag sub) (SStr <$> text sub) row)
                        subs d)
  = match last (filter (fun sub => tag sub = t) subs) with
    | Some sub => Some (SStr <$> text sub)
    | None => dict_get t d
    end.
Proof.
  revert d. induction subs as [|sub subs IH]; intros d; simpl; [done|].
  rewrite IH, filter_cons. destruct (decide (tag sub = t)) as [<-|Hne].
  - destruct (filter (fun sub0 => tag sub0 = tag sub) subs) as [|s' l'] eqn:Hf; simpl.
    + by rewrite dict_get_set_eq.
    + destruct (last_is_Some (s' :: l')) as [_ Hsome].
      destruct Hsome as [x Hx]; [done|]. by rewrite Hx.
  - destruct (last _); [done|]. by apply dict_get_set_ne.
Qed.

Lemma xml_row_keys (t : label) (subs : list element) (d : list (label * option scalar)) :
  t ∈ map fst (fold_left (fun row sub => dict_set (tag sub) (SStr <$> text sub) row)
                         subs d)
  <-> t ∈ map fst d \/ exists sub, sub ∈ subs /\ tag sub = t.
Proof.
  revert d. induction subs as [|sub subs IH]; intros d; simpl.
  - split; [tauto|]. intros [?|(sub & Hsub & _)]; [done|by apply elem_of_nil in Hsub].
  - rewrite IH, dict_set_keys. split.
    + intros [[->|?]|(s & Hs & Ht)]; [|tauto|].
      * right. exists sub. split; [by left|done].
      * right. exists s. split; [by right|done].
    + intros [?|(s & Hs & Ht)]; [tauto|].
      apply elem_of_cons in Hs as [->|Hs]; [by left; left|].
      right. by exists s.
Qed.

Lemma filetype_XML_not_CSV : PyStr.lit "XML" <> PyStr.lit "CSV".
Proof. discriminate. Qed.

Lemma filetype_XML_not_JSON : PyStr.lit "XML" <> PyStr.lit "JSON".
Proof. discriminate. Qed.

Section ParserXML.
Variable et_parse : list N -> covered (result element).
Variable ujson_loads : list N -> result json.

(** X12: for every XML document that ElementTree reads, the parser
    returns a table, without a message, that has one row per child of
    the root, in order, and one column per tag that occurs among the
    grandchildren; the cell of a record under a tag is the text of the
    last child of the record with that tag, and null when the record has
    no such child or that child has no text. *)
Theorem parse_metadata_xml_cells (file_content filename : list N) (root : element) :
  et_parse file_content = Covered (Ok root) ->
  exists df,
    parse_metadata et_parse ujson_loads file_content (PyStr.lit "XML") filename = Covered (df, [])
    /\ length (rows df) = length (children root)
    /\ (forall t, t ∈ columns df <->
          exists record sub,
            record ∈ children root /\ sub ∈ children record /\ tag sub = t)
    /\ (forall i record r j t,
          children root !! i = Some record ->
          rows df !! i = Some r ->
          columns df !! j = Some t ->
          cell_at None j r = match last_with_tag t record with
                             | Some sub => SStr <$> text sub
                             | None => None
                             end).
Proof.
  intros Het. unfold parse_metadata, parse_body.
  rewrite decide_False by apply filetype_XML_not_CSV.
  rewrite decide_False by apply filetype_XML_not_JSON.
  rewrite decide_True by done. rewrite Het. simpl.
  eexists. split; [reflexivity|].
  unfold frame_of_records. simpl.
  split; [by rewrite !length_map|]. split.
  - intros t. unfold union_of_keys. rewrite union_of_keys_from_elem. split.
    + intros [Ht|(r & Hr & Ht)]; [by apply elem_of_nil in Ht|].
      rewrite map_fmap in Hr. apply list_elem_of_fmap in Hr as (record & -> & Hrec).
      apply xml_row_keys in Ht as [Ht|(sub & Hsub & Htag)];
        [by apply elem_of_nil in Ht|].
      by exists record, sub.
    + intros (record & sub & Hrec & Hsub & Htag). right.
      eexists. split.
      * rewrite map_fmap. apply list_elem_of_fmap. exists record. split; [reflexivity|done].
      * apply xml_row_keys. right. by exists sub.
  - intros i record r j t Hi Hr Hj.
    rewrite !lookup_map, Hi in Hr. simpl in Hr. injection Hr as <-.
    unfold cell_at. rewrite lookup_map, Hj. simpl.
    rewrite xml_row_get. unfold last_with_tag.
    by destruct (last _).
Qed.

End ParserXML.

Lemma parse_metadata_xml_cells_witness :
  sample_tree [] = Covered (Ok sample_root)
  /\ exists df,
      parse_metadata sample_tree sample_loads [] (PyStr.lit "XML") (PyStr.lit "meta.xml")
      = Covered (df, [])
      /\ length (rows df) = 2
      /\ (forall t, t ∈ columns df <->
            exists record sub,
              record ∈ children sample_root /\ sub ∈ children record /\ tag sub = t)
      /\ (forall i record r j t,
            children sample_root !! i = Some record ->
            rows df !! i = Some r ->
            columns df !! j = Some t ->
            cell_at None j r = match last_with_tag t record with
                               | Some sub => SStr <$> text sub
                               | None => None
                               end).
Proof.
  split; [reflexivity|].
  exact (parse_metadata_xml_cells sample_tree sample_loads [] (PyStr.lit "meta.xml") sample_root
           eq_refl).
Defined.

(** ** The parser: bytes that are not UTF-8 *)

Lemma high_byte_not_continuation (b : N) :
  (0xF5 <= b)%N -> is_continuation b = false.
Proof.
  intros Hb. unfold is_continuation.
  destruct (N.leb_spec 0x80 b), (N.leb_spec b 0xBF); simpl; try done; lia.
Qed.

Lemma high_byte_no_lead (lo hi b : N) :
  (hi < 0xF5)%N -> (0xF5 <= b)%N -> ((lo <=? b) && (b <=? hi))%N = false.
Proof.
  intros Hhi Hb.
  destruct (N.leb_spec lo b), (N.leb_spec b hi); simpl; try done; lia.
Qed.

Lemma decode_utf8_high_byte (n : nat) (bs : list N) (b : N) :
  length bs <= n -> b ∈ bs -> (0xF5 <= b)%N ->
  decode_utf8 bs = Raise UnicodeDecodeError.
Proof.
  revert bs. induction n as [|n IH]; intros bs Hlen Hb Hhigh.
  { destruct bs; [by apply elem_of_nil in Hb | simpl in Hlen; lia]. }
  destruct bs as [|b0 rest]; [by apply elem_of_nil in Hb|].
  simpl in Hlen. cbn [decode_utf8].
  destruct (N.ltb_spec b0 0x80) as [Hlow|_].
  { apply elem_of_cons in Hb as [->|Hb]; [lia|].
    rewrite (IH rest) by (done || lia). done. }
  destruct ((0xC2 <=? b0) && (b0 <=? 0xDF))%N eqn:H2.
  { destruct rest as [|b1 rest1]; [done|].
    destruct (is_continuation b1) eqn:Hc1; [|done].
    apply elem_of_cons in Hb as [->|Hb];
      [by rewrite high_byte_no_lead in H2 by (done || lia)|].
    apply elem_of_cons in Hb as [->|Hb];
      [by rewrite high_byte_not_continuation in Hc1|].
    simpl in Hlen. rewrite (IH rest1) by (done || lia). done. }
  destruct ((0xE0 <=? b0) && (b0 <=? 0xEF))%N eqn:H3.
  { destruct rest as [|b1 [|b2 rest2]]; [done|done|].
    destruct (is_continuation b1) eqn:Hc1; [|done].
    destruct (is_continuation b2) eqn:Hc2; [|done].
    cbn [andb]. destruct (negb _ && negb _); [|done].
    apply elem_of_cons in Hb as [->|Hb];
      [by rewrite high_byte_no_lead in H3 by (done || lia)|].
    apply elem_of_cons in Hb as [->|Hb];
      [by rewrite high_byte_not_continuation in Hc1|].
    apply elem_of_cons in Hb as [->|Hb];
      [by rewrite high_byte_not_continuation in Hc2|].
    simpl in Hlen. rewrite (IH rest2) by (done || lia). done. }
  destruct ((0xF0 <=? b0) && (b0 <=? 0xF4))%N eqn:H4; [|done].
  destruct rest as [|b1 [|b2 [|b3 rest3]]]; [done|done|done|].
  destruct (is_continuation b1) eqn:Hc1; [|done].
  destruct (is_continuation b2) eqn:Hc2; [|done].
  destruct (is_continuation b3) eqn:Hc3; [|done].
  cbn [andb]. destruct (negb _ && negb _); [|done].
  apply elem_of_cons in Hb as [->|Hb];
    [by rewrite high_byte_no_lead in H4 by (done || lia)|].
  apply elem_of_cons in Hb as [->|Hb];
    [by rewrite high_byte_not_continuation in Hc1|].
  apply elem_of_cons in Hb as [->|Hb];
    [by rewrite high_byte_not_continuation in Hc2|].
  apply elem_of_cons in Hb as [->|Hb];
    [by rewrite high_byte_not_continuation in Hc3|].
  simpl in Hlen. rewrite (IH rest3) by (done || lia). done.
Qed.

(** X13: a CSV or JSON file that holds a byte from 0xF5 up (no UTF-8
    text has one; files in UTF-16 or Latin-1 often do) is not read at
    all: the parser returns the empty table and reports the decoding
    error under the name of the file. *)
Theorem parse_metadata_undecodable (et_parse : list N -> covered (result element))
    (ujson_loads : list N -> result json)
    (file_content filetype filename : list N) (b : N) :
  b ∈ file_content -> (0xF5 <= b)%N ->
  filetype = PyStr.lit "CSV" \/ filetype = PyStr.lit "JSON" ->
  parse_metadata et_parse ujson_loads file_content filetype filename
  = Covered (empty_frame, [st_error_failed_to_parse filename UnicodeDecodeError]).
Proof.
  intros Hb Hhigh Htype. unfold parse_metadata, parse_body.
  rewrite (decode_utf8_high_byte (length file_content) file_content b) by done.
  destruct Htype as [-> | ->].
  - by rewrite decide_True.
  - rewrite decide_False by apply filetype_JSON_not_CSV. by rewrite decide_True.
Qed.

Lemma parse_metadata_undecodable_witness :
  255%N ∈ [255; 254; 105; 0]%N /\ (0xF5 <= 255)%N
  /\ (PyStr.lit "CSV" = PyStr.lit "CSV" \/ PyStr.lit "CSV" = PyStr.lit "JSON")
  /\ parse_metadata no_element_tree sample_loads [255; 254; 105; 0]%N (PyStr.lit "CSV")
                    (PyStr.lit "meta.csv")
     = Covered (empty_frame,
                [st_error_failed_to_parse (PyStr.lit "meta.csv") UnicodeDecodeError]).
Proof.
  assert (H1 : 255%N ∈ [255; 254; 105; 0]%N) by (by left).
  assert (H2 : (0xF5 <= 255)%N) by lia.
  assert (H3 : PyStr.lit "CSV" = PyStr.lit "CSV" \/ PyStr.lit "CSV" = PyStr.lit "JSON")
    by (by left).
  split; [exact H1|]. split; [exact H2|]. split; [exact H3|].
  exact (parse_metadata_undecodable no_element_tree sample_loads [255; 254; 105; 0]%N
           (PyStr.lit "CSV") (PyStr.lit "meta.csv") 255%N H1 H2 H3).
Defined.

(** ** Splitting a name at its full stops *)

Lemma split_on_not_nil (sep : N) (s : list N) : split_on sep s <> [].
Proof.
  destruct s as [|c rest]; simpl; [done|].
  destruct (c =? sep)%N; [done|]. by destruct (split_on sep rest).
Qed.

Lemma split_on_no_sep (sep : N) (s : list N) :
  sep ∉ s -> split_on sep s = [s].
Proof.
  induction s as [|c rest IH]; intros Hs; simpl; [done|].
  apply not_elem_of_cons in Hs as [Hne Hrest].
  destruct (N.eqb_spec c sep) as [->|_]; [done|]. by rewrite IH.
Qed.

Lemma split_on_app (sep : N) (stem ext : list N) :
  split_on sep (stem ++ sep :: ext) = split_on sep stem ++ split_on sep ext.
Proof.
  induction stem as [|c stem IH]; simpl.
  - by rewrite N.eqb_refl.
  - destruct (c =? sep)%N; rewrite IH; [done|].
    pose proof (split_on_not_nil sep stem).
    by destruct (split_on sep stem).
Qed.

Lemma last_app_not_nil {A} (l k : list A) : k <> [] -> last (l ++ k) = last k.
Proof.
  intros Hk. destruct k as [|x k] using rev_ind; [done|].
  by rewrite app_assoc, !last_snoc.
Qed.

(** The pieces of a split, joined again, are the text. *)
Lemma split_on_snoc (sep : N) (s : list N) :
  exists pieces ext,
    split_on sep s = pieces ++ [ext]
    /\ (sep ∉ ext)
    /\ s = concat (map (fun p => p ++ [sep]) pieces) ++ ext.
Proof.
  induction s as [|c rest (pieces & ext & Hsplit & Hext & Hjoin)]; simpl.
  - exists [], []. split; [done|]. split; [apply not_elem_of_nil|done].
  - destruct (N.eqb_spec c sep) as [->|Hne].
    + exists ([] :: pieces), ext. rewrite Hsplit. split; [done|]. split; [done|].
      simpl. by rewrite <- Hjoin.
    + rewrite Hsplit. destruct pieces as [|p pieces]; simpl.
      * exists [], (c :: ext). split; [done|]. split.
        -- apply not_elem_of_cons. split; [congruence|done].
        -- simpl in Hjoin. by rewrite Hjoin.
      * exists ((c :: p) :: pieces), ext. split; [done|]. split; [done|].
        simpl. simpl in Hjoin. by rewrite Hjoin.
Qed.

Lemma joined_pieces_end (sep : N) (pieces : list (list N)) :
  pieces <> [] ->
  exists stem, concat (map (fun p => p ++ [sep]) pieces) = stem ++ [sep].
Proof.
  intros Hne. destruct pieces as [|p pieces _] using rev_ind; [done|].
  rewrite map_app, concat_app. simpl. rewrite app_nil_r.
  eexists. by rewrite app_assoc.
Qed.

(** [last_piece] gives the text after the last full stop, the whole text
    when it has none. *)
Lemma last_piece_spec (s : list N) :
  (full_stop ∉ last_piece s)
  /\ (s = last_piece s \/ exists stem, s = stem ++ full_stop :: last_piece s).
Proof.
  unfold last_piece.
  destruct (split_on_snoc full_stop s) as (pieces & ext & -> & Hext & Hjoin).
  rewrite last_snoc. simpl. split; [done|].
  destruct pieces as [|p pieces]; [by left|]. right.
  destruct (joined_pieces_end full_stop (p :: pieces)) as [stem Hstem]; [done|].
  exists stem. rewrite Hjoin, Hstem. by rewrite <- app_assoc.
Qed.

Lemma last_piece_unique (s ext : list N) :
  full_stop ∉ ext ->
  s = ext \/ (exists stem, s = stem ++ full_stop :: ext) ->
  last_piece s = ext.
Proof.
  intros Hext [-> | [stem ->]]; unfold last_piece.
  - by rewrite split_on_no_sep.
  - rewrite split_on_app, last_app_not_nil by apply split_on_not_nil.
    by rewrite split_on_no_sep.
Qed.

Lemma last_piece_ascii (s : list N) : PyStr.ascii_str s -> PyStr.ascii_str (last_piece s).
Proof.
  intros Hs. destruct (last_piece_spec s) as [_ [Heq|[stem Heq]]].
  - by rewrite <- Heq.
  - unfold PyStr.ascii_str in *. rewrite Heq in Hs.
    apply Forall_app in Hs as [_ Hs]. by apply Forall_cons in Hs as [_ Hs].
Qed.

(** ** Lower and upper case of ASCII text *)

Lemma do_lower_ascii (db : PyStr.ucd) (before s : list N) :
  PyStr.basic_latin db -> PyStr.ascii_str s ->
  do_lower db before s = map PyStr.lower_latin s.
Proof.
  intros Hdb Hs. revert before.
  induction Hs as [|c s Hc Hs IH]; intros before; simpl; [done|].
  by rewrite ascii_lower_ucs4, IH.
Qed.

Lemma str_upper_ascii (to_upper_full : N -> list N) (s : list N) :
  basic_latin_upper to_upper_full -> PyStr.ascii_str s ->
  str_upper to_upper_full s = map PyStr.upper_latin s.
Proof.
  intros Hup Hs. unfold str_upper.
  induction Hs as [|c s Hc Hs IH]; simpl; [done|]. by rewrite Hup, IH.
Qed.

Lemma upper_of_lower_latin c :
  PyStr.upper_latin (PyStr.lower_latin c) = PyStr.upper_latin c.
Proof. latin_cases. Qed.

(** ** The S3 functions *)

Section S3Facts.
Variable db : PyStr.ucd.
Variable s3 : s3_service.

(** X14: fetching never raises and returns both values or neither:
    either the body that S3 gave together with the very key that was
    asked for, and no message, which takes a bucket name and a key that
    are not empty; or [None] twice, with one error message, when the
    bucket name or the key is empty or the request raised. *)
Theorem fetch_s3_file_outcome (access_key secret_key session_token bucket_name
                               file_key : list N) :
  (exists body,
      fetch_s3_file s3 access_key secret_key session_token bucket_name file_key
      = ((Some body, Some file_key), [])
      /\ bucket_name <> [] /\ file_key <> []
      /\ get_object s3 access_key secret_key session_token bucket_name file_key
         = Ok body)
  \/ (exists e,
        fetch_s3_file s3 access_key secret_key session_token bucket_name file_key
        = ((None, None), [st_error_failed_to_fetch e])
        /\ (bucket_name = [] \/ file_key = []
            \/ get_object s3 access_key secret_key session_token bucket_name file_key
               = Raise e)).
Proof.
  unfold fetch_s3_file.
  destruct (decide (bucket_name = [])) as [->|Hb].
  { right. eexists. split; [reflexivity|]. by left. }
  destruct (decide (file_key = [])) as [->|Hk].
  { right. rewrite orb_true_r. eexists. split; [reflexivity|]. right. by left. }
  rewrite !bool_decide_eq_false_2 by done. simpl.
  destruct (get_object s3 _ _ _ _ _) as [body|e] eqn:Hget.
  - left. by exists body.
  - right. exists e. split; [done|]. right. by right.
Qed.

(** X15: with a bucket name that is not empty and a listing of ASCII
    keys, the files offered are those keys of the listing, in its
    order, whose text after the last full stop (the whole key when it
    has no full stop) is [csv], [json] or [xml] in any mix of upper and
    lower case; nothing is shown. *)
Theorem list_s3_files_offers (access_key secret_key session_token bucket_name : list N)
    (contents : list (list N)) :
  PyStr.basic_latin db ->
  bucket_name <> [] ->
  list_objects_v2 s3 access_key secret_key session_token bucket_name
  = Ok (Some contents) ->
  Forall PyStr.ascii_str contents ->
  exists offered,
    list_s3_files db s3 access_key secret_key session_token bucket_name = (offered, [])
    /\ offered `sublist_of` contents
    /\ forall key,
         key ∈ offered <->
         key ∈ contents
         /\ exists ext,
              (key = ext \/ exists stem, key = stem ++ full_stop :: ext)
              /\ (full_stop ∉ ext)
              /\ map PyStr.lower_latin ext ∈ supported_extensions.
Proof.
  intros Hdb Hb Hlist Hascii. unfold list_s3_files.
  rewrite bool_decide_eq_false_2 by done. rewrite Hlist.
  eexists. split; [reflexivity|]. split; [apply sublist_filter|].
  intros key. rewrite list_elem_of_filter. unfold has_supported_extension.
  rewrite bool_decide_eq_true. unfold str_lower. split.
  - intros [Hext Hkey]. split; [done|].
    rewrite Forall_forall in Hascii.
    rewrite do_lower_ascii in Hext by (done || by apply last_piece_ascii, Hascii).
    exists (last_piece key).
    destruct (last_piece_spec key) as [Hstop Hshape]. done.
  - intros (Hkey & ext & Hshape & Hstop & Hext). split; [|done].
    rewrite Forall_forall in Hascii.
    rewrite do_lower_ascii by (done || by apply last_piece_ascii, Hascii).
    by rewrite (last_piece_unique key ext).
Qed.

(** X16: the file type that the results page derives from the name of a
    file that the upload page offered is one of the three that the
    parser supports (for ASCII names). *)
Theorem offered_file_has_supported_type (to_upper_full : N -> list N)
    (access_key secret_key session_token bucket_name key : list N) :
  PyStr.basic_latin db ->
  basic_latin_upper to_upper_full ->
  PyStr.ascii_str key ->
  key ∈ (list_s3_files db s3 access_key secret_key session_token bucket_name).1 ->
  exists filetype,
    filetype_of to_upper_full (Some key) = Some filetype
    /\ filetype ∈ [PyStr.lit "CSV"; PyStr.lit "JSON"; PyStr.lit "XML"].
Proof.
  intros Hdb Hup Hascii Hkey.
  assert (Hext : str_lower db (last_piece key) ∈ supported_extensions).
  { unfold list_s3_files in Hkey.
    destruct (if bool_decide (bucket_name = []) then _ else _) as [[contents|]|];
      simpl in Hkey; try by apply elem_of_nil in Hkey.
    apply list_elem_of_filter in Hkey as [Hext _].
    unfold has_supported_extension in Hext. by apply bool_decide_eq_true in Hext. }
  unfold str_lower in Hext.
  rewrite do_lower_ascii in Hext by (done || by apply last_piece_ascii).
  assert (Hnonempty : key <> []).
  { intros ->. vm_compute in Hext.
    repeat (apply elem_of_cons in Hext as [Hext|Hext]; [discriminate|]).
    by apply elem_of_nil in Hext. }
  destruct key as [|c rest]; [done|]. simpl.
  eexists. split; [reflexivity|].
  rewrite str_upper_ascii by (done || by apply last_piece_ascii).
  rewrite <- (map_ext _ _ upper_of_lower_latin), <- map_map.
  unfold supported_extensions in Hext. simpl in Hext.
  rewrite !elem_of_cons in Hext. rewrite !elem_of_cons.
  destruct Hext as [->|[->|[->|Hext]]]; [by left|by right; left|by right; right; left|].
  by apply elem_of_nil in Hext.
Qed.

End S3Facts.

Lemma latin_upper_basic : basic_latin_upper latin_upper.
Proof. intros c _. reflexivity. Qed.

Lemma sample_listing_ascii :
  Forall PyStr.ascii_str
         [PyStr.lit "meta.csv"; PyStr.lit "photo.jpg"; PyStr.lit "cust.CSV"].
Proof. repeat constructor; by_computation. Qed.

Lemma list_s3_files_offers_witness :
  PyStr.basic_latin PyStr.latin_and_dotted_i
  /\ PyStr.lit "b" <> []
  /\ list_objects_v2 sample_s3 (PyStr.lit "AK") (PyStr.lit "SK") (PyStr.lit "T")
                     (PyStr.lit "b")
     = Ok (Some [PyStr.lit "meta.csv"; PyStr.lit "photo.jpg"; PyStr.lit "cust.CSV"])
  /\ exists offered,
      list_s3_files PyStr.latin_and_dotted_i sample_s3 (PyStr.lit "AK") (PyStr.lit "SK")
                    (PyStr.lit "T") (PyStr.lit "b")
      = (offered, [])
      /\ offered `sublist_of` [PyStr.lit "meta.csv"; PyStr.lit "photo.jpg";
                               PyStr.lit "cust.CSV"]
      /\ forall key,
           key ∈ offered <->
           key ∈ [PyStr.lit "meta.csv"; PyStr.lit "photo.jpg"; PyStr.lit "cust.CSV"]
           /\ exists ext,
                (key = ext \/ exists stem, key = stem ++ full_stop :: ext)
                /\ (full_stop ∉ ext)
                /\ map PyStr.lower_latin ext ∈ supported_extensions.
Proof.
  assert (Hb : PyStr.lit "b" <> []) by discriminate.
  split; [exact latin_and_dotted_i_basic|]. split; [exact Hb|].
  split; [reflexivity|].
  exact (list_s3_files_offers PyStr.latin_and_dotted_i sample_s3
           (PyStr.lit "AK") (PyStr.lit "SK") (PyStr.lit "T") (PyStr.lit "b") _
           latin_and_dotted_i_basic Hb eq_refl sample_listing_ascii).
Defined.

Lemma offered_file_has_supported_type_witness :
  PyStr.basic_latin PyStr.latin_and_dotted_i
  /\ basic_latin_upper latin_upper
  /\ PyStr.ascii_str (PyStr.lit "cust.CSV")
  /\ PyStr.lit "cust.CSV"
     ∈ (list_s3_files PyStr.latin_and_dotted_i sample_s3 (PyStr.lit "AK")
                      (PyStr.lit "SK") (PyStr.lit "T") (PyStr.lit "b")).1
  /\ exists filetype,
      filetype_of latin_upper (Some (PyStr.lit "cust.CSV")) = Some filetype
      /\ filetype ∈ [PyStr.lit "CSV"; PyStr.lit "JSON"; PyStr.lit "XML"].
Proof.
  assert (Hascii : PyStr.ascii_str (PyStr.lit "cust.CSV")) by by_computation.
  assert (Hkey : PyStr.lit "cust.CSV"
                 ∈ (list_s3_files PyStr.latin_and_dotted_i sample_s3 (PyStr.lit "AK")
                                  (PyStr.lit "SK") (PyStr.lit "T") (PyStr.lit "b")).1)
    by by_computation.
  split; [exact latin_and_dotted_i_basic|]. split; [exact latin_upper_basic|].
  split; [exact Hascii|]. split; [exact Hkey|].
  exact (offered_file_has_supported_type PyStr.latin_and_dotted_i sample_s3 latin_upper
           (PyStr.lit "AK") (PyStr.lit "SK") (PyStr.lit "T") (PyStr.lit "b")
           (PyStr.lit "cust.CSV") latin_and_dotted_i_basic latin_upper_basic
           Hascii Hkey).
Defined.

(** ** The session *)

Lemma delete_all_lookup (keys : list (list N)) (ss : gmap (list N) (list N))
    (k : list N) :
  fold_left (fun acc key => delete key acc) keys ss !! k
  = if decide (k ∈ keys) then None else ss !! k.
Proof.
  revert ss. induction keys as [|key keys IH]; intros ss; simpl; [done|].
  rewrite IH, lookup_delete.
  destruct (decide (k ∈ keys)) as [Hin|Hin].
  - by rewrite decide_True by (by right).
  - destruct (decide (key = k)) as [->|Hne].
    + by rewrite decide_True by (by left).
    + rewrite decide_False; [done|]. rewrite elem_of_cons. intros [?|?]; congruence.
Qed.

Lemma reset_session_eq (ss : gmap (list N) (list N)) :
  reset_session ss = {[ PyStr.lit "page" := PyStr.lit "home" ]}.
Proof.
  unfold reset_session. rewrite <- insert_empty. f_equal.
  apply map_eq. intros k. rewrite delete_all_lookup, lookup_empty.
  destruct (decide (k ∈ map fst (map_to_list ss))) as [|Hk]; [done|].
  destruct (ss !! k) as [v|] eqn:Hv; [|done]. exfalso. apply Hk.
  rewrite map_fmap. apply list_elem_of_fmap. exists (k, v).
  split; [done|]. by apply elem_of_map_to_list.
Qed.

Lemma fold_defaults_union (defaults : list (list N * list N))
    (ss : gmap (list N) (list N)) :
  fold_left (fun acc '(key, default) =>
               match acc !! key with
               | Some _ => acc
               | None => <[key := default]> acc
               end)
            defaults ss
  = ss ∪ list_to_map defaults.
Proof.
  revert ss. induction defaults as [|[k v] defaults IH]; intros ss; simpl.
  - by rewrite (right_id_L ∅ (∪)).
  - rewrite IH. apply map_eq. intros j. rewrite !lookup_union, lookup_insert.
    destruct (ss !! k) as [w|] eqn:Hk.
    + destruct (decide (k = j)) as [<-|Hne]; [|done]. rewrite Hk.
      by destruct (list_to_map defaults !! k).
    + rewrite lookup_insert.
      destruct (decide (k = j)) as [<-|Hne]; [|done]. rewrite Hk.
      by destruct (list_to_map defaults !! k).
Qed.

Lemma required_keys_not_page :
  Forall (fun k => k <> PyStr.lit "page") required_keys.
Proof. repeat constructor; discriminate. Qed.

Lemma forallb_ext_elem {A} (f g : A -> bool) (l : list A) :
  Forall (fun x => f x = g x) l -> forallb f l = forallb g l.
Proof. induction 1 as [|x l Hx _ IH]; simpl; [done|]. by rewrite Hx, IH. Qed.

Lemma ready_to_start_page (ss : gmap (list N) (list N)) (page : list N) :
  ready_to_start (<[PyStr.lit "page" := page]> ss) = ready_to_start ss.
Proof.
  unfold ready_to_start. rewrite !lookup_insert_ne by discriminate.
  f_equal. f_equal. apply forallb_ext_elem.
  eapply Forall_impl; [apply required_keys_not_page|].
  intros k Hk. simpl. unfold filled. by rewrite lookup_insert_ne.
Qed.

Lemma invalid_session_ready (ss : gmap (list N) (list N)) :
  invalid_session ss = negb (ready_to_start ss).
Proof.
  unfold invalid_session, ready_to_start.
  destruct (forallb _ _), (bool_decide _), (bool_decide _); done.
Qed.

(** X17: the initialization of [main] adds the defaults for the names
    that the session lacks and changes no entry that it has: the result
    is the session completed by the defaults; every default name is in
    it. *)
Theorem initialize_session_union (ss : gmap (list N) (list N)) :
  initialize_session ss = ss ∪ list_to_map default_keys
  /\ ss ⊆ initialize_session ss
  /\ Forall (fun entry => is_Some (initialize_session ss !! entry.1)) default_keys.
Proof.
  assert (Heq : initialize_session ss = ss ∪ list_to_map default_keys)
    by apply fold_defaults_union.
  split; [exact Heq|]. rewrite Heq. split; [apply map_union_subseteq_l|].
  apply Forall_forall. intros [k v] Hin. simpl.
  apply lookup_union_is_Some. right.
  destruct ((list_to_map default_keys : gmap (list N) (list N)) !! k) eqn:Hlook;
    [by eexists|].
  apply not_elem_of_list_to_map_2 in Hlook. exfalso. apply Hlook.
  apply list_elem_of_fmap. by exists (k, v).
Qed.

(** X18: whatever the session holds, [reset_session] leaves the page
    name alone in it, set to "home"; the initialization of the next run
    then gives exactly the defaults, with every credential empty, and
    [main] shows the home page. *)
Theorem reset_session_defaults (ss : gmap (list N) (list N)) :
  reset_session ss = {[ PyStr.lit "page" := PyStr.lit "home" ]}
  /\ initialize_session (reset_session ss) = list_to_map default_keys
  /\ main_route (reset_session ss) = Ok (list_to_map default_keys, to_home_page).
Proof.
  assert (Hinit : initialize_session (reset_session ss) = list_to_map default_keys).
  { rewrite reset_session_eq. unfold initialize_session. rewrite fold_defaults_union.
    apply map_eq. intros k. rewrite lookup_union, lookup_singleton.
    destruct (decide (PyStr.lit "page" = k)) as [<-|Hne].
    - unfold default_keys. simpl. by rewrite lookup_insert_eq.
    - by destruct (_ !! k). }
  split; [apply reset_session_eq|]. split; [exact Hinit|].
  unfold main_route. rewrite Hinit.
  unfold default_keys. simpl. rewrite lookup_insert_eq.
  by rewrite decide_True.
Qed.

(** X19: the button "Start Parsing & Matching" and the results page
    agree on what a complete session is.  Either the button sets the
    page to "results", shows nothing, and the session it leaves passes
    both guards of the results page; or it leaves the session as it is
    and shows its error, and the results page would refuse that
    session. *)
Theorem start_parsing_agrees (ss : gmap (list N) (list N)) :
  (start_parsing ss = (<[PyStr.lit "page" := PyStr.lit "results"]> ss, [])
   /\ (start_parsing ss).1 !! PyStr.lit "page" = Some (PyStr.lit "results")
   /\ invalid_session (start_parsing ss).1 = false)
  \/ (start_parsing ss
      = (ss, [st_error (PyStr.lit "Please complete all fields and select valid files.")])
      /\ invalid_session ss = true).
Proof.
  unfold start_parsing. destruct (ready_to_start ss) eqn:Hready.
  - left. split; [done|]. simpl. split; [by rewrite lookup_insert_eq|].
    by rewrite invalid_session_ready, ready_to_start_page, Hready.
  - right. split; [done|]. by rewrite invalid_session_ready, Hready.
Qed.

(** ** The results page *)

Lemma detect_primary_key_ok {V} `{EqDecision V} (df : DataFrame (option V)) :
  NoDup (columns df) -> columns df <> [] ->
  exists key, detect_primary_key df = Ok key /\ key ∈ columns df.
Proof.
  intros Hnd Hne. unfold detect_primary_key.
  destruct (scan_columns df (columns df)) as [[c|]|e] eqn:Hscan; simpl.
  - exists c. split; [done|]. by eapply scan_columns_elem.
  - destruct (columns df) as [|first others]; [done|].
    exists first. split; [done|]. by left.
  - destruct (scan_columns_from df (columns df) 0 Hnd eq_refl)
      as [(j & name & _ & _ & _ & Hres)|[_ Hres]]; [lia| |]; congruence.
Qed.

Lemma df_empty_false {C} (df : DataFrame C) :
  df_empty df = false -> columns df <> [].
Proof.
  unfold df_empty. intros Hne Hcols. by rewrite Hcols in Hne.
Qed.

Section InferredKeys.
Context {V : Type} `{EqDecision V}.
Variable arrange : list join_row -> list join_row.
Variable keys_comparable : list (option V) -> list (option V) -> bool.
Variable promote : list (option V) -> V -> V.
Variable empty_left_drops_left_key : bool.

(** X21: what the results page does with two parsed tables, for tables
    of scalar cells with distinct column names.  When both tables pass
    the guard of the page (neither is empty), key inference returns for
    both, with a column of its table each; and the match on these two
    keys, if it fails, fails with a [ValueError] or a [MergeError] of
    the merge: not with an [IndexError] of key inference, and not with
    a [KeyError] for a missing key or a missing indicator column. *)
Theorem inferred_keys_match_raises (metadata_df customer_df : DataFrame (option V)) :
  NoDup (columns metadata_df) -> NoDup (columns customer_df) ->
  df_empty metadata_df = false -> df_empty customer_df = false ->
  exists meta_key cust_key,
    detect_primary_key metadata_df = Ok meta_key
    /\ detect_primary_key customer_df = Ok cust_key
    /\ meta_key ∈ columns metadata_df
    /\ cust_key ∈ columns customer_df
    /\ forall e,
         match_data arrange keys_comparable promote empty_left_drops_left_key
                    metadata_df customer_df meta_key cust_key = Raise e ->
         (exists msg, e = ValueError msg) \/ e = MergeError.
Proof.
  intros Hmnd Hcnd Hme Hce.
  destruct (detect_primary_key_ok metadata_df Hmnd (df_empty_false _ Hme))
    as (meta_key & Hmk & Hmin).
  destruct (detect_primary_key_ok customer_df Hcnd (df_empty_false _ Hce))
    as (cust_key & Hck & Hcin).
  exists meta_key, cust_key. repeat split; try done.
  intros e. by apply match_data_raises.
Qed.

End InferredKeys.

Lemma inferred_keys_match_raises_witness :
  NoDup (columns marked_frame)
  /\ NoDup (columns customer_frame)
  /\ df_empty marked_frame = false
  /\ df_empty customer_frame = false
  /\ exists meta_key cust_key,
      detect_primary_key marked_frame = Ok meta_key
      /\ detect_primary_key customer_frame = Ok cust_key
      /\ meta_key ∈ columns marked_frame
      /\ cust_key ∈ columns customer_frame
      /\ forall e,
           match_data in_group_order one_kind promote_int false
                      marked_frame customer_frame meta_key cust_key = Raise e ->
           (exists msg, e = ValueError msg) \/ e = MergeError.
Proof.
  assert (Hm : NoDup (columns marked_frame)) by by_computation.
  assert (Hc : NoDup (columns customer_frame)) by by_computation.
  split; [exact Hm|]. split; [exact Hc|].
  split; [reflexivity|]. split; [reflexivity|].
  exact (inferred_keys_match_raises in_group_order one_kind promote_int false
           marked_frame customer_frame Hm Hc eq_refl eq_refl).
Defined.

Section ResultsPageFacts.
Variable db : PyStr.ucd.
Variable to_upper_full : N -> list N.
Variable s3 : s3_service.
Variable et_parse : list N -> covered (result element).
Variable ujson_loads : list N -> result json.
Variable arrange : list (option nat * option nat) -> list (option nat * option nat).
Variable empty_left_drops_left_key : bool.

(** X20: unless the page of the session is "results" and the session
    is complete, the results page asks nothing of S3 and reads no
    file: whatever S3, the parser and the other parameters are, it
    leaves one and the same session, whose page is "home", and shows
    one and the same list of events, which ends with the rerun and has
    no table. *)
Theorem results_page_refuses (ss : gmap (list N) (list N)) (home_clicked : bool) :
  ss !! PyStr.lit "page" <> Some (PyStr.lit "results") \/ invalid_session ss = true ->
  exists ss' events,
    (forall db' up s3' et loads arrange' flag,
        results_page db' up s3' et loads arrange' flag ss home_clicked
        = Covered (Ok (ss', events)))
    /\ ss' !! PyStr.lit "page" = Some (PyStr.lit "home")
    /\ last events = Some st_rerun
    /\ Forall (fun ev => is_dataframe ev = false) events.
Proof.
  intros Hrefuse.
  destruct (decide (ss !! PyStr.lit "page" = Some (PyStr.lit "results"))) as [Hpage|Hpage].
  - destruct Hrefuse as [?|Hinvalid]; [done|].
    eexists _, _. split.
    + intros db' up s3' et arrange'. unfold results_page.
      rewrite (bool_decide_eq_true_2 _ Hpage), Hinvalid. simpl. reflexivity.
    + split; [unfold reset_session; by rewrite lookup_insert_eq|].
      split; [done|]. by repeat constructor.
  - eexists _, _. split.
    + intros db' up s3' et arrange'. unfold results_page.
      rewrite (bool_decide_eq_false_2 _ Hpage). simpl. reflexivity.
    + split; [by rewrite lookup_insert_eq|]. split; [done|]. by repeat constructor.
Qed.

Lemma fetch_without_content (access_key secret_key session_token bucket_name
                             file_key : list N) :
  (forall body,
      get_object s3 access_key secret_key session_token bucket_name file_key = Ok body ->
      body = []) ->
  let fetched := fetch_s3_file s3 access_key secret_key session_token bucket_name
                               file_key in
  (fetched.1.1 = None \/ fetched.1.1 = Some [])
  /\ Forall (fun ev => is_dataframe ev = false) fetched.2.
Proof.
  intros Hget. unfold fetch_s3_file.
  destruct (_ || _); simpl; [split; [by left|by repeat constructor]|].
  destruct (get_object s3 _ _ _ _ _) as [body|e] eqn:Hbody; simpl.
  - rewrite (Hget body eq_refl). split; [by right|constructor].
  - split; [by left|by repeat constructor].
Qed.

Lemma fetch_shows_no_table (access_key secret_key session_token bucket_name
                            file_key : list N) :
  Forall (fun ev => is_dataframe ev = false)
         (fetch_s3_file s3 access_key secret_key session_token bucket_name file_key).2.
Proof.
  unfold fetch_s3_file.
  destruct (if _ || _ then _ else _); simpl; by repeat constructor.
Qed.

Lemma shown_no_table (log : list message) :
  Forall (fun ev => is_dataframe ev = false) (map shown log).
Proof. rewrite map_fmap. apply Forall_fmap, Forall_forall. done. Qed.

(** X22: on a complete session, when S3 gives no content for one of the
    two files (the request raises, or the file is empty), the results
    page, if the other file is one that the description of the readers
    covers, raises nothing and matches nothing: it shows the warning
    "No data found or parsing failed." and no table, and it leaves the
    session as it is unless "Home" was clicked. *)
Theorem results_page_without_file (ss : gmap (list N) (list N)) (home_clicked : bool)
    (outcome : result (gmap (list N) (list N) * list ui_event)) :
  ss !! PyStr.lit "page" = Some (PyStr.lit "results") ->
  invalid_session ss = false ->
  (forall body,
      get_object s3 (field ss "aws_access_key") (field ss "aws_secret_key")
                 (field ss "aws_session_token") (field ss "bucket_name")
                 (field ss "file_key") = Ok body -> body = [])
  \/ (forall body,
        get_object s3 (field ss "cust_aws_access_key") (field ss "cust_aws_secret_key")
                   (field ss "cust_aws_session_token") (field ss "cust_bucket_name")
                   (field ss "cust_file_key") = Ok body -> body = []) ->
  results_page db to_upper_full s3 et_parse ujson_loads arrange empty_left_drops_left_key ss home_clicked = Covered outcome ->
  exists events,
    outcome = Ok (home_button home_clicked ss events)
    /\ shown (st_warning (PyStr.lit "No data found or parsing failed.")) ∈ events
    /\ Forall (fun ev => is_dataframe ev = false) events.
Proof.
  intros Hpage Hvalid Hnone. unfold results_page.
  rewrite (bool_decide_eq_true_2 _ Hpage), Hvalid. simpl.
  set (fetched := fetch_s3_file s3 (field ss "aws_access_key") _ _ _ _).
  set (cust_fetched := fetch_s3_file s3 (field ss "cust_aws_access_key") _ _ _ _).
  destruct (metadata_table _ _ _ _) as [[metadata_df log]|] eqn:Hmeta; [|done].
  destruct (customer_table _ _ _ _) as [[customer_df cust_log]|] eqn:Hcust; [|done].
  assert (Hempty : negb (df_empty metadata_df) && negb (df_empty customer_df) = false).
  { destruct Hnone as [Hnone|Hnone].
    - destruct (fetch_without_content _ _ _ _ _ Hnone) as [Hcontent _].
      fold fetched in Hcontent. unfold metadata_table in Hmeta.
      destruct Hcontent as [Hc|Hc]; rewrite Hc in Hmeta;
        injection Hmeta as <- <-; done.
    - destruct (fetch_without_content _ _ _ _ _ Hnone) as [Hcontent _].
      fold cust_fetched in Hcontent. unfold customer_table in Hcust.
      destruct Hcontent as [Hc|Hc]; rewrite Hc in Hcust;
        injection Hcust as <- <-; by rewrite andb_false_r. }
  rewrite Hempty. intros [= <-]. eexists. split; [reflexivity|]. split.
  - rewrite elem_of_app. right. by left.
  - rewrite !Forall_app. split; [|by repeat constructor].
    split; [apply fetch_shows_no_table|].
    split; [apply shown_no_table|]. split; [apply fetch_shows_no_table|].
    apply shown_no_table.
Qed.

End ResultsPageFacts.

Lemma incomplete_session_invalid :
  incomplete_session !! PyStr.lit "page" <> Some (PyStr.lit "results")
  \/ invalid_session incomplete_session = true.
Proof. right. vm_compute. reflexivity. Qed.

Lemma results_page_refuses_witness :
  (incomplete_session !! PyStr.lit "page" <> Some (PyStr.lit "results")
   \/ invalid_session incomplete_session = true)
  /\ exists ss' events,
      (forall db' up s3' et loads arrange' flag,
          results_page db' up s3' et loads arrange' flag incomplete_session false
          = Covered (Ok (ss', events)))
      /\ ss' !! PyStr.lit "page" = Some (PyStr.lit "home")
      /\ last events = Some st_rerun
      /\ Forall (fun ev => is_dataframe ev = false) events.
Proof.
  split; [exact incomplete_session_invalid|].
  exact (results_page_refuses incomplete_session false incomplete_session_invalid).
Defined.

(** A metadata file with a column named [_merge]: the merge refuses
    it, and the page lets the exception escape. *)
Example results_page_marked_file :
  results_page PyStr.latin_and_dotted_i latin_upper marked_s3 no_element_tree sample_loads
               in_group_order false ready_session false
  = Covered (Raise (ValueError
                      (PyStr.lit "Cannot use name of an existing column for indicator column"))).
Proof. vm_compute. reflexivity. Qed.

Lemma ready_session_page :
  ready_session !! PyStr.lit "page" = Some (PyStr.lit "results").
Proof. vm_compute. reflexivity. Qed.

Lemma ready_session_valid : invalid_session ready_session = false.
Proof. vm_compute. reflexivity. Qed.

Lemma no_s3_gives_nothing :
  (forall body,
      get_object no_s3 (field ready_session "aws_access_key")
                 (field ready_session "aws_secret_key")
                 (field ready_session "aws_session_token")
                 (field ready_session "bucket_name")
                 (field ready_session "file_key") = Ok body -> body = [])
  \/ (forall body,
        get_object no_s3 (field ready_session "cust_aws_access_key")
                   (field ready_session "cust_aws_secret_key")
                   (field ready_session "cust_aws_session_token")
                   (field ready_session "cust_bucket_name")
                   (field ready_session "cust_file_key") = Ok body -> body = []).
Proof. left. intros body. simpl. discriminate. Qed.

Lemma no_s3_outcome :
  results_page PyStr.latin_and_dotted_i latin_upper no_s3 no_element_tree sample_loads
               in_group_order false ready_session false
  = Covered (Ok (home_button false ready_session
                   [st_error_failed_to_fetch AttributeError;
                    st_error_failed_to_fetch AttributeError;
                    shown (st_warning (PyStr.lit "No data found or parsing failed."))])).
Proof. vm_compute. reflexivity. Qed.

Lemma results_page_without_file_witness :
  ready_session !! PyStr.lit "page" = Some (PyStr.lit "results")
  /\ invalid_session ready_session = false
  /\ results_page PyStr.latin_and_dotted_i latin_upper no_s3 no_element_tree sample_loads
                  in_group_order false ready_session false
     = Covered (Ok (home_button false ready_session
                      [st_error_failed_to_fetch AttributeError;
                       st_error_failed_to_fetch AttributeError;
                       shown (st_warning (PyStr.lit "No data found or parsing failed."))]))
  /\ exists events,
      Ok (home_button false ready_session
            [st_error_failed_to_fetch AttributeError;
             st_error_failed_to_fetch AttributeError;
             shown (st_warning (PyStr.lit "No data found or parsing failed."))])
      = Ok (home_button false ready_session events)
      /\ shown (st_warning (PyStr.lit "No data found or parsing failed.")) ∈ events
      /\ Forall (fun ev => is_dataframe ev = false) events.
Proof.
  split; [exact ready_session_page|]. split; [exact ready_session_valid|].
  split; [exact no_s3_outcome|].
  exact (results_page_without_file PyStr.latin_and_dotted_i latin_upper no_s3
           no_element_tree sample_loads in_group_order false ready_session false _
           ready_session_page ready_session_valid no_s3_gives_nothing no_s3_outcome).
Defined.

(** ** The results page: what it shows for two tables that match *)

Lemma drop_last_position_from {A} (l : list A) (x : A) (s : nat) :
  omap (fun '(i, y) => if decide (i ∈ [s + length l]) then None else Some y)
       (zip (seq s (length (l ++ [x]))) (l ++ [x]))
  = l.
Proof.
  revert s. induction l as [|a l IH]; intros s; simpl.
  - rewrite Nat.add_0_r. rewrite decide_True by (by left). done.
  - rewrite decide_False by (rewrite list_elem_of_singleton; lia). simpl. f_equal.
    replace (s + S (length l)) with (S s + length l) by lia. apply IH.
Qed.

Lemma drop_last_position {A} (l : list A) (x : A) :
  drop_positions [length l] (l ++ [x]) = l.
Proof. apply (drop_last_position_from l x 0). Qed.

Lemma filled_field (ss : gmap (list N) (list N)) (name : string) :
  filled ss (PyStr.lit name) = true -> field ss name <> [].
Proof.
  unfold filled, field. destruct (ss !! PyStr.lit name) as [[|c v]|]; done.
Qed.

Lemma valid_session_filled (ss : gmap (list N) (list N)) :
  invalid_session ss = false -> forallb (filled ss) required_keys = true.
Proof.
  unfold invalid_session. destruct (forallb _ _); [done|]. simpl. done.
Qed.

Section ResultsPageMatch.
Variable db : PyStr.ucd.
Variable to_upper_full : N -> list N.
Variable s3 : s3_service.
Variable et_parse : list N -> covered (result element).
Variable ujson_loads : list N -> result json.
Variable arrange : list (option nat * option nat) -> list (option nat * option nat).
Variable empty_left_drops_left_key : bool.
Hypothesis arrange_perm : forall l, arrange l ≡ₚ l.

Lemma shown_table_spec (df : DataFrame (mcell scalar)) (others : list label) :
  columns df = others ++ [merge_label] ->
  (merge_label ∉ others) ->
  exists table,
    shown_table db df = Ok table
    /\ columns table = map (clean_header db) others
    /\ rows table = map (drop_positions [length others]) (rows df).
Proof.
  intros Hcols Hfresh. unfold shown_table, drop_columns.
  rewrite Hcols. unfold positions. rewrite positions_from_snoc by done. simpl.
  rewrite drop_last_position. unfold clean_column_headers.
  rewrite lookup_singleton_eq. simpl. rewrite lookup_insert_eq. simpl.
  eexists. split; [reflexivity|]. simpl. split; done.
Qed.

Lemma fetch_with_content (access_key secret_key session_token bucket_name
                          file_key body : list N) :
  bucket_name <> [] -> file_key <> [] ->
  get_object s3 access_key secret_key session_token bucket_name file_key = Ok body ->
  fetch_s3_file s3 access_key secret_key session_token bucket_name file_key
  = ((Some body, Some file_key), []).
Proof.
  intros Hb Hk Hget. unfold fetch_s3_file.
  rewrite !bool_decide_eq_false_2 by done. simpl. by rewrite Hget.
Qed.

Lemma metadata_table_quiet (file_content filetype filename : option (list N))
    (df : DataFrame (option scalar)) (log : list message) :
  metadata_table et_parse ujson_loads file_content filetype filename = Covered (df, log) ->
  df_empty df = false -> log = [].
Proof.
  unfold metadata_table, parse_metadata.
  destruct file_content as [[|b bytes]|]; try (by intros [= <- <-]).
  destruct filetype as [[|c type]|]; try (by intros [= <- <-]).
  destruct (parse_body _ _ _) as [[[df' log']|e]|] eqn:Hbody; [| |done].
  - intros [= <- <-] Hne.
    apply parse_body_invariant in Hbody as [_ [Hlog|[-> _]]]; done.
  - by intros [= <- <-].
Qed.

Lemma customer_table_quiet (file_content filetype filename : option (list N))
    (df : DataFrame (option scalar)) (log : list message) :
  customer_table et_parse ujson_loads file_content filetype filename = Covered (df, log) ->
  df_empty df = false -> log = [].
Proof.
  unfold customer_table, parse_metadata.
  destruct file_content as [[|b bytes]|]; try (by intros [= <- <-]).
  destruct (parse_body _ _ _) as [[[df' log']|e]|] eqn:Hbody; [| |done].
  - intros [= <- <-] Hne.
    apply parse_body_invariant in Hbody as [_ [Hlog|[-> _]]]; done.
  - by intros [= <- <-].
Qed.

(** X23: the main path of the results page.  On a complete session,
    when S3 gives both files, both are parsed into tables with a column
    and a row, and the merge accepts the two tables under the keys that
    key inference finds, the page shows exactly: the two keys; the
    count and the table of the matched rows; the count and the table of
    the unmatched rows.  The two tables are the tables [matched] and
    [unmatched] that the matcher returns for the two parsed tables and
    the two keys, without their last column, the indicator, and under
    the normalized names of their other columns.  The matched count is
    the number of pairs of a metadata row and a customer row with equal
    keys; the unmatched count is the number of keys of either table
    that the other one lacks. *)
Theorem results_page_shows_match (ss : gmap (list N) (list N)) (home_clicked : bool)
    (body cust_body : list N) (metadata_df customer_df : DataFrame (option scalar))
    (log cust_log : list message) (meta_key cust_key : label) (p q : nat) :
  ss !! PyStr.lit "page" = Some (PyStr.lit "results") ->
  invalid_session ss = false ->
  get_object s3 (field ss "aws_access_key") (field ss "aws_secret_key")
             (field ss "aws_session_token") (field ss "bucket_name")
             (field ss "file_key") = Ok body ->
  get_object s3 (field ss "cust_aws_access_key") (field ss "cust_aws_secret_key")
             (field ss "cust_aws_session_token") (field ss "cust_bucket_name")
             (field ss "cust_file_key") = Ok cust_body ->
  metadata_table et_parse ujson_loads (Some body)
                 (filetype_of to_upper_full (Some (field ss "file_key")))
                 (Some (field ss "file_key"))
  = Covered (metadata_df, log) ->
  customer_table et_parse ujson_loads (Some cust_body)
                 (filetype_of to_upper_full (Some (field ss "cust_file_key")))
                 (Some (field ss "cust_file_key"))
  = Covered (customer_df, cust_log) ->
  df_empty metadata_df = false ->
  df_empty customer_df = false ->
  detect_primary_key metadata_df = Ok meta_key ->
  detect_primary_key customer_df = Ok cust_key ->
  mergeable (fun _ _ => true) metadata_df customer_df meta_key cust_key ->
  columns metadata_df !! p = Some meta_key ->
  columns customer_df !! q = Some cust_key ->
  both_integers_or_both_strings (column_values None metadata_df p)
                                (column_values None customer_df q) = true ->
  exists matched unmatched matched_df unmatched_df merged_columns,
    results_page db to_upper_full s3 et_parse ujson_loads arrange
                 empty_left_drops_left_key ss home_clicked
    = Covered (Ok (home_button home_clicked ss
                     [st_success_metadata_key meta_key;
                      st_success_customer_key cust_key;
                      st_subheader_matched (length (rows matched_df));
                      st_dataframe matched_df;
                      st_subheader_unmatched (length (rows unmatched_df));
                      st_dataframe unmatched_df]))
    /\ match_data arrange (fun _ _ => true) promote_scalar
                  empty_left_drops_left_key
                  metadata_df customer_df meta_key cust_key
       = Ok (matched, unmatched)
    /\ columns matched = merged_columns ++ [merge_label]
    /\ columns unmatched = merged_columns ++ [merge_label]
    /\ (merge_label ∉ merged_columns)
    /\ columns matched_df = map (clean_header db) merged_columns
    /\ rows matched_df
       = map (drop_positions [length merged_columns]) (rows matched)
    /\ columns unmatched_df = map (clean_header db) merged_columns
    /\ rows unmatched_df
       = map (drop_positions [length merged_columns]) (rows unmatched)
    /\ length (rows matched_df)
       = sum_list (map (fun k => length (positions k (column_values None customer_df q)))
                       (column_values None metadata_df p))
    /\ length (rows unmatched_df)
       = length (filter (fun k => k ∉ column_values None customer_df q)
                        (column_values None metadata_df p))
         + length (filter (fun k => k ∉ column_values None metadata_df p)
                          (column_values None customer_df q)).
Proof.
  intros Hpage Hvalid Hget Hcget Hmeta Hcust Hme Hce Hmk Hck Hm Hp Hq Hkind.
  pose proof (valid_session_filled ss Hvalid) as Hfilled.
  unfold required_keys in Hfilled. simpl in Hfilled.
  repeat (apply andb_true_iff in Hfilled as [?%filled_field Hfilled]).
  pose proof (metadata_table_quiet _ _ _ _ _ Hmeta Hme) as ->.
  pose proof (customer_table_quiet _ _ _ _ _ Hcust Hce) as ->.
  destruct (match_data_lengths arrange (fun _ _ => true) promote_scalar
              empty_left_drops_left_key arrange_perm
              metadata_df customer_df meta_key cust_key p q Hm Hp Hq)
    as (matched & unmatched & Hres & Hlm & Hlu).
  destruct (match_data_columns _ _ _ _ _ _ _ _ _ _ Hres)
    as (others & Hmc & Huc & Hfresh & _).
  destruct (shown_table_spec matched others Hmc Hfresh) as (tm & Htm & Htmc & Htmr).
  destruct (shown_table_spec unmatched others Huc Hfresh) as (tu & Htu & Htuc & Htur).
  exists matched, unmatched, tm, tu, others.
  split; [|rewrite Htmr, Htur, !length_map; by repeat split].
  unfold results_page.
  rewrite (bool_decide_eq_true_2 _ Hpage), Hvalid. cbn [negb].
  rewrite (fetch_with_content _ _ _ _ _ body) by done.
  rewrite (fetch_with_content _ _ _ _ _ cust_body) by done.
  cbn [fst snd]. rewrite Hmeta, Hcust, Hme, Hce. cbn [negb andb app map].
  unfold show_match. rewrite Hmk, Hck.
  destruct (key_values_ok metadata_df meta_key (left_distinct _ _ _ _ _ Hm)
              (left_key_present _ _ _ _ _ Hm)) as (p' & Hp' & _ & ->).
  destruct (key_values_ok customer_df cust_key (right_distinct _ _ _ _ _ Hm)
              (right_key_present _ _ _ _ _ Hm)) as (q' & Hq' & _ & ->).
  assert (p' = p) as ->
    by (eapply NoDup_lookup; eauto using left_distinct).
  assert (q' = q) as ->
    by (eapply NoDup_lookup; eauto using right_distinct).
  rewrite Hkind. simpl. rewrite Hres. simpl. rewrite Htm. simpl. rewrite Htu. simpl.
  done.
Qed.

End ResultsPageMatch.

Lemma parsed_scenario_mergeable :
  mergeable (fun _ _ => true) metadata_table_parsed customer_table_parsed
            (PyStr.lit "id") (PyStr.lit "cust_id").
Proof.
  apply (mergeable_intro metadata_table_parsed customer_table_parsed);
    try by_computation; repeat constructor.
Qed.

Lemma sample_metadata_fetched :
  get_object sample_s3 (field ready_session "aws_access_key")
             (field ready_session "aws_secret_key")
             (field ready_session "aws_session_token")
             (field ready_session "bucket_name") (field ready_session "file_key")
  = Ok metadata_csv.
Proof. vm_compute. reflexivity. Qed.

Lemma sample_customer_fetched :
  get_object sample_s3 (field ready_session "cust_aws_access_key")
             (field ready_session "cust_aws_secret_key")
             (field ready_session "cust_aws_session_token")
             (field ready_session "cust_bucket_name")
             (field ready_session "cust_file_key")
  = Ok customer_csv.
Proof. vm_compute. reflexivity. Qed.

Lemma sample_metadata_parsed :
  metadata_table no_element_tree sample_loads (Some metadata_csv)
                 (filetype_of latin_upper (Some (field ready_session "file_key")))
                 (Some (field ready_session "file_key"))
  = Covered (metadata_table_parsed, []).
Proof. vm_compute. reflexivity. Qed.

Lemma sample_customer_parsed :
  customer_table no_element_tree sample_loads (Some customer_csv)
                 (filetype_of latin_upper (Some (field ready_session "cust_file_key")))
                 (Some (field ready_session "cust_file_key"))
  = Covered (customer_table_parsed, []).
Proof. vm_compute. reflexivity. Qed.

Lemma results_page_shows_match_witness :
  (forall l, in_group_order l ≡ₚ l)
  /\ ready_session !! PyStr.lit "page" = Some (PyStr.lit "results")
  /\ invalid_session ready_session = false
  /\ metadata_table no_element_tree sample_loads (Some metadata_csv)
                    (filetype_of latin_upper (Some (field ready_session "file_key")))
                    (Some (field ready_session "file_key"))
     = Covered (metadata_table_parsed, [])
  /\ customer_table no_element_tree sample_loads (Some customer_csv)
                    (filetype_of latin_upper (Some (field ready_session "cust_file_key")))
                    (Some (field ready_session "cust_file_key"))
     = Covered (customer_table_parsed, [])
  /\ detect_primary_key metadata_table_parsed = Ok (PyStr.lit "id")
  /\ detect_primary_key customer_table_parsed = Ok (PyStr.lit "cust_id")
  /\ mergeable (fun _ _ => true) metadata_table_parsed customer_table_parsed
               (PyStr.lit "id") (PyStr.lit "cust_id")
  /\ exists matched unmatched matched_df unmatched_df merged_columns,
      results_page PyStr.latin_and_dotted_i latin_upper sample_s3 no_element_tree sample_loads
                   in_group_order false ready_session false
      = Covered (Ok (home_button false ready_session
                       [st_success_metadata_key (PyStr.lit "id");
                        st_success_customer_key (PyStr.lit "cust_id");
                        st_subheader_matched (length (rows matched_df));
                        st_dataframe matched_df;
                        st_subheader_unmatched (length (rows unmatched_df));
                        st_dataframe unmatched_df]))
      /\ match_data in_group_order (fun _ _ => true) promote_scalar false
                    metadata_table_parsed customer_table_parsed
                    (PyStr.lit "id") (PyStr.lit "cust_id")
         = Ok (matched, unmatched)
      /\ columns matched = merged_columns ++ [merge_label]
      /\ columns unmatched = merged_columns ++ [merge_label]
      /\ (merge_label ∉ merged_columns)
      /\ columns matched_df
         = map (clean_header PyStr.latin_and_dotted_i) merged_columns
      /\ rows matched_df
         = map (drop_positions [length merged_columns]) (rows matched)
      /\ columns unmatched_df
         = map (clean_header PyStr.latin_and_dotted_i) merged_columns
      /\ rows unmatched_df
         = map (drop_positions [length merged_columns]) (rows unmatched)
      /\ length (rows matched_df) = 1
      /\ length (rows unmatched_df) = 2.
Proof.
  split; [exact in_group_order_perm|]. split; [exact ready_session_page|].
  split; [exact ready_session_valid|]. split; [exact sample_metadata_parsed|].
  split; [exact sample_customer_parsed|]. split; [reflexivity|].
  split; [reflexivity|]. split; [exact parsed_scenario_mergeable|].
  exact (results_page_shows_match PyStr.latin_and_dotted_i latin_upper sample_s3
           no_element_tree sample_loads in_group_order false in_group_order_perm ready_session false
           metadata_csv customer_csv metadata_table_parsed customer_table_parsed
           [] [] (PyStr.lit "id") (PyStr.lit "cust_id") 0 0
           ready_session_page ready_session_valid
           sample_metadata_fetched sample_customer_fetched
           sample_metadata_parsed sample_customer_parsed
           eq_refl eq_refl eq_refl eq_refl parsed_scenario_mergeable
           eq_refl eq_refl eq_refl).
Defined.

(** ** The matcher at its extremes *)

Section MatcherExtremes.
Context {V : Type} `{EqDecision V}.
Variable arrange : list join_row -> list join_row.
Variable keys_comparable : list (option V) -> list (option V) -> bool.
Variable promote : list (option V) -> V -> V.
Variable empty_left_drops_left_key : bool.
Hypothesis arrange_perm : forall l, arrange l ≡ₚ l.

(** X24: a table matched with itself on one of its columns leaves no
    row unmatched.  The rows of [matched] are, one for one, the rows
    described for pairs [jm] of rows of the table; every row is paired
    with itself exactly once, so that it is matched at least once; when
    no key value occurs twice, every row is matched exactly once, and
    [matched] has as many rows as the table. *)
Theorem match_data_self (df : DataFrame (option V)) (key : label) (p : nat) :
  mergeable keys_comparable df df key key ->
  columns df !! p = Some key ->
  exists matched unmatched jm,
    match_data arrange keys_comparable promote empty_left_drops_left_key
               df df key key = Ok (matched, unmatched)
    /\ rows unmatched = []
    /\ Forall2 (row_for promote empty_left_drops_left_key df df key key p p)
               jm (rows matched)
    /\ Forall (fun jr => indicator_of jr = both) jm
    /\ (forall i, i < length (rows df) ->
          pair_occurrences i i jm = 1 /\ 0 < left_occurrences i jm)
    /\ length (rows df) <= length (rows matched)
    /\ (NoDup (column_values None df p) ->
        (forall i, i < length (rows df) -> left_occurrences i jm = 1)
        /\ length (rows matched) = length (rows df)).
Proof.
  intros Hm Hp.
  destruct (match_data_described arrange keys_comparable promote
              empty_left_drops_left_key arrange_perm df df key key p p
              Hm Hp Hp) as (matched & unmatched & Hres & Hmatched & _).
  destruct (match_data_lengths arrange keys_comparable promote
              empty_left_drops_left_key arrange_perm df df key key p p
              Hm Hp Hp) as (matched' & unmatched' & Hres' & Hlm & Hlu).
  rewrite Hres in Hres'. injection Hres' as <- <-.
  exists matched, unmatched. eexists.
  split; [exact Hres|].
  set (keys := column_values None df p) in *.
  assert (Hlen : length (rows df) = length keys)
    by (unfold keys, column_values; by rewrite length_map).
  assert (Hall : filter (fun k => k ∈ keys) keys = keys)
    by (apply filter_all, Forall_forall; done).
  assert (Hnone : filter (fun k => k ∉ keys) keys = [])
    by (apply filter_none, Forall_forall; intros k Hk Hnot; by apply Hnot).
  rewrite Hnone in Hlu. simpl in Hlu.
  split; [by apply nil_length_inv|]. split; [exact Hmatched|].
  split.
  { apply Forall_forall. intros jr Hjr.
    by apply list_elem_of_filter in Hjr as [? _]. }
  assert (Hocc : forall i, i < length (rows df) ->
            exists k, keys !! i = Some k
                      /\ left_occurrences i
                           (filter (fun jr => indicator_of jr = both)
                                   (full_outer_join arrange keys keys))
                         = length (positions k keys)
                      /\ 0 < length (positions k keys)).
  { intros i Hi. rewrite Hlen in Hi.
    destruct (lookup_lt_is_Some_2 keys i Hi) as [k Hk]. exists k.
    split; [done|].
    split; [by apply (arranged_left arrange arrange_perm keys keys i k)|].
    apply positions_elem_of in Hk.
    destruct (positions k keys); [by apply elem_of_nil in Hk|simpl; lia]. }
  fold keys. split; [|split].
  - intros i Hi. destruct (Hocc i Hi) as (k & Hk & Hleft & Hpos).
    split; [|by rewrite Hleft].
    rewrite (arranged_pair arrange arrange_perm keys keys i i k k Hk Hk).
    by rewrite decide_True.
  - pose proof (equal_pairs_at_least keys keys) as Hle. rewrite Hall in Hle. lia.
  - intros Hnd. split.
    + intros i Hi. destruct (Hocc i Hi) as (k & Hk & -> & _).
      apply (positions_unique k keys i Hk). intros i' Hk'.
      by eapply NoDup_lookup.
    + by rewrite Hlm, (equal_pairs_NoDup keys keys Hnd), Hall.
Qed.

(** X25: two tables without a key value in common have no matched row.
    The rows of [unmatched] are, one for one, the rows described for
    rows [ju] of the join, each with the cells of one row of one table;
    every row of either table occurs there exactly once, so that
    [unmatched] has as many rows as the two tables together. *)
Theorem match_data_disjoint_keys (left right : DataFrame (option V))
    (left_on right_on : label) (p q : nat) :
  mergeable keys_comparable left right left_on right_on ->
  columns left !! p = Some left_on ->
  columns right !! q = Some right_on ->
  (forall k, k ∈ column_values None left p -> k ∉ column_values None right q) ->
  exists matched unmatched ju,
    match_data arrange keys_comparable promote empty_left_drops_left_key
               left right left_on right_on
    = Ok (matched, unmatched)
    /\ rows matched = []
    /\ Forall2 (row_for promote empty_left_drops_left_key
                        left right left_on right_on p q)
               ju (rows unmatched)
    /\ Forall (fun jr => indicator_of jr <> both) ju
    /\ (forall i, i < length (rows left) -> left_occurrences i ju = 1)
    /\ (forall j, j < length (rows right) -> right_occurrences j ju = 1)
    /\ length (rows unmatched) = length (rows left) + length (rows right).
Proof.
  intros Hm Hp Hq Hdisjoint.
  destruct (match_data_described arrange keys_comparable promote
              empty_left_drops_left_key arrange_perm left right
              left_on right_on p q Hm Hp Hq)
    as (matched & unmatched & Hres & _ & Hunmatched).
  destruct (match_data_lengths arrange keys_comparable promote
              empty_left_drops_left_key arrange_perm left right
              left_on right_on p q Hm Hp Hq)
    as (matched' & unmatched' & Hres' & Hlm & Hlu).
  rewrite Hres in Hres'. injection Hres' as <- <-.
  exists matched, unmatched. eexists. split; [exact Hres|].
  set (lkeys := column_values None left p) in *.
  set (rkeys := column_values None right q) in *.
  assert (Hl : length (rows left) = length lkeys)
    by (unfold lkeys, column_values; by rewrite length_map).
  assert (Hr : length (rows right) = length rkeys)
    by (unfold rkeys, column_values; by rewrite length_map).
  split.
  { apply nil_length_inv. rewrite Hlm.
    assert (Hzero : Forall (fun k => length (positions k rkeys) = 0) lkeys).
    { apply Forall_forall. intros k Hk.
      by rewrite (proj2 (positions_nil_iff k rkeys) (Hdisjoint k Hk)). }
    clear -Hzero. induction Hzero as [|k l Hk _ IH]; simpl; [done|]. lia. }
  split; [exact Hunmatched|]. split.
  { apply Forall_forall. intros jr Hjr.
    by apply list_elem_of_filter in Hjr as [? _]. }
  fold lkeys rkeys. split; [|split].
  - intros i Hi. rewrite Hl in Hi.
    destruct (lookup_lt_is_Some_2 lkeys i Hi) as [k Hk].
    destruct (arranged_left arrange arrange_perm lkeys rkeys i k Hk) as [_ ->].
    rewrite decide_True; [done|]. apply positions_nil_iff, Hdisjoint.
    by eapply list_elem_of_lookup_2.
  - intros j Hj. rewrite Hr in Hj.
    destruct (lookup_lt_is_Some_2 rkeys j Hj) as [k Hk].
    destruct (arranged_right arrange arrange_perm lkeys rkeys j k Hk) as [_ ->].
    rewrite decide_True; [done|]. apply positions_nil_iff.
    intros Hin. apply (Hdisjoint k Hin). by eapply list_elem_of_lookup_2.
  - rewrite Hlu, Hl, Hr. f_equal.
    + f_equal. apply filter_all, Forall_forall. done.
    + f_equal. apply filter_all, Forall_forall. intros k Hk Hin.
      by apply (Hdisjoint k Hin).
Qed.

End MatcherExtremes.

Lemma shared_left_self_mergeable :
  mergeable one_kind shared_left shared_left (PyStr.lit "k") (PyStr.lit "k").
Proof.
  apply mergeable_intro; try by_computation; repeat constructor.
Qed.

Lemma match_data_self_witness :
  (forall l, in_group_order l ≡ₚ l)
  /\ mergeable one_kind shared_left shared_left (PyStr.lit "k") (PyStr.lit "k")
  /\ columns shared_left !! 0 = Some (PyStr.lit "k")
  /\ exists matched unmatched jm,
      match_data in_group_order one_kind promote_int false shared_left shared_left
                 (PyStr.lit "k") (PyStr.lit "k")
      = Ok (matched, unmatched)
      /\ rows unmatched = []
      /\ Forall2 (row_for promote_int false shared_left shared_left
                          (PyStr.lit "k") (PyStr.lit "k") 0 0)
                 jm (rows matched)
      /\ Forall (fun jr => indicator_of jr = both) jm
      /\ (forall i, i < length (rows shared_left) ->
            pair_occurrences i i jm = 1 /\ 0 < left_occurrences i jm)
      /\ length (rows shared_left) <= length (rows matched)
      /\ (NoDup (column_values None shared_left 0) ->
          (forall i, i < length (rows shared_left) -> left_occurrences i jm = 1)
          /\ length (rows matched) = length (rows shared_left)).
Proof.
  split; [exact in_group_order_perm|]. split; [exact shared_left_self_mergeable|].
  split; [reflexivity|].
  exact (match_data_self in_group_order one_kind promote_int false in_group_order_perm shared_left
           (PyStr.lit "k") 0 shared_left_self_mergeable eq_refl).
Defined.

Lemma far_tables_mergeable :
  mergeable one_kind shared_left far_right (PyStr.lit "k") (PyStr.lit "k").
Proof.
  apply mergeable_intro; try by_computation; repeat constructor.
Qed.

Lemma far_tables_disjoint :
  forall k, k ∈ column_values None shared_left 0 -> k ∉ column_values None far_right 0.
Proof.
  intros k Hk Hk'.
  change (k ∈ [Some 1%Z; Some 2%Z]) in Hk.
  change (k ∈ [Some 8%Z; Some 9%Z]) in Hk'.
  rewrite !elem_of_cons, elem_of_nil in Hk. rewrite !elem_of_cons, elem_of_nil in Hk'.
  destruct Hk as [->|[->|[]]]; destruct Hk' as [?|[?|[]]]; discriminate.
Qed.

Lemma match_data_disjoint_keys_witness :
  (forall l, in_group_order l ≡ₚ l)
  /\ mergeable one_kind shared_left far_right (PyStr.lit "k") (PyStr.lit "k")
  /\ columns shared_left !! 0 = Some (PyStr.lit "k")
  /\ columns far_right !! 0 = Some (PyStr.lit "k")
  /\ (forall k, k ∈ column_values None shared_left 0 ->
                k ∉ column_values None far_right 0)
  /\ exists matched unmatched ju,
      match_data in_group_order one_kind promote_int false shared_left far_right
                 (PyStr.lit "k") (PyStr.lit "k")
      = Ok (matched, unmatched)
      /\ rows matched = []
      /\ Forall2 (row_for promote_int false shared_left far_right
                          (PyStr.lit "k") (PyStr.lit "k") 0 0)
                 ju (rows unmatched)
      /\ Forall (fun jr => indicator_of jr <> both) ju
      /\ (forall i, i < length (rows shared_left) -> left_occurrences i ju = 1)
      /\ (forall j, j < length (rows far_right) -> right_occurrences j ju = 1)
      /\ length (rows unmatched) = length (rows shared_left) + length (rows far_right).
Proof.
  split; [exact in_group_order_perm|]. split; [exact far_tables_mergeable|].
  split; [reflexivity|]. split; [reflexivity|]. split; [exact far_tables_disjoint|].
  exact (match_data_disjoint_keys in_group_order one_kind promote_int false in_group_order_perm
           shared_left far_right (PyStr.lit "k") (PyStr.lit "k") 0 0
           far_tables_mergeable eq_refl eq_refl far_tables_disjoint).
Defined.

(** What the page shows for the two files of the scenario: the two
    keys differ in name, so that each key column gets a null from a
    row without partner and is shown as doubles. *)
Example results_page_scenario :
  results_page PyStr.latin_and_dotted_i latin_upper sample_s3 no_element_tree
               sample_loads in_group_order false ready_session false
  = Covered (Ok (ready_session,
       [st_success_metadata_key (PyStr.lit "id");
        st_success_customer_key (PyStr.lit "cust_id");
        st_subheader_matched 1;
        st_dataframe
          (mkFrame [PyStr.lit "Id"; PyStr.lit "File X"; PyStr.lit "Cust Id";
                    PyStr.lit "File Y"]
             [[Data (Some (SFloat (nearest_double 1)));
               Data (Some (SStr (PyStr.lit "a.jpg")));
               Data (Some (SFloat (nearest_double 1)));
               Data (Some (SStr (PyStr.lit "a.jpg")))]]);
        st_subheader_unmatched 2;
        st_dataframe
          (mkFrame [PyStr.lit "Id"; PyStr.lit "File X"; PyStr.lit "Cust Id";
                    PyStr.lit "File Y"]
             [[Data (Some (SFloat (nearest_double 2)));
               Data (Some (SStr (PyStr.lit "b.jpg")));
               Data None; Data None];
              [Data None; Data None;
               Data (Some (SFloat (nearest_double 3)));
               Data (Some (SStr (PyStr.lit "c.jpg")))]])])).
Proof. vm_compute. reflexivity. Qed.

(** ** The parser: a CSV file without a line *)

Lemma decode_utf8_line_feeds (bs : list N) :
  Forall (fun b => b = line_feed) bs -> decode_utf8 bs = Ok bs.
Proof.
  induction 1 as [|b bs -> _ IH]; [done|].
  cbn [decode_utf8]. unfold line_feed. simpl. by rewrite IH.
Qed.

Lemma split_line_feeds (s : list N) :
  Forall (fun c => c = line_feed) s ->
  Forall (fun piece => ~ blank_line piece = false) (split_on line_feed s).
Proof.
  induction 1 as [|c s -> _ IH]; simpl.
  - constructor; [done|constructor].
  - constructor; [done|done].
Qed.

(** X26: a CSV file that holds nothing but line feeds, the file of no
    byte among them, has no header: the parser returns the empty table
    and reports pandas' [EmptyDataError] under the name of the file. *)
Theorem parse_metadata_blank_csv (et_parse : list N -> covered (result element))
    (ujson_loads : list N -> result json)
    (file_content filename : list N) :
  Forall (fun b => b = line_feed) file_content ->
  parse_metadata et_parse ujson_loads file_content (PyStr.lit "CSV") filename
  = Covered (empty_frame, [st_error_failed_to_parse filename EmptyDataError]).
Proof.
  intros Hblank. unfold parse_metadata, parse_body.
  rewrite decide_True by done. rewrite decode_utf8_line_feeds by done. simpl.
  unfold read_csv.
  assert (Hchars : forallb csv_char file_content = true).
  { apply forallb_true_Forall. eapply Forall_impl; [exact Hblank|].
    by intros b ->. }
  rewrite Hchars. simpl. unfold csv_records.
  rewrite filter_none by (by apply split_line_feeds). done.
Qed.

Lemma parse_metadata_blank_csv_witness :
  Forall (fun b => b = line_feed) [line_feed; line_feed]
  /\ parse_metadata no_element_tree sample_loads [line_feed; line_feed] (PyStr.lit "CSV")
                    (PyStr.lit "meta.csv")
     = Covered (empty_frame,
                [st_error_failed_to_parse (PyStr.lit "meta.csv") EmptyDataError]).
Proof.
  assert (Hblank : Forall (fun b => b = line_feed) [line_feed; line_feed])
    by (by repeat constructor).
  split; [exact Hblank|].
  exact (parse_metadata_blank_csv no_element_tree sample_loads [line_feed; line_feed]
           (PyStr.lit "meta.csv") Hblank).
Defined.

(** ** Normalized names have no underscore *)

(** X27: after the normalization of a table with ASCII column names,
    the table has as many columns as before, and no column name holds
    an underscore any more. *)
Theorem clean_column_headers_no_underscore {C} (db : PyStr.ucd)
    (h : gmap nat (DataFrame C)) (df : nat) (frame : DataFrame C) :
  PyStr.basic_latin db ->
  h !! df = Some frame ->
  Forall PyStr.ascii_str (columns frame) ->
  exists h' frame',
    clean_column_headers db df h = Some (df, h')
    /\ h' !! df = Some frame'
    /\ length (columns frame') = length (columns frame)
    /\ Forall (fun name => PyStr.underscore ∉ name) (columns frame').
Proof.
  intros Hdb Hframe Hascii. unfold clean_column_headers. rewrite Hframe.
  eexists _, _. split; [reflexivity|]. rewrite lookup_insert_eq.
  split; [reflexivity|]. simpl. split; [by rewrite length_map|].
  rewrite map_fmap. apply Forall_fmap. eapply Forall_impl; [exact Hascii|].
  intros name Hname. simpl. rewrite clean_header_ascii by done.
  pose proof (title_chars_no_underscore (spaced name) false
                (spaced_no_underscore name)) as Hno.
  rewrite Forall_forall in Hno. intros Hin. by apply (Hno _ Hin).
Qed.

Lemma clean_column_headers_no_underscore_witness :
  PyStr.basic_latin PyStr.latin_and_dotted_i
  /\ order_heap !! 0 = Some order_frame
  /\ Forall PyStr.ascii_str (columns order_frame)
  /\ exists h' frame',
      clean_column_headers PyStr.latin_and_dotted_i 0 order_heap = Some (0, h')
      /\ h' !! 0 = Some frame'
      /\ length (columns frame') = length (columns order_frame)
      /\ Forall (fun name => PyStr.underscore ∉ name) (columns frame').
Proof.
  split; [exact latin_and_dotted_i_basic|]. split; [exact order_heap_lookup|].
  split; [exact order_frame_ascii|].
  exact (clean_column_headers_no_underscore PyStr.latin_and_dotted_i order_heap 0
           order_frame latin_and_dotted_i_basic order_heap_lookup order_frame_ascii).
Defined.
